(** * Denzel's Remit: the quote / settlement core of [src/app.py] and [src/App.py]

    A shallow embedding of the two Streamlit prototypes.  Python [float]s are
    IEEE-754 binary64 numbers, modelled by [spec_float] with the operations of
    the standard library's [SpecFloat] at precision 53; dictionaries are
    [gmap]s; [st.session_state] is an explicit record threaded through one
    run of the script. *)

From Stdlib Require Import ZArith Lia Bool.
From Stdlib Require Import Floats.
From stdpp Require Import gmap strings list.

Open Scope Z_scope.

(** ** Binary64 arithmetic as Python performs it *)

Module F64.

Definition float := spec_float.

Definition prec : Z := 53.
Definition emax : Z := 1024.

Definition mul : float -> float -> float := SFmul prec emax.
Definition add : float -> float -> float := SFadd prec emax.
Definition sub : float -> float -> float := SFsub prec emax.
Definition ltb : float -> float -> bool := SFltb.
Definition leb : float -> float -> bool := SFleb.

(** Quotient [a / b] rounded to the nearest integer, ties to even
    ([0 <= a], [0 < b]). *)
Definition rne_div (a b : Z) : Z :=
  let q := a / b in
  let r := a mod b in
  match 2 * r ?= b with
  | Lt => q
  | Gt => q + 1
  | Eq => if Z.even q then q else q + 1
  end.

(** Rounding to binary64 works on values measured in units of
    [2 ^ -1074], the smallest positive double.  [expo N D] is the exponent,
    counted from -1074, of the double nearest to [N / D] units: the least
    [T >= 0] that leaves the mantissa at most 53 bits. *)
Definition expo (N D : Z) : Z := Z.max 0 (Zdigits2 (N / D) - prec).

(** Mantissa [q <= 2 ^ 53] at exponent [T - 1074] as a float: a mantissa of
    [2 ^ 53] is renormalised, exponents above [emax - prec] overflow. *)
Definition pack (s : bool) (q T : Z) : float :=
  let '(q', T') := if q =? 2 ^ prec then (2 ^ (prec - 1), T + 1) else (q, T) in
  match q' with
  | Zpos p => if T' - 1074 <=? emax - prec then S754_finite s p (T' - 1074)
              else S754_infinity s
  | _ => S754_zero s
  end.

(** [round_units s N D]: the double nearest to [N / D] units ([0 <= N],
    [0 < D]), ties to even, with sign [s].  On [m * 2 ^ e] it is the
    standard library's [binary_round] (lemma [binary_round_units]). *)
Definition round_units (s : bool) (N D : Z) : float :=
  let T := expo N D in
  pack s (rne_div N (D * 2 ^ T)) T.

(** [nearest s n d]: the double nearest to the rational [n / d], with sign
    [s].  This is what C's [strtod] returns for a decimal string, hence the
    value of a Python float literal and of the string-to-float step of
    [round]. *)
Definition nearest (s : bool) (n d : Z) : float :=
  round_units s (n * 2 ^ 1074) d.

(** Python's [round(x, 2)] on a float.  CPython prints the exact binary
    value of [x] with two decimals, rounding half to even ([dtoa] mode 3),
    and parses that string back ([strtod]); the sign of [x] is kept, and
    zeros, infinities and NaN are returned as they are.  A finite float
    with a non-negative exponent is an integer and is its own result. *)
Definition round2 (x : float) : float :=
  match x with
  | S754_finite s m e =>
      if 0 <=? e then x
      else match rne_div (100 * Zpos m) (2 ^ (- e)) with
           | Zpos k => nearest s (Zpos k) 100
           | _ => S754_zero s
           end
  | _ => x
  end.

(** The float literal [n / 10 ^ k], e.g. [lit 12 3] for [0.012]. *)
Definition lit (n : Z) (k : Z) : float :=
  match n with
  | Z0 => S754_zero false
  | Zpos _ => nearest false n (10 ^ k)
  | Zneg _ => nearest true (- n) (10 ^ k)
  end.

Definition zero : float := S754_zero false.

(** *** Vocabulary of the rounding theory *)

(** A genuine binary64 value: canonical mantissa, exponent in range. *)
Definition valid (x : float) : Prop := SpecFloat.valid_binary prec emax x = true.

Definition is_finite (x : float) : bool :=
  match x with
  | S754_finite _ _ _ | S754_zero _ => true
  | _ => false
  end.

(** The value of a finite float in units of [2 ^ -1074]; an integer when
    the float is valid. *)
Definition units (x : float) : Z :=
  match x with
  | S754_finite s m e => cond_Zopp s (Zpos m * 2 ^ (e + 1074))
  | _ => 0
  end.

(** The float nearest to [u] units. *)
Definition of_units (u : Z) : float :=
  match u with
  | Z0 => S754_zero false
  | Zpos _ => round_units false u 1
  | Zneg p => round_units true (Zpos p) 1
  end.

(** Valid and zero, positive or plus infinity. *)
Definition nonneg (x : float) : Prop :=
  valid x
  /\ match x with
     | S754_zero false | S754_finite false _ _ | S754_infinity false => True
     | _ => False
     end.

(** Mantissa / exponent pairs: [canon] for those of valid finite floats,
    [in_range] for what rounding produces before renormalisation. *)
Definition canon (q T : Z) : Prop :=
  0 < q < 2 ^ 53 /\ 0 <= T /\ (0 < T -> 2 ^ 52 <= q).

Definition in_range (q T : Z) : Prop :=
  0 <= q <= 2 ^ 53 /\ 0 <= T /\ (0 < T -> 2 ^ 52 <= q).

(** The rank of a pair in the order of the doubles. *)
Definition ord (q T : Z) : Z := q + T * 2 ^ 52.

Definition unpack (s : bool) (q T : Z) : float :=
  if T <=? 2045 then S754_finite s (Z.to_pos q) (T - 1074) else S754_infinity s.

(** The shift register of [SpecFloat] after [k] right shifts of [X]. *)
Definition repr (X k : Z) (mrs : shr_record) : Prop :=
  shr_m mrs = X / 2 ^ k
  /\ shr_r mrs = (2 ^ k <=? 2 * (X mod 2 ^ k))
  /\ shr_s mrs = negb (X mod 2 ^ k =? 0) && negb (2 * (X mod 2 ^ k) =? 2 ^ k).

(** [M * 2 ^ E] in units, as a fraction. *)
Definition units_num (M E : Z) : Z :=
  if 0 <=? E + 1074 then M * 2 ^ (E + 1074) else M.

Definition units_den (E : Z) : Z :=
  if 0 <=? E + 1074 then 1 else 2 ^ (- E - 1074).

End F64.

Declare Scope f64_scope.
Delimit Scope f64_scope with f64.
Infix "*" := F64.mul : f64_scope.
Infix "+" := F64.add : f64_scope.
Infix "-" := F64.sub : f64_scope.
Infix "<?" := F64.ltb : f64_scope.
Infix "<=?" := F64.leb : f64_scope.

Import F64.

(** The literals of the two source files. *)
Definition f_0_012 : float := Eval vm_compute in lit 12 3.
Definition f_0_50 : float := Eval vm_compute in lit 50 2.
Definition f_0_015 : float := Eval vm_compute in lit 15 3.
Definition f_1_0 : float := Eval vm_compute in lit 1 0.
Definition f_0_93 : float := Eval vm_compute in lit 93 2.
Definition f_1620_0 : float := Eval vm_compute in lit 1620 0.
Definition f_1750_0 : float := Eval vm_compute in lit 1750 0.
Definition f_0_92 : float := Eval vm_compute in lit 92 2.
Definition f_0_85 : float := Eval vm_compute in lit 85 2.
Definition f_1_15 : float := Eval vm_compute in lit 115 2.
Definition f_0_8 : float := Eval vm_compute in lit 8 1.
Definition f_1_2 : float := Eval vm_compute in lit 12 1.
Definition f_5_0 : float := Eval vm_compute in lit 5 0.
Definition f_15000_0 : float := Eval vm_compute in lit 15000 0.
Definition f_2500_00 : float := Eval vm_compute in lit 2500 0.
Definition f_1800_00 : float := Eval vm_compute in lit 1800 0.
Definition f_4500000_00 : float := Eval vm_compute in lit 4500000 0.

(** ** Data model ([src/app.py], lines 24-58) *)

Module Currency.
Record t := mk { code : string; balance : float }.
End Currency.

Module User.
Record t := mk {
  id : string;
  name : string;
  currencies : gmap string Currency.t;
  phone : string }.
End User.

Module Quote.
Record t := mk {
  id : string;
  source_currency : string;
  target_currency : string;
  rate : float;
  fees : float;
  expiry : Z;             (* a [datetime], in microseconds *)
  amount_sent : float;
  amount_received : float }.
End Quote.

Module Transaction.
Record t := mk {
  id : string;
  sender_id : string;
  receiver_id : string;
  amount_sent : float;
  currency_sent : string;
  amount_received : float;
  currency_received : string;
  quote_id : string;
  status : string;        (* default ["Pending"] *)
  timestamp : Z }.        (* default: [datetime.now()] at class definition *)
End Transaction.

(** [st.session_state]: the three in-memory tables (lines 61-66) and the two
    keys the main flow adds (lines 157-158). *)
Record session_state := mk_state {
  users : gmap string User.t;
  quotes : gmap string Quote.t;
  transactions : list Transaction.t;
  current_quote : option Quote.t;
  quote_time : option Z }.

Definition initial_state : session_state :=
  mk_state ∅ ∅ [] None None.

Definition set_users (f : gmap string User.t -> gmap string User.t)
    (st : session_state) : session_state :=
  mk_state (f (users st)) (quotes st) (transactions st)
           (current_quote st) (quote_time st).

Definition set_quotes (f : gmap string Quote.t -> gmap string Quote.t)
    (st : session_state) : session_state :=
  mk_state (users st) (f (quotes st)) (transactions st)
           (current_quote st) (quote_time st).

Definition set_transactions (f : list Transaction.t -> list Transaction.t)
    (st : session_state) : session_state :=
  mk_state (users st) (quotes st) (f (transactions st))
           (current_quote st) (quote_time st).

Definition set_current_quote (q : option Quote.t) (st : session_state)
    : session_state :=
  mk_state (users st) (quotes st) (transactions st) q (quote_time st).

Definition set_quote_time (t : option Z) (st : session_state)
    : session_state :=
  mk_state (users st) (quotes st) (transactions st) (current_quote st) t.

(** The balance held for a (phone, currency code) pair, if there is one. *)
Definition balance_of (st : session_state) (p c : string) : option float :=
  u ← users st !! p; cur ← User.currencies u !! c; Some (Currency.balance cur).

(** ** Fees and quotes ([src/app.py], lines 68-106) *)

(** [round(amount * 0.012 + 0.50, 2)] *)
Definition calculate_fees (amount : float) : float :=
  round2 (amount * f_0_012 + f_0_50)%f64.

Definition base_rates : gmap (string * string) float :=
  <[("USD", "EUR") := f_0_93]>
    (<[("USD", "NGN") := f_1620_0]>
       (<[("EUR", "NGN") := f_1750_0]> ∅)).

(** Line 91, [base_rates.get((source, target), random.uniform(0.85, 1.15))]:
    the rate of a quote.  [u] is the number [random.uniform] drew; Python
    evaluates the default before the lookup, pinned pair or not. *)
Definition resolve_rate (source target : string) (u : float) : float :=
  default u (base_rates !! (source, target)).

(** The documented contract of [random.uniform(0.85, 1.15)]. *)
Definition uniform_0_85_1_15 (u : float) : Prop :=
  (f_0_85 <=? u)%f64 = true /\ (u <=? f_1_15)%f64 = true.

Definition ten_minutes : Z := 600000000.

(** [PaymentProcessor.create_quote]: [uid] is the [uuid4] string, [u] the
    random draw and [now] the clock reading of line 101. *)
Definition create_quote (st : session_state) (source target : string)
    (amount : float) (uid : string) (u : float) (now : Z)
    : session_state * Quote.t :=
  let rate := resolve_rate source target u in
  let fees := calculate_fees amount in
  let received := round2 (amount * rate - fees)%f64 in
  let quote :=
    Quote.mk uid source target rate fees (now + ten_minutes) amount received in
  (set_quotes <[uid := quote]> st, quote).

(** [PaymentProcessor.resolve_receiver] (lines 77-86).  A [User] object is
    always truthy, so [None] is returned exactly for an unknown phone.  The
    codes of ["currencies"] are kept as a set: the list has them in the
    insertion order of the dict, which a [gmap] does not record. *)
Record receiver_info := mk_receiver_info {
  ri_user : User.t;
  ri_currencies : gset string;
  ri_min_amount : float;
  ri_max_amount : float }.

Definition resolve_receiver (st : session_state) (phone : string)
    : option receiver_info :=
  match users st !! phone with
  | None => None
  | Some user =>
      Some (mk_receiver_info user (dom (User.currencies user)) f_5_0 f_15000_0)
  end.

(** ** The script ([src/app.py], lines 112-211)

    Streamlit runs the whole file once per user interaction.  One run reads
    the widgets, and draws identifiers and clock readings from its
    environment. *)

Record widgets := mk_widgets {
  w_phone : string;             (* sidebar text input, line 115 *)
  w_receiver_phone : string;    (* line 137 *)
  w_source_curr : string;       (* selectbox, line 149 *)
  w_target_curr : string;       (* selectbox, line 150 *)
  w_amount : float;             (* number_input, line 151 *)
  w_get_quote : bool;           (* the "Get Locked Quote" button fired *)
  w_confirm : bool }.           (* the "Confirm & Transfer" button fired *)

Record environment := mk_env {
  uuid_user : string;           (* uuid4 of line 120 *)
  uuid_quote : string;          (* uuid4 of line 96 *)
  uuid_tx : string;             (* uuid4 of line 190 *)
  uniform_draw : float;         (* random.uniform of line 91 *)
  now_class : Z;                (* datetime.now() of line 58 *)
  now_quote : Z;                (* datetime.now() of line 101 *)
  now_panel : Z;                (* datetime.now() of line 165 *)
  time_time : Z }.              (* time.time() of line 158 *)

(** Line 144: the name the page shows for the receiver. *)
Definition receiver_name (st : session_state) (receiver_phone : string)
    : string :=
  match resolve_receiver st receiver_phone with
  | None => "Unknown (will create on send)"
  | Some info => User.name (ri_user info)
  end.

(** Lines 143, 149 and 150: the options of the two currency selectboxes,
    and what the selectboxes of a run can hold. *)
Definition supported : list string := ["USD"; "EUR"; "NGN"].

Definition offered (w : widgets) : Prop :=
  w_source_curr w ∈ supported /\ w_target_curr w ∈ supported.

(** Line 151: what [number_input("Amount", min_value=5.0,
    max_value=15000.0)] can return, a binary64 value in that range. *)
Definition amount_in_range (a : float) : Prop :=
  valid a /\ (f_5_0 <=? a)%f64 = true /\ (a <=? f_15000_0)%f64 = true.

(** What the quote panel (lines 160-211) did in a run. *)
Inductive outcome :=
  | NoReceiver                           (* line 139: empty receiver phone *)
  | NoQuote                              (* line 160: no current quote *)
  | Expired                              (* line 167: "Quote expired. Get a new one." *)
  | Shown                                (* lines 170-184: quote card only *)
  | Complete (tx : Transaction.t)        (* line 207: "Transfer Complete!" *)
  | KeyError.                            (* an uncaught KeyError ends the run *)

(** The settlement failures the specification names, and the one the script
    ever signals: the expiry warning of line 167. *)
Inductive settle_error :=
  | QuoteNotFound
  | QuoteExpired
  | QuoteAlreadyConsumed
  | InsufficientFunds.

Definition signalled (o : outcome) : option settle_error :=
  match o with
  | Expired => Some QuoteExpired
  | _ => None
  end.

(** Lines 119-128: the demo user created for an unseen sidebar phone. *)
Definition demo_user (uid phone : string) : User.t :=
  User.mk uid "Denzel"
    (<["USD" := Currency.mk "USD" f_2500_00]>
       (<["EUR" := Currency.mk "EUR" f_1800_00]>
          (<["NGN" := Currency.mk "NGN" f_4500000_00]> ∅)))
    phone.

(** Lines 117-129. *)
Definition sidebar (st : session_state) (phone uid : string) : session_state :=
  if decide (phone = "") then st
  else match users st !! phone with
       | Some _ => st
       | None => set_users <[phone := demo_user uid phone]> st
       end.

(** Lines 187-211, the body of the "Confirm & Transfer" handler for the
    current [quote].  [uid] is the transaction's uuid and [ts] the default
    timestamp.  Line 191 raises [KeyError] before anything is written when
    the sidebar phone has no user; line 203 raises it after the append of
    line 200 when the user lacks the source currency. *)
Definition confirm_transfer (st : session_state) (phone receiver_phone : string)
    (quote : Quote.t) (uid : string) (ts : Z) : session_state * outcome :=
  match users st !! phone with
  | None => (st, KeyError)
  | Some sender =>
      let tx :=
        Transaction.mk uid (User.id sender) receiver_phone
          (Quote.amount_sent quote) (Quote.source_currency quote)
          (Quote.amount_received quote) (Quote.target_currency quote)
          (Quote.id quote) "Settled" ts in
      let st1 := set_transactions (fun l => l ++ [tx]) st in
      match User.currencies sender !! Quote.source_currency quote with
      | None => (st1, KeyError)
      | Some sender_bal =>
          let sender_bal' :=
            Currency.mk (Currency.code sender_bal)
              (Currency.balance sender_bal
               - (Quote.amount_sent quote + Quote.fees quote))%f64 in
          let sender' :=
            User.mk (User.id sender) (User.name sender)
              (<[Quote.source_currency quote := sender_bal']>
                 (User.currencies sender))
              (User.phone sender) in
          (set_current_quote None (set_users <[phone := sender']> st1),
           Complete tx)
      end
  end.

(** Line 165, in microseconds: [max(0, (quote.expiry - now).total_seconds())]
    is positive exactly when this is. *)
Definition remaining (quote : Quote.t) (now : Z) : Z :=
  Z.max 0 (Quote.expiry quote - now).

(** Lines 160-211: expiry check, quote card, confirmation. *)
Definition quote_panel (st : session_state) (phone receiver_phone : string)
    (confirm : bool) (now : Z) (uid : string) (ts : Z)
    : session_state * outcome :=
  match current_quote st with
  | None => (st, NoQuote)
  | Some quote =>
      if remaining quote now <=? 0 then (set_current_quote None st, Expired)
      else if confirm then confirm_transfer st phone receiver_phone quote uid ts
      else (st, Shown)
  end.

(** Lines 153-158: the "Get Locked Quote" button. *)
Definition get_locked_quote (st : session_state) (w : widgets)
    (env : environment) : session_state :=
  if w_get_quote w && (zero <? w_amount w)%f64 then
    let '(st', quote) :=
      create_quote st (w_source_curr w) (w_target_curr w) (w_amount w)
        (uuid_quote env) (uniform_draw env) (now_quote env) in
    set_quote_time (Some (time_time env)) (set_current_quote (Some quote) st')
  else st.

(** One run of the script. *)
Definition script (st : session_state) (w : widgets) (env : environment)
    : session_state * outcome :=
  let st := sidebar st (w_phone w) (uuid_user env) in
  if decide (w_receiver_phone w = "") then (st, NoReceiver)
  else
    quote_panel (get_locked_quote st w env) (w_phone w) (w_receiver_phone w)
      (w_confirm w) (now_panel env) (uuid_tx env) (now_class env).

(** A session: the runs in order. *)
Definition session (st : session_state) (runs : list (widgets * environment))
    : session_state :=
  fold_left (fun st r => fst (script st r.1 r.2)) runs st.

(** The [Settled] transactions recorded for a quote id. *)
Definition settled_for (qid : string) (txs : list Transaction.t)
    : list Transaction.t :=
  filter (fun tx => Transaction.quote_id tx = qid
                    /\ Transaction.status tx = "Settled") txs.

(** Lines 214-217, "Recent Activity": [reversed(transactions[-5:])], the
    last five transactions, newest first. *)
Definition recent_activity (st : session_state) : list Transaction.t :=
  reverse (drop (length (transactions st) - 5) (transactions st)).

(** ** The earlier prototype ([src/App.py], lines 47-76) *)

Module Prototype.

Record Quote := mk_quote {
  id : string;
  source_currency : string;
  target_currency : string;
  rate : float;
  fees : float;
  expiry : Z }.

(** [round(amount * 0.015 + 1.0, 2)] *)
Definition calculate_fees (amount : float) : float :=
  round2 (amount * f_0_015 + f_1_0)%f64.

(** Line 63; [u] is the draw of [random.uniform(0.8, 1.2)]. *)
Definition resolve_rate (source target : string) (u : float) : float :=
  if decide (source = "USD" /\ target = "EUR") then f_0_92 else u.

Definition uniform_0_8_1_2 (u : float) : Prop :=
  (f_0_8 <=? u)%f64 = true /\ (u <=? f_1_2)%f64 = true.

Definition five_minutes : Z := 300000000.

Definition create_quote (quotes : gmap string Quote) (source target : string)
    (amount : float) (uid : string) (u : float) (now : Z)
    : gmap string Quote * Quote :=
  let rate := resolve_rate source target u in
  let fees := calculate_fees amount in
  let expiry := now + five_minutes in
  let quote := mk_quote uid source target rate fees expiry in
  (<[uid := quote]> quotes, quote).

End Prototype.

(** ** The script of the prototype ([src/App.py], lines 78-143)

    A run executes the file from the top: [users] and [quotes] start empty
    (lines 44-45), and only [st.session_state] is carried from one run to
    the next.  The [users] table of a run holds the sender alone (lines
    87-93) and feeds nothing but the receiver line and the options of the
    target selectbox (lines 99-110), which the widget values stand for. *)

Module PrototypeScript.

(** The prototype's [Transaction] has no timestamp. *)
Record Transaction := mk_tx {
  id : string;
  sender_id : string;
  receiver_id : string;
  amount_sent : float;
  currency_sent : string;
  amount_received : float;
  currency_received : string;
  quote_id : string;
  status : string }.

(** The two keys of [st.session_state] (lines 123-124). *)
Record session_state := mk_state {
  current_quote : option Prototype.Quote;
  stored_received : option float }.

Definition initial_state : session_state := mk_state None None.

Record widgets := mk_widgets {
  w_sender_phone : string;       (* line 82 *)
  w_receiver_phone : string;     (* line 95 *)
  w_source_currency : string;    (* line 109 *)
  w_target_currency : string;    (* line 110 *)
  w_amount_sent : float;         (* line 112 *)
  w_get_quote : bool;            (* "Get Quote" fired *)
  w_confirm : bool }.            (* "Confirm & Send" fired *)

Record environment := mk_env {
  uuid_quote : string;           (* uuid4 of line 68 *)
  uuid_tx : string;              (* uuid4 of line 130 *)
  uniform_draw : float;          (* random.uniform of line 63 *)
  now : Z }.                     (* datetime.now() of line 65 *)

(** What a run displayed: the quote card of lines 118-122, the transaction
    of lines 140-141, or an uncaught [KeyError] at line 135. *)
Record display := mk_display {
  quote_shown : option (Prototype.Quote * float);
  sent : option Transaction;
  key_error : bool }.

(** Lines 114-124: the "Get Quote" button. *)
Definition get_quote (st : session_state) (w : widgets) (env : environment)
    : session_state * option (Prototype.Quote * float) :=
  if w_get_quote w && (zero <? w_amount_sent w)%f64 then
    let quote :=
      (Prototype.create_quote ∅ (w_source_currency w) (w_target_currency w)
         (w_amount_sent w) (uuid_quote env) (uniform_draw env) (now env)).2 in
    let amount_received :=
      round2 (w_amount_sent w * Prototype.rate quote
              - Prototype.fees quote)%f64 in
    (mk_state (Some quote) (Some amount_received),
     Some (quote, amount_received))
  else (st, None).

(** Lines 126-143: the "Confirm & Send" button.  The transaction takes the
    amount and the currencies from the widgets as they are in this run, and
    the amount received from the session. *)
Definition confirm_send (st : session_state) (w : widgets) (env : environment)
    : session_state * option Transaction * bool :=
  match current_quote st with
  | None => (st, None, false)
  | Some quote =>
      if w_confirm w then
        match stored_received st with
        | None => (st, None, true)
        | Some received =>
            let tx :=
              mk_tx (uuid_tx env) "user123" (w_receiver_phone w)
                (w_amount_sent w) (w_source_currency w)
                received (w_target_currency w)
                (Prototype.id quote) "Settled" in
            (mk_state None (stored_received st), Some tx, false)
        end
      else (st, None, false)
  end.

(** One run of the file. *)
Definition script (st : session_state) (w : widgets) (env : environment)
    : session_state * display :=
  if decide (w_sender_phone w = "") then (st, mk_display None None false)
  else if decide (w_receiver_phone w = "") then
    (st, mk_display None None false)
  else
    let '(st1, shown) := get_quote st w env in
    let '(st2, tx, err) := confirm_send st1 w env in
    (st2, mk_display shown tx err).

Definition session (st : session_state) (runs : list (widgets * environment))
    : session_state :=
  fold_left (fun st r => fst (script st r.1 r.2)) runs st.

End PrototypeScript.

(** The current quote, if any, is not the quote [qid]. *)
Definition not_current (qid : string) (st : session_state) : Prop :=
  match current_quote st with
  | None => True
  | Some quote => Quote.id quote <> qid
  end.

(** ** Invariants of a session *)

(** Every account holds every currency the selectboxes offer, as the demo
    account of lines 119-128 does. *)
Definition holds_supported (st : session_state) : Prop :=
  forall p u c, users st !! p = Some u -> c ∈ supported ->
    is_Some (User.currencies u !! c).

(** The quote id [qid] has not been used: it is not the current quote's and
    no settled transaction carries it. *)
Definition unused (qid : string) (st : session_state) : Prop :=
  not_current qid st /\ settled_for qid (transactions st) = [].

(** The current quote, if any, is in an offered source currency and not yet
    settled, and no quote has been settled twice. *)
Definition settles_once (st : session_state) : Prop :=
  holds_supported st
  /\ (forall quote, current_quote st = Some quote ->
        Quote.source_currency quote ∈ supported
        /\ settled_for (Quote.id quote) (transactions st) = [])
  /\ (forall qid, (length (settled_for qid (transactions st)) <= 1)%nat).

(** The numbers of a quote are those [create_quote] computes from its
    amount and rate. *)
Definition quote_consistent (quote : Quote.t) : Prop :=
  Quote.fees quote = calculate_fees (Quote.amount_sent quote)
  /\ Quote.amount_received quote
     = round2 (Quote.amount_sent quote * Quote.rate quote
               - Quote.fees quote)%f64.

(** The transaction copies the quote (lines 193-197). *)
Definition tx_matches (quote : Quote.t) (tx : Transaction.t) : Prop :=
  Transaction.quote_id tx = Quote.id quote
  /\ Transaction.amount_sent tx = Quote.amount_sent quote
  /\ Transaction.currency_sent tx = Quote.source_currency quote
  /\ Transaction.amount_received tx = Quote.amount_received quote
  /\ Transaction.currency_received tx = Quote.target_currency quote.

(** The current quote is stored, every stored quote sits under its own id
    with consistent numbers, and every transaction copies a stored
    quote. *)
Definition ledger_backed (st : session_state) : Prop :=
  (forall quote, current_quote st = Some quote ->
     quotes st !! Quote.id quote = Some quote)
  /\ (forall k quote, quotes st !! k = Some quote ->
        Quote.id quote = k /\ quote_consistent quote)
  /\ Forall (fun tx => exists quote,
               quotes st !! Transaction.quote_id tx = Some quote
               /\ tx_matches quote tx) (transactions st).

(** ** Invariants of the account store *)

(** Every balance is a binary64 value that is not negative. *)
Definition balances_ok (st : session_state) : Prop :=
  forall p c b, balance_of st p c = Some b ->
    valid b /\ (zero <=? b)%f64 = true.

(** The debit of [quote] is a finite amount that the balance [phone] holds
    in the source currency covers. *)
Definition affordable (st : session_state) (phone : string) (quote : Quote.t)
    : Prop :=
  forall b, balance_of st phone (Quote.source_currency quote) = Some b ->
    valid (Quote.amount_sent quote) /\ valid (Quote.fees quote)
    /\ is_finite (Quote.amount_sent quote + Quote.fees quote)%f64 = true
    /\ (Quote.amount_sent quote + Quote.fees quote <=? b)%f64 = true.

(** ** A concrete session, used in examples *)

(** A first run for the sidebar phone ["+234"] that asks for a quote of
    [amount] USD to NGN for a receiver the app has never seen, followed by
    runs that press "Confirm & Transfer". *)
Definition ask (amount : float) : widgets :=
  mk_widgets "+234" "+15550100" "USD" "NGN" amount true false.

Definition press_confirm (amount : float) : widgets :=
  mk_widgets "+234" "+15550100" "USD" "NGN" amount false true.

Definition env_at (n : string) (now : Z) : environment :=
  mk_env ("user-" +:+ n) ("quote-" +:+ n) ("tx-" +:+ n) f_1_0 now now now now.

Definition quoted (amount : float) : session_state :=
  (script initial_state (ask amount) (env_at "1" 0)).1.

Definition confirmed (amount : float) : session_state * outcome :=
  script (quoted amount) (press_confirm amount) (env_at "2" 1000000).

Definition tx_of (amount received : float) : Transaction.t :=
  Transaction.mk "tx-2" "user-1" "+15550100" amount "USD" received "NGN"
    "quote-1" "Settled" 1000000.

(** * Properties *)

(** The literals agree with the kernel's own reading of the same decimal
    numerals as hardware doubles. *)
#[local] Set Warnings "-inexact-float".
Example literals_agree_with_hardware :
  [f_0_012; f_0_50; f_0_015; f_1_0; f_0_93; f_1620_0; f_1750_0; f_0_92;
   f_0_85; f_1_15; f_0_8; f_1_2; f_5_0; f_15000_0]
  = map Prim2SF [0.012; 0.50; 0.015; 1.0; 0.93; 1620.0; 1750.0; 0.92;
                 0.85; 1.15; 0.8; 1.2; 5.0; 15000.0]%float.
Proof. vm_compute. reflexivity. Qed.

(** The arithmetic of [SpecFloat] agrees with the hardware on the fee
    computation of a 100.00 transfer. *)
Example fee_arithmetic_agrees_with_hardware :
  (lit 100 0 * f_0_012 + f_0_50)%f64 = Prim2SF (100.0 * 0.012 + 0.50)%float
  /\ (lit 100 0 * f_1620_0 - lit 170 2)%f64
     = Prim2SF (100.0 * 1620.0 - 1.7)%float.
Proof. vm_compute. split; reflexivity. Qed.

(** [round(x, 2)] as CPython computes it: exact ties go to the even
    neighbour (0.125, 0.375), and a literal that is not a tie in binary
    rounds by its binary value (2.675, 1.005, -0.045). *)
Example round2_examples :
  map round2 [lit 125 3; lit 375 3; lit 2675 3; lit 1005 3; lit (-45) 3;
              lit 1805 1; lit 16199830 2]
  = [lit 12 2; lit 38 2; lit 267 2; lit 1 0; lit (-4) 2;
     lit 1805 1; lit 16199830 2].
Proof. vm_compute. reflexivity. Qed.

(** ** Binary64 rounding *)

Lemma digits2_pos_log2 m : Zpos (digits2_pos m) = Z.log2 (Zpos m) + 1.
Proof.
  induction m as [m IH|m IH|]; cbn [digits2_pos]; [| |reflexivity].
  - rewrite Pos2Z.inj_succ, IH. 
    change (Z.log2 (Z.pos m~1)) with (Z.log2 (2 * Z.pos m + 1)).
    rewrite Z.log2_succ_double by lia. lia.
  - rewrite Pos2Z.inj_succ, IH.
    change (Z.log2 (Z.pos m~0)) with (Z.log2 (2 * Z.pos m)).
    rewrite Z.log2_double by lia. lia.
Qed.

Lemma Zdigits2_log2 z : 0 < z -> Zdigits2 z = Z.log2 z + 1.
Proof. destruct z; try lia. intros _. apply digits2_pos_log2. Qed.

Lemma Zdigits2_nonneg z : 0 <= Zdigits2 z.
Proof. destruct z; cbn; lia. Qed.

Lemma Zdigits2_bounds z :
  0 < z -> 2 ^ (Zdigits2 z - 1) <= z < 2 ^ Zdigits2 z.
Proof.
  intros Hz. rewrite Zdigits2_log2 by lia.
  replace (Z.log2 z + 1 - 1) with (Z.log2 z) by lia.
  replace (Z.log2 z + 1) with (Z.succ (Z.log2 z)) by lia.
  apply Z.log2_spec. lia.
Qed.

Lemma Zdigits2_unique z k :
  0 < z -> 2 ^ (k - 1) <= z < 2 ^ k -> Zdigits2 z = k.
Proof.
  intros Hz Hk. rewrite Zdigits2_log2 by lia.
  assert (0 < k).
  { destruct (Z.le_gt_cases k 0); [|lia].
    rewrite (Z.pow_neg_r 2 (k - 1)) in Hk by lia.
    destruct (Z.eq_dec k 0) as [->|]; [cbn in Hk; lia|].
    rewrite (Z.pow_neg_r 2 k) in Hk by lia. lia. }
  enough (Z.log2 z = k - 1) by lia.
  apply Z.log2_unique; [lia|]. replace (Z.succ (k - 1)) with k by lia. lia.
Qed.

Lemma Zdigits2_mono a b : 0 <= a <= b -> Zdigits2 a <= Zdigits2 b.
Proof.
  intros H. destruct (Z.eq_dec a 0) as [->|]; [apply Zdigits2_nonneg|].
  rewrite !Zdigits2_log2 by lia.
  pose proof (Z.log2_le_mono a b). lia.
Qed.

Lemma Zdigits2_lt_pow z k : 0 <= z -> 0 <= k -> z < 2 ^ k -> Zdigits2 z <= k.
Proof.
  intros Hz Hk Hlt. destruct (Z.eq_dec z 0) as [->|]; [cbn; lia|].
  rewrite Zdigits2_log2 by lia.
  enough (Z.log2 z < k) by lia. apply Z.log2_lt_pow2; lia.
Qed.

Lemma Zdigits2_ge_pow z k : 0 <= k -> 2 ^ k <= z -> k + 1 <= Zdigits2 z.
Proof.
  intros Hk Hle. assert (0 < z) by (pose proof (Z.pow_pos_nonneg 2 k); lia).
  rewrite Zdigits2_log2 by lia.
  enough (k <= Z.log2 z) by lia. apply Z.log2_le_pow2; lia.
Qed.

(** rne_div *)
Section Rne.
Variables a b : Z.
Hypothesis Ha : 0 <= a.
Hypothesis Hb : 0 < b.

Lemma rne_div_spec :
  let q := rne_div a b in
  0 <= q
  /\ 2 * a - b <= 2 * q * b <= 2 * a + b
  /\ (2 * q * b = 2 * a + b -> Z.even q = true)
  /\ (2 * q * b = 2 * a - b -> Z.even q = true).
Proof.
  cbv zeta. unfold rne_div.
  pose proof (Z.div_mod a b ltac:(lia)) as Hdm.
  pose proof (Z.mod_pos_bound a b Hb) as Hr.
  pose proof (Z.div_pos a b Ha Hb) as Hq.
  set (q := a / b) in *. set (r := a mod b) in *.
  destruct (Z.compare_spec (2 * r) b) as [He|Hl|Hg].
  - destruct (Z.even q) eqn:Hev.
    + repeat split; try nia. intros; exact Hev.
    + repeat split; try nia.
      * intros _. rewrite Z.even_add, Hev. reflexivity.
  - repeat split; try nia.
  - repeat split; try nia.
Qed.
End Rne.

Lemma rne_div_mono a1 b1 a2 b2 :
  0 <= a1 -> 0 < b1 -> 0 <= a2 -> 0 < b2 ->
  a1 * b2 <= a2 * b1 ->
  rne_div a1 b1 <= rne_div a2 b2.
Proof.
  intros Ha1 Hb1 Ha2 Hb2 Hle.
  destruct (rne_div_spec a1 b1 Ha1 Hb1) as (Hq1 & [Hl1 Hu1] & He1 & _).
  destruct (rne_div_spec a2 b2 Ha2 Hb2) as (Hq2 & [Hl2 Hu2] & _ & He2).
  set (q1 := rne_div a1 b1) in *. set (q2 := rne_div a2 b2) in *.
  destruct (Z.le_gt_cases q1 q2) as [|Hgt]; [assumption|exfalso].
  assert (H1 : 2 * q1 * (b1 * b2) <= 2 * a2 * b1 + b1 * b2) by nia.
  assert (H2 : 2 * a2 * b1 - b1 * b2 <= 2 * q2 * (b1 * b2)) by nia.
  assert (Hb : 0 < b1 * b2) by nia.
  assert (Hq : q1 = q2 + 1) by nia.
  assert (E1 : 2 * q1 * b1 = 2 * a1 + b1) by nia.
  assert (E2 : 2 * q2 * b2 = 2 * a2 - b2) by nia.
  specialize (He1 E1). specialize (He2 E2).
  rewrite Hq, Z.even_add, He2 in He1. discriminate.
Qed.

Lemma rne_div_exact q b : 0 <= q -> 0 < b -> rne_div (q * b) b = q.
Proof.
  intros Hq Hb. unfold rne_div.
  rewrite Z.div_mul, Z.mod_mul by lia.
  destruct (Z.compare_spec (2 * 0) b); try lia. 
Qed.

Lemma rne_div_scale a b c :
  0 < b -> 0 < c -> rne_div (a * c) (b * c) = rne_div a b.
Proof.
  intros Hb Hc. unfold rne_div.
  rewrite Z.div_mul_cancel_r, Z.mul_mod_distr_r by lia.
  replace (2 * (a mod b * c)) with (2 * (a mod b) * c) by ring.
  rewrite <- Zmult_compare_compat_r by lia. reflexivity.
Qed.

Lemma rne_div_le a b k :
  0 <= a -> 0 < b -> 0 <= k -> a <= k * b -> rne_div a b <= k.
Proof.
  intros Ha Hb Hk Hle. rewrite <- (rne_div_exact k b Hk Hb).
  apply rne_div_mono; nia.
Qed.

Lemma rne_div_ge a b k :
  0 <= a -> 0 < b -> 0 <= k -> k * b <= a -> k <= rne_div a b.
Proof.
  intros Ha Hb Hk Hle. rewrite <- (rne_div_exact k b Hk Hb) at 1.
  apply rne_div_mono; nia.
Qed.

(** *** The rounding core, in units of 2^-1074 *)

Lemma div_cross_mono N1 D1 N2 D2 :
  0 <= N1 -> 0 < D1 -> 0 <= N2 -> 0 < D2 ->
  N1 * D2 <= N2 * D1 -> N1 / D1 <= N2 / D2.
Proof.
  intros HN1 HD1 HN2 HD2 Hle.
  apply Z.div_le_lower_bound; [lia|].
  pose proof (Z.mul_div_le N1 D1 HD1).
  assert (N1 / D1 >= 0) by (apply Z_div_ge0; lia).
  nia.
Qed.

Lemma expo_nonneg N D : 0 <= expo N D.
Proof. unfold expo. lia. Qed.

Lemma expo_mono N1 D1 N2 D2 :
  0 <= N1 -> 0 < D1 -> 0 <= N2 -> 0 < D2 ->
  N1 * D2 <= N2 * D1 -> expo N1 D1 <= expo N2 D2.
Proof.
  intros. unfold expo.
  assert (Zdigits2 (N1 / D1) <= Zdigits2 (N2 / D2)); [|lia].
  apply Zdigits2_mono. split; [apply Z.div_pos; lia|].
  apply div_cross_mono; assumption.
Qed.

Lemma round_units_in_range N D :
  0 <= N -> 0 < D ->
  in_range (rne_div N (D * 2 ^ expo N D)) (expo N D).
Proof.
  intros HN HD.
  pose proof (expo_nonneg N D) as HT.
  set (T := expo N D) in *.
  assert (HP : 0 < 2 ^ T) by (apply Z.pow_pos_nonneg; lia).
  assert (HF : 0 <= N / D) by (apply Z.div_pos; lia).
  pose proof (Z.mul_div_le N D HD) as Hlo.
  pose proof (Z.mul_succ_div_gt N D HD) as Hhi.
  destruct (rne_div_spec N (D * 2 ^ T) HN ltac:(nia)) as (Hq & _).
  assert (Hup : N / D < 2 ^ (T + 53)).
  { destruct (Z.eq_dec (N / D) 0) as [->|Hne].
    - apply Z.pow_pos_nonneg; lia.
    - pose proof (Zdigits2_bounds (N / D) ltac:(lia)) as [_ Hb].
      eapply Z.lt_le_trans; [exact Hb|].
      apply Z.pow_le_mono_r; [lia|]. unfold T, expo, prec. lia. }
  rewrite Z.pow_add_r in Hup by lia.
  split; [|split; [exact HT|]].
  - split; [exact Hq|]. apply rne_div_le; try nia. 
  - intros HT0.
    assert (Hd : Zdigits2 (N / D) = T + 53) by (unfold T, expo, prec in *; lia).
    assert (0 < N / D) by (destruct (N / D); cbn in Hd; lia).
    pose proof (Zdigits2_bounds (N / D) ltac:(lia)) as [Hb _].
    rewrite Hd in Hb. replace (T + 53 - 1) with (T + 52) in Hb by lia.
    rewrite Z.pow_add_r in Hb by lia.
    apply rne_div_ge; try nia. 
Qed.

Lemma round_units_ord_mono N1 D1 N2 D2 :
  0 <= N1 -> 0 < D1 -> 0 <= N2 -> 0 < D2 ->
  N1 * D2 <= N2 * D1 ->
  ord (rne_div N1 (D1 * 2 ^ expo N1 D1)) (expo N1 D1)
  <= ord (rne_div N2 (D2 * 2 ^ expo N2 D2)) (expo N2 D2).
Proof.
  intros HN1 HD1 HN2 HD2 Hle.
  pose proof (expo_mono _ _ _ _ HN1 HD1 HN2 HD2 Hle) as HT.
  destruct (round_units_in_range N1 D1 HN1 HD1) as ([_ Hq1] & HT1 & _).
  destruct (round_units_in_range N2 D2 HN2 HD2) as ([Hq2 _] & HT2 & Hn2).
  unfold ord.
  destruct (Z.eq_dec (expo N1 D1) (expo N2 D2)) as [Heq|Hne].
  - rewrite Heq.
    assert (HP : 0 < 2 ^ expo N2 D2) by (apply Z.pow_pos_nonneg; lia).
    assert (rne_div N1 (D1 * 2 ^ expo N2 D2) <= rne_div N2 (D2 * 2 ^ expo N2 D2)); [|lia].
    apply rne_div_mono; nia.
  - specialize (Hn2 ltac:(lia)). 
    change (2 ^ 53) with (2 * 2 ^ 52) in *. nia.
Qed.

Lemma pack_cases s q T :
  in_range q T ->
  (q = 0 /\ pack s q T = S754_zero s)
  \/ (exists q' T', canon q' T' /\ ord q' T' = ord q T
                    /\ pack s q T = unpack s q' T').
Proof.
  intros ([Hq0 Hq1] & HT & Hn). unfold pack, unpack, prec, emax.
  destruct (Z.eqb_spec q (2 ^ 53)) as [->|Hne].
  - right. exists (2 ^ 52), (T + 1). split; [|split].
    + unfold canon. cbn. lia.
    + unfold ord. change (2 ^ 53) with (2 * 2 ^ 52). lia.
    + change (2 ^ (53 - 1)) with (Zpos (Z.to_pos (2 ^ 52))).
      replace (T + 1 - 1074 <=? 1024 - 53) with (T + 1 <=? 2045); [reflexivity|].
      destruct (Z.leb_spec (T + 1) 2045), (Z.leb_spec (T + 1 - 1074) (1024 - 53)); lia.
  - destruct q as [|p|p]; [left; auto| |lia].
    right. exists (Zpos p), T. split; [|split; [reflexivity|]].
    + unfold canon. lia.
    + replace (T - 1074 <=? 1024 - 53) with (T <=? 2045); [reflexivity|].
      destruct (Z.leb_spec T 2045), (Z.leb_spec (T - 1074) (1024 - 53)); lia.
Qed.

Lemma canon_ord_lt q1 T1 q2 T2 :
  canon q1 T1 -> canon q2 T2 -> T1 < T2 -> ord q1 T1 < ord q2 T2.
Proof.
  intros ([? ?] & ? & ?) ([? ?] & ? & Hn) Hlt. specialize (Hn ltac:(lia)).
  unfold ord. change (2 ^ 53) with (2 * 2 ^ 52) in *. nia.
Qed.

Lemma canon_ord_le_T q1 T1 q2 T2 :
  canon q1 T1 -> canon q2 T2 -> ord q1 T1 <= ord q2 T2 -> T1 <= T2.
Proof.
  intros H1 H2 Hle. destruct (Z.le_gt_cases T1 T2); [assumption|].
  pose proof (canon_ord_lt _ _ _ _ H2 H1 ltac:(lia)). lia.
Qed.

Lemma leb_finite_canon q1 T1 q2 T2 :
  canon q1 T1 -> canon q2 T2 ->
  SFleb (S754_finite false (Z.to_pos q1) (T1 - 1074))
        (S754_finite false (Z.to_pos q2) (T2 - 1074))
  = (ord q1 T1 <=? ord q2 T2).
Proof.
  intros H1 H2. unfold SFleb, SFcompare.
  destruct (Z.compare_spec (T1 - 1074) (T2 - 1074)) as [He|Hl|Hg].
  - assert (T1 = T2) by lia. subst T2.
    rewrite Pos.compare_cont_spec. cbn [Pos.switch_Eq].
    destruct H1 as ([? _] & _), H2 as ([? _] & _).
    rewrite <- (Z2Pos.inj_compare q1 q2) by lia.
    unfold ord.
    destruct (Z.compare_spec q1 q2),
      (Z.leb_spec (q1 + T1 * 2 ^ 52) (q2 + T1 * 2 ^ 52));
      first [reflexivity | lia].
  - pose proof (canon_ord_lt _ _ _ _ H1 H2 ltac:(lia)).
    destruct (Z.leb_spec (ord q1 T1) (ord q2 T2)); first [reflexivity | lia].
  - pose proof (canon_ord_lt _ _ _ _ H2 H1 ltac:(lia)).
    destruct (Z.leb_spec (ord q1 T1) (ord q2 T2)); first [reflexivity | lia].
Qed.

Lemma leb_unpack q1 T1 q2 T2 :
  canon q1 T1 -> canon q2 T2 -> ord q1 T1 <= ord q2 T2 ->
  SFleb (unpack false q1 T1) (unpack false q2 T2) = true.
Proof.
  intros H1 H2 Hle. pose proof (canon_ord_le_T _ _ _ _ H1 H2 Hle).
  unfold unpack.
  destruct (Z.leb_spec T1 2045), (Z.leb_spec T2 2045); try lia; try reflexivity.
  rewrite leb_finite_canon by assumption. apply Z.leb_le. assumption.
Qed.

Lemma leb_pack q1 T1 q2 T2 :
  in_range q1 T1 -> in_range q2 T2 -> ord q1 T1 <= ord q2 T2 ->
  SFleb (pack false q1 T1) (pack false q2 T2) = true.
Proof.
  intros H1 H2 Hle.
  destruct (pack_cases false q1 T1 H1) as [[-> ->]|(q1' & T1' & Hc1 & Ho1 & ->)];
  destruct (pack_cases false q2 T2 H2) as [[-> ->]|(q2' & T2' & Hc2 & Ho2 & ->)].
  - reflexivity.
  - unfold unpack. destruct (T2' <=? 2045); reflexivity.
  - exfalso. rewrite <- Ho1 in Hle.
    destruct Hc1 as ([? ?] & ? & ?), H2 as ([? ?] & ? & Hn2).
    unfold ord in *. 
    destruct (Z.eq_dec T2 0) as [->|]; [nia|]. specialize (Hn2 ltac:(lia)).
    pose proof (Z.pow_pos_nonneg 2 52). lia.
  - apply leb_unpack; try assumption. lia.
Qed.

Theorem round_units_mono N1 D1 N2 D2 :
  0 <= N1 -> 0 < D1 -> 0 <= N2 -> 0 < D2 ->
  N1 * D2 <= N2 * D1 ->
  SFleb (round_units false N1 D1) (round_units false N2 D2) = true.
Proof.
  intros. unfold round_units. fold (expo N1 D1) (expo N2 D2).
  apply leb_pack; try (apply round_units_in_range; assumption).
  apply round_units_ord_mono; assumption.
Qed.

Lemma round_units_scale s N D c :
  0 < D -> 0 < c -> round_units s (N * c) (D * c) = round_units s N D.
Proof.
  intros HD Hc. unfold round_units, expo.
  rewrite Z.div_mul_cancel_r by lia.
  set (T := Z.max 0 _).
  replace (D * c * 2 ^ T) with (D * 2 ^ T * c) by ring.
  rewrite rne_div_scale; [reflexivity| |assumption].
  assert (0 < 2 ^ T) by (apply Z.pow_pos_nonneg; lia). nia.
Qed.

(** The result depends on the value [N / D] only. *)
Lemma round_units_eq s N1 D1 N2 D2 :
  0 < D1 -> 0 < D2 -> N1 * D2 = N2 * D1 ->
  round_units s N1 D1 = round_units s N2 D2.
Proof.
  intros H1 H2 Heq.
  rewrite <- (round_units_scale s N1 D1 D2), <- (round_units_scale s N2 D2 D1)
    by assumption.
  rewrite Heq. f_equal. ring.
Qed.

Lemma canon_digits q T : canon q T -> Zdigits2 q = (if 0 <? T then 53 else Zdigits2 q) /\ Zdigits2 q <= 53.
Proof.
  intros ([Hq0 Hq1] & HT & Hn).
  assert (Hle : Zdigits2 q <= 53) by (apply Zdigits2_lt_pow; lia).
  split; [|exact Hle].
  destruct (Z.ltb_spec 0 T); [|reflexivity].
  pose proof (Zdigits2_ge_pow q 52 ltac:(lia) (Hn ltac:(lia))). lia.
Qed.

Lemma valid_finite_canon s m e :
  valid (S754_finite s m e) <-> canon (Zpos m) (e + 1074) /\ e + 1074 <= 2045.
Proof.
  unfold valid, SpecFloat.valid_binary, bounded, canonical_mantissa, fexp, SpecFloat.emin, prec, emax.
  rewrite andb_true_iff, Z.eqb_eq, Z.leb_le.
  change (Zpos (digits2_pos m)) with (Zdigits2 (Zpos m)).
  pose proof (Zdigits2_bounds (Zpos m) ltac:(lia)) as [Hlo Hhi].
  split.
  - intros [Hc Hb]. split; [|lia]. unfold canon.
    assert (Hd : Zdigits2 (Zpos m) <= 53) by lia.
    split; [|split; [lia|]].
    + split; [lia|]. eapply Z.lt_le_trans; [exact Hhi|].
      apply Z.pow_le_mono_r; lia.
    + intros HT. assert (Hd' : Zdigits2 (Zpos m) = 53) by lia.
      rewrite Hd' in Hlo. exact Hlo.
  - intros [Hc Hb]. destruct (canon_digits _ _ Hc) as [Hd Hle].
    split; [|lia]. destruct Hc as (_ & HT & _).
    destruct (Z.ltb_spec 0 (e + 1074)); lia.
Qed.

Lemma valid_unpack s q T : canon q T -> valid (unpack s q T).
Proof.
  intros Hc. unfold unpack. destruct (Z.leb_spec T 2045); [|reflexivity].
  apply valid_finite_canon. destruct Hc as ([? ?] & ? & ?).
  rewrite Z2Pos.id by lia. replace (T - 1074 + 1074) with T by lia.
  split; [|lia]. unfold canon. auto.
Qed.

Lemma valid_pack s q T : in_range q T -> valid (pack s q T).
Proof.
  intros H. destruct (pack_cases s q T H) as [[_ ->]|(q' & T' & Hc & _ & ->)].
  - reflexivity.
  - apply valid_unpack; assumption.
Qed.

Lemma valid_round_units s N D : 0 <= N -> 0 < D -> valid (round_units s N D).
Proof.
  intros. unfold round_units. fold (expo N D).
  apply valid_pack. apply round_units_in_range; assumption.
Qed.

Lemma Zdigits2_mul_pow z k :
  0 < z -> 0 <= k -> Zdigits2 (z * 2 ^ k) = Zdigits2 z + k.
Proof.
  intros Hz Hk. pose proof (Zdigits2_bounds z Hz) as [Hlo Hhi].
  assert (HP : 0 < 2 ^ k) by (apply Z.pow_pos_nonneg; lia).
  pose proof (Zdigits2_nonneg z).
  assert (1 <= Zdigits2 z) by (destruct z; cbn in *; lia).
  apply Zdigits2_unique; [nia|].
  replace (Zdigits2 z + k - 1) with (Zdigits2 z - 1 + k) by lia.
  rewrite !Z.pow_add_r by lia. nia.
Qed.

(** A canonical pair is its own rounding. *)
Lemma round_units_canon s q T :
  canon q T -> round_units s (q * 2 ^ T) 1 = unpack s q T.
Proof.
  intros Hc. destruct (canon_digits _ _ Hc) as [Hd Hle].
  destruct Hc as ([Hq0 Hq1] & HT & Hn).
  unfold round_units, expo. rewrite Z.div_1_r, Zdigits2_mul_pow by lia.
  assert (HT' : Z.max 0 (Zdigits2 q + T - prec) = T).
  { unfold prec. destruct (Z.ltb_spec 0 T); lia. }
  rewrite HT', Z.mul_1_l, rne_div_exact
    by (try apply Z.pow_pos_nonneg; lia).
  unfold pack, unpack, prec, emax.
  destruct (Z.eqb_spec q (2 ^ 53)); [lia|].
  destruct q as [|p|p]; try lia.
  replace (T - 1074 <=? 1024 - 53) with (T <=? 2045); [reflexivity|].
  destruct (Z.leb_spec T 2045), (Z.leb_spec (T - 1074) (1024 - 53)); lia.
Qed.

Lemma round_units_zero s D : 0 < D -> round_units s 0 D = S754_zero s.
Proof.
  intros HD. unfold round_units, expo. rewrite Z.div_0_l by lia. cbn [Zdigits2].
  unfold prec. cbn [Z.max Z.sub Z.opp Z.add Z.compare Z.pos_sub].
  change (Z.max 0 (0 - 53)) with 0.
  unfold rne_div. rewrite Z.div_0_l, Z.mod_0_l by lia.
  destruct (Z.compare_spec (2 * 0) (D * 2 ^ 0)); try lia; reflexivity.
Qed.

(** At least one unit never rounds to zero. *)
Lemma round_units_pos s N D :
  0 < D -> D <= N ->
  exists q T, canon q T /\ round_units s N D = unpack s q T.
Proof.
  intros HD HN. unfold round_units. fold (expo N D).
  pose proof (round_units_in_range N D ltac:(lia) HD) as Hr.
  destruct (pack_cases s _ _ Hr) as [[Hz _]|(q' & T' & Hc & _ & ->)];
    [exfalso|eauto].
  destruct Hr as (_ & HT & Hn).
  destruct (Z.eq_dec (expo N D) 0) as [H0|H0].
  - rewrite H0 in Hz. change (2 ^ 0) with 1 in Hz. rewrite Z.mul_1_r in Hz.
    pose proof (rne_div_ge N D 1 ltac:(lia) HD ltac:(lia) ltac:(lia)). lia.
  - specialize (Hn ltac:(lia)). rewrite Hz in Hn.
    pose proof (Z.pow_pos_nonneg 2 52). lia.
Qed.

(** *** The standard library's rounding algorithm computes [round_units] *)

Lemma shr_1_nonneg m r s :
  0 <= m ->
  shr_1 (Build_shr_record m r s) = Build_shr_record (Z.div2 m) (Z.odd m) (r || s).
Proof. destruct m as [|[p|p|]|p]; intros; try reflexivity; lia. Qed.

Lemma repr_start X : repr X 0 (Build_shr_record X false false).
Proof.
  unfold repr. cbn [shr_m shr_r shr_s]. change (2 ^ 0) with 1.
  rewrite Z.div_1_r, Z.mod_1_r. auto.
Qed.

Lemma repr_step X k mrs :
  0 <= X -> 0 <= k -> repr X k mrs -> repr X (k + 1) (shr_1 mrs).
Proof.
  intros HX Hk. destruct mrs as [m r s]. unfold repr. cbn [shr_m shr_r shr_s].
  intros (-> & -> & ->).
  assert (HP : 0 < 2 ^ k) by (apply Z.pow_pos_nonneg; lia).
  assert (Hm : 0 <= X / 2 ^ k) by (apply Z.div_pos; lia).
  rewrite shr_1_nonneg by assumption. cbn [shr_m shr_r shr_s].
  rewrite Z.pow_add_r by lia. change (2 ^ 1) with 2.
  pose proof (Z.div_mod X (2 ^ k) ltac:(lia)) as Hdm.
  pose proof (Z.mod_pos_bound X (2 ^ k) HP) as Hrho.
  pose proof (Zmod_odd (X / 2 ^ k)) as Hodd.
  pose proof (Z.div_mod (X / 2 ^ k) 2 ltac:(lia)) as Hdm2.
  set (P := 2 ^ k) in *. set (m := X / P) in *. set (rho := X mod P) in *.
  assert (Hdiv : X / (P * 2) = m / 2).
  { unfold m. rewrite Z.div_div by lia. reflexivity. }
  assert (Hmod : X mod (P * 2) = P * (m mod 2) + rho).
  { symmetry. apply Z.mod_unique with (q := m / 2).
    - left. destruct (Z.odd m); rewrite Hodd; lia.
    - rewrite Hodd in *. destruct (Z.odd m); nia. }
  rewrite Hdiv, Hmod, Z.div2_div, Hodd.
  split; [reflexivity|].
  destruct (Z.odd m); split;
    repeat match goal with
    | |- context [Z.leb ?a ?b] => destruct (Z.leb_spec a b)
    | |- context [Z.eqb ?a ?b] => destruct (Z.eqb_spec a b)
    end; cbn; first [reflexivity | lia].
Qed.

Lemma repr_iter X p : forall mrs k,
  0 <= X -> 0 <= k -> repr X k mrs ->
  repr X (k + Zpos p) (SpecFloat.iter_pos shr_1 p mrs).
Proof.
  induction p as [p IH|p IH|]; intros mrs k HX Hk Hr; cbn [SpecFloat.iter_pos].
  - replace (k + Zpos p~1) with (k + 1 + Zpos p + Zpos p) by lia.
    apply IH; [lia..|]. apply IH; [lia..|]. apply repr_step; assumption.
  - replace (k + Zpos p~0) with (k + Zpos p + Zpos p) by lia.
    apply IH; [lia..|]. apply IH; assumption.
  - apply repr_step; assumption.
Qed.

Lemma round_repr X k mrs :
  0 <= X -> 0 <= k -> repr X k mrs ->
  round_nearest_even (shr_m mrs) (loc_of_shr_record mrs) = rne_div X (2 ^ k).
Proof.
  intros HX Hk. destruct mrs as [m r s]. unfold repr. cbn [shr_m shr_r shr_s].
  intros (-> & -> & ->).
  assert (HP : 0 < 2 ^ k) by (apply Z.pow_pos_nonneg; lia).
  pose proof (Z.mod_pos_bound X (2 ^ k) HP) as Hrho.
  unfold rne_div, loc_of_shr_record, round_nearest_even.
  set (P := 2 ^ k) in *. set (rho := X mod P) in *.
  destruct (Z.compare_spec (2 * rho) P);
    repeat match goal with
    | |- context [Z.leb ?a ?b] => destruct (Z.leb_spec a b)
    | |- context [Z.eqb ?a ?b] => destruct (Z.eqb_spec a b)
    end; cbn; first [reflexivity | lia].
Qed.

Lemma shr_repr X e n :
  0 <= X -> 0 <= n ->
  exists mrs, shr (Build_shr_record X false false) e n = (mrs, e + n)
              /\ repr X n mrs.
Proof.
  intros HX Hn. destruct n as [|p|p]; [| |lia].
  - eexists. split; [cbn; f_equal; lia|]. apply repr_start.
  - eexists. split; [reflexivity|].
    change (Zpos p) with (0 + Zpos p). apply repr_iter; [lia..|]. apply repr_start.
Qed.

Lemma shr_nonpos mrs e n : n <= 0 -> shr mrs e n = (mrs, e).
Proof. destruct n; [reflexivity|lia|reflexivity]. Qed.

Abbreviation fexp64 := (fexp prec emax).

Lemma fexp64_eq k : fexp64 k = Z.max (k - 53) (-1074).
Proof. reflexivity. Qed.

Lemma round_in_range M E :
  0 < M -> E <= fexp64 (Zdigits2 M + E) ->
  in_range (rne_div M (2 ^ (fexp64 (Zdigits2 M + E) - E)))
           (fexp64 (Zdigits2 M + E) + 1074).
Proof.
  intros HM Ht. rewrite fexp64_eq in *.
  set (t := Z.max (Zdigits2 M + E - 53) (-1074)) in *.
  pose proof (Zdigits2_bounds M HM) as [Hlo Hhi].
  assert (HP : 0 < 2 ^ (t - E)) by (apply Z.pow_pos_nonneg; lia).
  destruct (rne_div_spec M (2 ^ (t - E)) ltac:(lia) HP) as (Hq & _).
  split; [split; [exact Hq|]|split; [lia|]].
  - apply rne_div_le; try lia. rewrite <- Z.pow_add_r by lia.
    apply Z.lt_le_incl. eapply Z.lt_le_trans; [exact Hhi|].
    apply Z.pow_le_mono_r; lia.
  - intros HT. apply rne_div_ge; try lia. rewrite <- Z.pow_add_r by lia.
    replace (52 + (t - E)) with (Zdigits2 M - 1) by lia. exact Hlo.
Qed.

Lemma binary_round_aux_pack s M E :
  0 < M -> E <= fexp64 (Zdigits2 M + E) ->
  binary_round_aux prec emax s M E loc_Exact
  = pack s (rne_div M (2 ^ (fexp64 (Zdigits2 M + E) - E)))
           (fexp64 (Zdigits2 M + E) + 1074).
Proof.
  intros HM Ht. pose proof (round_in_range M E HM Ht) as Hr.
  unfold binary_round_aux, shr_fexp. cbn [shr_record_of_loc].
  set (t := fexp64 (Zdigits2 M + E)) in *.
  destruct (shr_repr M E (t - E) ltac:(lia) ltac:(lia)) as (mrs & -> & Hrep).
  rewrite (round_repr M (t - E) mrs) by (assumption || lia).
  set (q := rne_div M (2 ^ (t - E))) in *.
  replace (E + (t - E)) with t by lia.
  assert (Htmin : -1074 <= t) by (unfold t; rewrite fexp64_eq; lia).
  destruct Hr as ([Hq0 Hq1] & _ & Hn).
  unfold pack.
  destruct (Z.eqb_spec q (2 ^ prec)) as [Hc|Hc].
  - rewrite Hc. change (Zdigits2 (2 ^ prec)) with 54.
    replace (fexp64 (54 + t) - t) with 1 by (rewrite fexp64_eq; lia).
    cbn [shr SpecFloat.iter_pos]. rewrite shr_1_nonneg by (apply Z.pow_nonneg; lia).
    cbn [shr_m]. change (Z.div2 (2 ^ prec)) with (2 ^ (prec - 1)).
    replace (t + 1074 + 1 - 1074) with (t + 1) by lia. reflexivity.
  - assert (Hd : fexp64 (Zdigits2 q + t) - t <= 0).
    { rewrite fexp64_eq.
      assert (Zdigits2 q <= 53); [|lia].
      apply Zdigits2_lt_pow; unfold prec in *; lia. }
    rewrite shr_nonpos by exact Hd. cbn [shr_m].
    replace (t + 1074 - 1074) with t by lia.
    destruct q; [reflexivity..|lia].
Qed.

Lemma units_den_pos E : 0 < units_den E.
Proof.
  unfold units_den. destruct (Z.leb_spec 0 (E + 1074)); [lia|].
  apply Z.pow_pos_nonneg; lia.
Qed.

Lemma Zdigits2_div_pow M j :
  0 < M -> 0 <= j -> Zdigits2 (M / 2 ^ j) = Z.max 0 (Zdigits2 M - j).
Proof.
  intros HM Hj. pose proof (Zdigits2_bounds M HM) as [Hlo Hhi].
  assert (HP : 0 < 2 ^ j) by (apply Z.pow_pos_nonneg; lia).
  destruct (Z.le_gt_cases (Zdigits2 M) j) as [Hle|Hgt].
  - rewrite Z.div_small; [cbn; lia|]. split; [lia|].
    eapply Z.lt_le_trans; [exact Hhi|]. apply Z.pow_le_mono_r; lia.
  - rewrite Z.max_r by lia.
    assert (Hlo' : 2 ^ (Zdigits2 M - j - 1) <= M / 2 ^ j).
    { apply Z.div_le_lower_bound; [lia|]. rewrite <- Z.pow_add_r by lia.
      replace (j + (Zdigits2 M - j - 1)) with (Zdigits2 M - 1) by lia. exact Hlo. }
    assert (Hhi' : M / 2 ^ j < 2 ^ (Zdigits2 M - j)).
    { apply Z.div_lt_upper_bound; [lia|]. rewrite <- Z.pow_add_r by lia.
      replace (j + (Zdigits2 M - j)) with (Zdigits2 M) by lia. exact Hhi. }
    apply Zdigits2_unique; [|lia].
    pose proof (Z.pow_pos_nonneg 2 (Zdigits2 M - j - 1)). lia.
Qed.

Lemma expo_units M E :
  0 < M -> expo (units_num M E) (units_den E) = fexp64 (Zdigits2 M + E) + 1074.
Proof.
  intros HM. unfold expo, units_num, units_den. rewrite fexp64_eq. unfold prec.
  destruct (Z.leb_spec 0 (E + 1074)).
  - rewrite Z.div_1_r, Zdigits2_mul_pow by lia. lia.
  - rewrite Zdigits2_div_pow by lia. lia.
Qed.

Lemma pack_round_units s M E :
  0 < M -> E <= fexp64 (Zdigits2 M + E) ->
  pack s (rne_div M (2 ^ (fexp64 (Zdigits2 M + E) - E)))
         (fexp64 (Zdigits2 M + E) + 1074)
  = round_units s (units_num M E) (units_den E).
Proof.
  intros HM Ht. unfold round_units. fold (expo (units_num M E) (units_den E)).
  rewrite expo_units by assumption. f_equal.
  set (t := fexp64 (Zdigits2 M + E)) in *.
  assert (Htmin : -1074 <= t) by (unfold t; rewrite fexp64_eq; lia).
  unfold units_num, units_den. destruct (Z.leb_spec 0 (E + 1074)).
  - rewrite Z.mul_1_l.
    replace (t + 1074) with ((t - E) + (E + 1074)) by lia.
    rewrite (Z.pow_add_r 2 (t - E) (E + 1074)) by lia.
    rewrite rne_div_scale; try apply Z.pow_pos_nonneg; try lia.
  - rewrite <- Z.pow_add_r by lia. f_equal. f_equal. lia.
Qed.

Lemma binary_round_aux_units s M E :
  0 < M -> E <= fexp64 (Zdigits2 M + E) ->
  binary_round_aux prec emax s M E loc_Exact
  = round_units s (units_num M E) (units_den E).
Proof.
  intros. rewrite binary_round_aux_pack by assumption.
  apply pack_round_units; assumption.
Qed.

Lemma iter_xO m d : Zpos (Pos.iter xO m d) = Zpos m * 2 ^ Zpos d.
Proof.
  induction d as [|d IH] using Pos.peano_ind.
  - cbn. lia.
  - rewrite Pos.iter_succ, Pos2Z.inj_succ, Z.pow_succ_r by lia.
    rewrite Pos2Z.inj_xO, IH. ring.
Qed.

Lemma binary_round_units s m e :
  binary_round prec emax s m e
  = round_units s (units_num (Zpos m) e) (units_den e).
Proof.
  unfold binary_round, shl_align.
  change (Zpos (digits2_pos m)) with (Zdigits2 (Zpos m)).
  set (t := fexp64 (Zdigits2 (Zpos m) + e)).
  assert (Htmin : -1074 <= t) by (unfold t; rewrite fexp64_eq; lia).
  destruct (t - e) as [|d|d] eqn:Hd.
  - apply binary_round_aux_units; [lia|fold t; lia].
  - apply binary_round_aux_units; [lia|fold t; lia].
  - assert (Hm : Zdigits2 (Zpos (Pos.iter xO m d)) + t = Zdigits2 (Zpos m) + e).
    { rewrite iter_xO, Zdigits2_mul_pow by lia. lia. }
    rewrite binary_round_aux_units; [|lia|rewrite Hm; fold t; lia].
    unfold units_num, units_den.
    destruct (Z.leb_spec 0 (t + 1074)); [|lia].
    destruct (Z.leb_spec 0 (e + 1074)); [|lia].
    f_equal. rewrite iter_xO, <- Z.mul_assoc, <- Z.pow_add_r by lia.
    f_equal. f_equal. lia.
Qed.

(** *** Floats as integers: values in units of 2^-1074 *)

Lemma canon_units_compare q1 T1 q2 T2 :
  canon q1 T1 -> canon q2 T2 ->
  match T1 - 1074 ?= T2 - 1074 with
  | Lt => Lt
  | Gt => Gt
  | Eq => Pos.compare_cont Eq (Z.to_pos q1) (Z.to_pos q2)
  end = (q1 * 2 ^ T1 ?= q2 * 2 ^ T2).
Proof.
  intros ([Hq1 Hq1'] & HT1 & Hn1) ([Hq2 Hq2'] & HT2 & Hn2).
  assert (Hlt : forall qa Ta qb Tb,
            0 < qa < 2 ^ 53 -> 0 <= Ta -> Ta < Tb -> 2 ^ 52 <= qb ->
            qa * 2 ^ Ta < qb * 2 ^ Tb).
  { intros qa Ta qb Tb Ha HTa Hab Hb.
    replace Tb with (Ta + 1 + (Tb - Ta - 1)) by lia.
    rewrite !Z.pow_add_r by lia. change (2 ^ 1) with 2.
    assert (0 < 2 ^ Ta) by (apply Z.pow_pos_nonneg; lia).
    assert (0 < 2 ^ (Tb - Ta - 1)) by (apply Z.pow_pos_nonneg; lia).
    change (2 ^ 53) with (2 * 2 ^ 52) in Ha.
    set (P := 2 ^ Ta) in *. set (Q := 2 ^ (Tb - Ta - 1)) in *.
    assert (H1 : qa * P < qb * 2 * P) by nia.
    assert (H2 : qb * 2 * P * 1 <= qb * 2 * P * Q) by (apply Z.mul_le_mono_nonneg_l; nia).
    nia. }
  destruct (Z.compare_spec (T1 - 1074) (T2 - 1074)) as [He|Hl|Hg].
  - assert (T1 = T2) by lia. subst T2.
    rewrite Pos.compare_cont_spec. cbn [Pos.switch_Eq].
    rewrite <- (Z2Pos.inj_compare q1 q2) by lia.
    replace (Pos.switch_Eq Eq (q1 ?= q2)) with (q1 ?= q2)
      by (destruct (q1 ?= q2); reflexivity).
    apply Zmult_compare_compat_r.
    assert (0 < 2 ^ T1) by (apply Z.pow_pos_nonneg; lia). lia.
  - symmetry. apply Z.compare_lt_iff. apply Hlt; try lia.
  - symmetry. apply Z.compare_gt_iff. apply Hlt; try lia.
Qed.

Lemma valid_units_pos s m e :
  valid (S754_finite s m e) -> 0 <= e + 1074 /\ 0 < Zpos m * 2 ^ (e + 1074).
Proof.
  intros Hv. apply valid_finite_canon in Hv as [(_ & HT & _) _].
  split; [exact HT|]. apply Z.mul_pos_pos; [lia|]. apply Z.pow_pos_nonneg; lia.
Qed.

Lemma SFcompare_units x y :
  valid x -> valid y -> is_finite x = true -> is_finite y = true ->
  SFcompare x y = Some (units x ?= units y).
Proof.
  intros Hx Hy Fx Fy.
  destruct x as [sx|sx| |sx mx ex]; try discriminate;
  destruct y as [sy|sy| |sy my ey]; try discriminate; cbn [SFcompare units].
  - reflexivity.
  - destruct (valid_units_pos _ _ _ Hy) as [_ Hp].
    f_equal. symmetry. destruct sy; cbn [cond_Zopp].
    + apply Z.compare_gt_iff. lia.
    + apply Z.compare_lt_iff. lia.
  - destruct (valid_units_pos _ _ _ Hx) as [_ Hp].
    f_equal. symmetry. destruct sx; cbn [cond_Zopp].
    + apply Z.compare_lt_iff. lia.
    + apply Z.compare_gt_iff. lia.
  - destruct (valid_units_pos _ _ _ Hx) as [_ Hpx].
    destruct (valid_units_pos _ _ _ Hy) as [_ Hpy].
    apply valid_finite_canon in Hx as [Hcx _].
    apply valid_finite_canon in Hy as [Hcy _].
    pose proof (canon_units_compare _ _ _ _ Hcx Hcy) as Hc.
    replace (ex + 1074 - 1074) with ex in Hc by lia.
    replace (ey + 1074 - 1074) with ey in Hc by lia.
    rewrite !Pos2Z.id in Hc.
    f_equal. destruct sx, sy; cbn [cond_Zopp].
    + rewrite Z.compare_opp.
      rewrite (Z.compare_antisym (Zpos mx * 2 ^ (ex + 1074))
                 (Zpos my * 2 ^ (ey + 1074))), <- Hc.
      destruct (ex ?= ey); reflexivity.
    + symmetry. apply Z.compare_lt_iff. lia.
    + symmetry. apply Z.compare_gt_iff. lia.
    + exact Hc.
Qed.

Lemma SFleb_units x y :
  valid x -> valid y -> is_finite x = true -> is_finite y = true ->
  SFleb x y = (units x <=? units y).
Proof.
  intros. unfold SFleb. rewrite SFcompare_units by assumption.
  unfold Z.leb. destruct (units x ?= units y); reflexivity.
Qed.

Lemma SFltb_units x y :
  valid x -> valid y -> is_finite x = true -> is_finite y = true ->
  SFltb x y = (units x <? units y).
Proof.
  intros. unfold SFltb. rewrite SFcompare_units by assumption.
  unfold Z.ltb. destruct (units x ?= units y); reflexivity.
Qed.

(** *** Addition, subtraction and multiplication on unit values *)

Lemma binary_normalize_units V ez :
  -1074 <= ez ->
  binary_normalize prec emax V ez false = of_units (V * 2 ^ (ez + 1074)).
Proof.
  intros Hez. assert (HP : 0 < 2 ^ (ez + 1074)) by (apply Z.pow_pos_nonneg; lia).
  destruct V as [|p|p]; cbn [binary_normalize].
  - reflexivity.
  - rewrite binary_round_units. unfold units_num, units_den.
    destruct (Z.leb_spec 0 (ez + 1074)); [|lia].
    destruct (Zpos p * 2 ^ (ez + 1074)) eqn:Hprod; try lia. reflexivity.
  - rewrite binary_round_units. unfold units_num, units_den.
    destruct (Z.leb_spec 0 (ez + 1074)); [|lia].
    destruct (Zneg p * 2 ^ (ez + 1074)) as [|p'|p'] eqn:Hprod; try lia.
    cbn [of_units]. f_equal. lia.
Qed.

Lemma shl_align_fst m e ez :
  ez <= e -> Zpos (fst (shl_align m e ez)) = Zpos m * 2 ^ (e - ez).
Proof.
  intros Hle. unfold shl_align. destruct (ez - e) as [|d|d] eqn:Hd; cbn [fst].
  - replace (e - ez) with 0 by lia. lia.
  - lia.
  - rewrite iter_xO. f_equal. f_equal. lia.
Qed.

Lemma aligned_units s m e ez :
  -1074 <= ez -> ez <= e ->
  cond_Zopp s (Zpos (fst (shl_align m e ez))) * 2 ^ (ez + 1074)
  = units (S754_finite s m e).
Proof.
  intros H1 H2. rewrite shl_align_fst by assumption. cbn [units].
  replace (e + 1074) with (e - ez + (ez + 1074)) by lia.
  rewrite (Z.pow_add_r 2 (e - ez) (ez + 1074)) by lia.
  destruct s; cbn [cond_Zopp]; ring.
Qed.

Lemma SFadd_units sx mx ex sy my ey :
  valid (S754_finite sx mx ex) -> valid (S754_finite sy my ey) ->
  SFadd prec emax (S754_finite sx mx ex) (S754_finite sy my ey)
  = of_units (units (S754_finite sx mx ex) + units (S754_finite sy my ey)).
Proof.
  intros Hx Hy.
  destruct (valid_units_pos _ _ _ Hx) as [Hex _].
  destruct (valid_units_pos _ _ _ Hy) as [Hey _].
  cbn [SFadd]. rewrite binary_normalize_units by lia.
  rewrite Z.mul_add_distr_r, !aligned_units by lia. reflexivity.
Qed.

Lemma SFsub_units sx mx ex sy my ey :
  valid (S754_finite sx mx ex) -> valid (S754_finite sy my ey) ->
  SFsub prec emax (S754_finite sx mx ex) (S754_finite sy my ey)
  = of_units (units (S754_finite sx mx ex) - units (S754_finite sy my ey)).
Proof.
  intros Hx Hy.
  destruct (valid_units_pos _ _ _ Hx) as [Hex _].
  destruct (valid_units_pos _ _ _ Hy) as [Hey _].
  cbn [SFsub]. rewrite binary_normalize_units by lia.
  rewrite Z.mul_sub_distr_r, !aligned_units by lia. reflexivity.
Qed.

(** Multiplication by a normal number. *)
Lemma SFmul_units sx mx ex sy my ey :
  valid (S754_finite sx mx ex) -> valid (S754_finite sy my ey) ->
  2 ^ 52 <= Zpos my ->
  SFmul prec emax (S754_finite sx mx ex) (S754_finite sy my ey)
  = round_units (xorb sx sy)
      (Zpos mx * 2 ^ (ex + 1074) * (Zpos my * 2 ^ (ey + 1074))) (2 ^ 1074).
Proof.
  intros Hx Hy Hn.
  destruct (valid_units_pos _ _ _ Hx) as [Hex _].
  destruct (valid_units_pos _ _ _ Hy) as [Hey _].
  cbn [SFmul]. change (Zpos (mx * my)) with (Zpos mx * Zpos my).
  rewrite binary_round_aux_units.
  - apply round_units_eq; [apply units_den_pos|lia|].
    unfold units_num, units_den.
    destruct (Z.leb_spec 0 (ex + ey + 1074)).
    + assert (Hp : 2 ^ (ex + ey + 1074) * 2 ^ 1074
                   = 2 ^ (ex + 1074) * 2 ^ (ey + 1074)).
      { rewrite <- !Z.pow_add_r by lia. f_equal. lia. }
      set (A := 2 ^ (ex + ey + 1074)) in *. set (B := 2 ^ 1074) in *.
      set (C := 2 ^ (ex + 1074)) in *. set (D := 2 ^ (ey + 1074)) in *.
      transitivity (Zpos mx * Zpos my * (A * B)); [ring|]. rewrite Hp. ring.
    + assert (Hp : 2 ^ (ex + 1074) * 2 ^ (ey + 1074)
                   * 2 ^ (- (ex + ey) - 1074) = 2 ^ 1074).
      { rewrite <- !Z.pow_add_r by lia. f_equal. lia. }
      set (A := 2 ^ (- (ex + ey) - 1074)) in *. set (B := 2 ^ 1074) in *.
      set (C := 2 ^ (ex + 1074)) in *. set (D := 2 ^ (ey + 1074)) in *.
      rewrite <- Hp. ring.
  - lia.
  - rewrite fexp64_eq.
    assert (53 <= Zdigits2 (Zpos mx * Zpos my)); [|lia].
    apply (Zdigits2_ge_pow _ 52); [lia|]. nia.
Qed.

(** *** Non-negative floats *)

Lemma nonneg_units x : nonneg x -> 0 <= units x.
Proof.
  intros [Hv Hs]. destruct x as [s|s| |s m e]; cbn [units]; try lia.
  destruct s; [destruct Hs|]. destruct (valid_units_pos _ _ _ Hv).
  cbn [cond_Zopp]. lia.
Qed.

Lemma nonneg_leb_zero x : nonneg x -> SFleb (S754_zero false) x = true.
Proof. intros [_ Hs]. destruct x as [[]|[]| |[] m e]; (reflexivity || destruct Hs). Qed.

Lemma nonneg_leb_inf x : nonneg x -> SFleb x (S754_infinity false) = true.
Proof. intros [_ Hs]. destruct x as [[]|[]| |[] m e]; (reflexivity || destruct Hs). Qed.

Lemma nonneg_unpack q T : canon q T -> nonneg (unpack false q T).
Proof.
  intros Hc. split; [apply valid_unpack; assumption|].
  unfold unpack. destruct (T <=? 2045); exact I.
Qed.

Lemma nonneg_round_units N D : 0 <= N -> 0 < D -> nonneg (round_units false N D).
Proof.
  intros HN HD. unfold round_units. fold (expo N D).
  destruct (pack_cases false _ _ (round_units_in_range N D HN HD))
    as [[_ ->]|(q & T & Hc & _ & ->)].
  - split; reflexivity.
  - apply nonneg_unpack; assumption.
Qed.

Lemma round_units_fixed s m e :
  valid (S754_finite s m e) ->
  round_units s (Zpos m * 2 ^ (e + 1074)) 1 = S754_finite s m e.
Proof.
  intros Hv. apply valid_finite_canon in Hv as [Hc Hb].
  rewrite round_units_canon by assumption. unfold unpack.
  destruct (Z.leb_spec (e + 1074) 2045); [|lia].
  rewrite Pos2Z.id. f_equal. lia.
Qed.

Lemma nonneg_fixed x :
  nonneg x -> is_finite x = true -> round_units false (units x) 1 = x.
Proof.
  intros [Hv Hs] Hf. destruct x as [[]| | |[] m e]; try discriminate;
    try destruct Hs.
  - apply round_units_zero. lia.
  - cbn [units cond_Zopp]. apply round_units_fixed; assumption.
Qed.

(** A function that rounds a monotone function of the unit value is
    monotone on non-negative floats. *)
Lemma lift_mono (f : spec_float -> spec_float) (g : Z -> Z) (D : Z) :
  0 < D ->
  (forall u, 0 <= u -> 0 <= g u) ->
  (forall u v, 0 <= u <= v -> g u <= g v) ->
  (forall x, nonneg x -> is_finite x = true ->
     f x = round_units false (g (units x)) D) ->
  f (S754_infinity false) = S754_infinity false ->
  forall x y, nonneg x -> nonneg y -> SFleb x y = true ->
    nonneg (f x) /\ nonneg (f y) /\ SFleb (f x) (f y) = true.
Proof.
  intros HD Hg0 Hg Hf Hinf x y Hx Hy Hle.
  assert (Hn : forall z, nonneg z -> nonneg (f z)).
  { intros z Hz. destruct (is_finite z) eqn:Fz.
    - rewrite Hf by assumption. apply nonneg_round_units; [|assumption].
      apply Hg0. apply nonneg_units; assumption.
    - destruct Hz as [_ Hs]. destruct z as [[]|[]| |[] m e]; try discriminate;
        try destruct Hs. rewrite Hinf. split; reflexivity. }
  split; [apply Hn; assumption|]. split; [apply Hn; assumption|].
  destruct (is_finite y) eqn:Fy.
  - destruct (is_finite x) eqn:Fx.
    + rewrite SFleb_units in Hle by (assumption || apply Hx || apply Hy).
      apply Z.leb_le in Hle. pose proof (nonneg_units x Hx).
      rewrite !Hf by assumption.
      apply round_units_mono; try assumption; try (apply Hg0; lia).
      apply Z.mul_le_mono_nonneg_r; [lia|]. apply Hg. lia.
    + exfalso. destruct Hx as [_ Hsx], Hy as [_ Hsy].
      destruct x as [[]|[]| |[] ? ?]; try discriminate; try destruct Hsx.
      destruct y as [[]|[]| |[] ? ?]; try discriminate; try destruct Hsy.
  - destruct Hy as [_ Hsy].
    destruct y as [[]|[]| |[] ? ?]; try discriminate; try destruct Hsy.
    rewrite Hinf. apply nonneg_leb_inf. apply Hn; assumption.
Qed.

Lemma rne_div_zero b : 0 < b -> rne_div 0 b = 0.
Proof. intros. exact (rne_div_exact 0 b ltac:(lia) ltac:(lia)). Qed.

Section FeeRule.

(** A fee rule [round(amount * rate + fixed, 2)] with a normal positive
    [rate] and a positive [fixed] charge. *)
Variables (mr : positive) (er : Z) (mf : positive) (ef : Z).
Let rate := S754_finite false mr er.
Let fixed := S754_finite false mf ef.
Hypothesis rate_valid : valid rate.
Hypothesis rate_normal : 2 ^ 52 <= Zpos mr.
Hypothesis fixed_valid : valid fixed.

Lemma mul_rate_units x :
  nonneg x -> is_finite x = true ->
  SFmul prec emax x rate = round_units false (units x * units rate) (2 ^ 1074).
Proof.
  intros [Hv Hs] Hf. destruct x as [[]| | |[] m e]; try discriminate;
    try destruct Hs.
  - cbn [SFmul xorb units]. rewrite Z.mul_0_l, round_units_zero; [reflexivity|].
    apply Z.pow_pos_nonneg; lia.
  - unfold rate. rewrite SFmul_units by assumption. reflexivity.
Qed.

Lemma add_fixed_units x :
  nonneg x -> is_finite x = true ->
  SFadd prec emax x fixed = round_units false (units x + units fixed) 1.
Proof.
  intros [Hv Hs] Hf. destruct x as [[]| | |[] m e]; try discriminate;
    try destruct Hs.
  - cbn [SFadd units cond_Zopp]. rewrite Z.add_0_l.
    symmetry. apply round_units_fixed; assumption.
  - unfold fixed. rewrite SFadd_units by assumption.
    destruct (valid_units_pos _ _ _ Hv) as [_ H1].
    destruct (valid_units_pos _ _ _ fixed_valid) as [_ H2].
    cbn [units cond_Zopp] in *.
    set (u := Zpos m * 2 ^ (e + 1074) + Zpos mf * 2 ^ (ef + 1074)).
    assert (0 < u) by (unfold u; lia).
    destruct u; try lia. reflexivity.
Qed.

Lemma round2_units x :
  nonneg x -> is_finite x = true ->
  round2 x
  = round_units false (rne_div (100 * units x) (2 ^ 1074) * 2 ^ 1074) 100.
Proof.
  intros [Hv Hs] Hf. destruct x as [[]| | |[] m e]; try discriminate;
    try destruct Hs.
  - cbn [round2 units]. rewrite Z.mul_0_r, rne_div_zero, Z.mul_0_l by lia.
    rewrite round_units_zero by lia. reflexivity.
  - destruct (valid_units_pos _ _ _ Hv) as [He Hu].
    cbn [round2 units cond_Zopp].
    assert (HP : 0 < 2 ^ 1074) by (apply Z.pow_pos_nonneg; lia).
    destruct (Z.leb_spec 0 e).
    + replace (100 * (Zpos m * 2 ^ (e + 1074)))
        with (100 * Zpos m * 2 ^ e * 2 ^ 1074)
        by (rewrite Z.pow_add_r by lia; ring).
      assert (0 < 2 ^ e) by (apply Z.pow_pos_nonneg; lia).
      rewrite rne_div_exact by nia.
      rewrite <- (round_units_fixed false m e Hv) at 1.
      apply round_units_eq; try lia. rewrite Z.pow_add_r by lia. ring.
    + assert (HK : rne_div (100 * (Zpos m * 2 ^ (e + 1074))) (2 ^ 1074)
                   = rne_div (100 * Zpos m) (2 ^ (- e))).
      { replace (2 ^ 1074) with (2 ^ (- e) * 2 ^ (e + 1074))
          by (rewrite <- Z.pow_add_r by lia; f_equal; lia).
        rewrite Z.mul_assoc. apply rne_div_scale; apply Z.pow_pos_nonneg; lia. }
      rewrite HK.
      assert (HPe : 0 < 2 ^ (- e)) by (apply Z.pow_pos_nonneg; lia).
      destruct (rne_div_spec (100 * Zpos m) (2 ^ (- e)) ltac:(lia) HPe) as [Hq _].
      destruct (rne_div (100 * Zpos m) (2 ^ (- e))) as [|k|k]; [|reflexivity|lia].
      rewrite Z.mul_0_l, round_units_zero by lia. reflexivity.
Qed.

Lemma fee_rule_mono a1 a2 :
  nonneg a1 -> nonneg a2 -> SFleb a1 a2 = true ->
  nonneg (round2 (SFadd prec emax (SFmul prec emax a1 rate) fixed))
  /\ SFleb (round2 (SFadd prec emax (SFmul prec emax a1 rate) fixed))
           (round2 (SFadd prec emax (SFmul prec emax a2 rate) fixed)) = true.
Proof.
  intros H1 H2 Hle.
  pose proof (nonneg_units rate ltac:(split; [exact rate_valid|exact I])) as Hr.
  pose proof (nonneg_units fixed ltac:(split; [exact fixed_valid|exact I])) as Hx.
  destruct (lift_mono (fun x => SFmul prec emax x rate)
              (fun u => u * units rate) (2 ^ 1074)) with (x := a1) (y := a2)
    as (M1 & M2 & Mle); try assumption.
  { apply Z.pow_pos_nonneg; lia. }
  { intros; nia. }
  { intros; nia. }
  { apply mul_rate_units. }
  { reflexivity. }
  destruct (lift_mono (fun x => SFadd prec emax x fixed)
              (fun u => u + units fixed) 1) with (x := SFmul prec emax a1 rate)
              (y := SFmul prec emax a2 rate)
    as (A1 & A2 & Ale); try assumption.
  { lia. } { intros; lia. } { intros; lia. }
  { apply add_fixed_units. }
  { reflexivity. }
  destruct (lift_mono round2
              (fun u => rne_div (100 * u) (2 ^ 1074) * 2 ^ 1074) 100)
    with (x := SFadd prec emax (SFmul prec emax a1 rate) fixed)
         (y := SFadd prec emax (SFmul prec emax a2 rate) fixed)
    as (R1 & R2 & Rle); try assumption.
  { lia. }
  { intros u Hu. assert (HP : 0 < 2 ^ 1074) by (apply Z.pow_pos_nonneg; lia).
    destruct (rne_div_spec (100 * u) (2 ^ 1074) ltac:(lia) HP) as [Hq _]. nia. }
  { intros u v Huv. assert (HP : 0 < 2 ^ 1074) by (apply Z.pow_pos_nonneg; lia).
    apply Z.mul_le_mono_nonneg_r; [lia|]. apply rne_div_mono; nia. }
  { apply round2_units. }
  { reflexivity. }
  split; assumption.
Qed.

End FeeRule.

(** *** Signs of sums and differences *)

Lemma of_units_pos u :
  0 < u -> exists q T, canon q T /\ of_units u = unpack false q T.
Proof.
  intros Hu. destruct u as [|p|p]; try lia. cbn [of_units].
  apply round_units_pos; lia.
Qed.

Lemma of_units_neg u :
  u < 0 -> exists q T, canon q T /\ of_units u = unpack true q T.
Proof.
  intros Hu. destruct u as [|p|p]; try lia. cbn [of_units].
  apply round_units_pos; lia.
Qed.

Lemma valid_of_units u : valid (of_units u).
Proof.
  destruct u as [|p|p]; cbn [of_units]; [reflexivity| |];
    apply valid_round_units; lia.
Qed.

Lemma SFadd_valid x y : valid x -> valid y -> valid (SFadd prec emax x y).
Proof.
  intros Hx Hy.
  destruct x as [[]|[]| |sx mx ex], y as [[]|[]| |sy my ey];
    try reflexivity; try assumption.
  rewrite SFadd_units by assumption. apply valid_of_units.
Qed.

Lemma SFsub_valid x y : valid x -> valid y -> valid (SFsub prec emax x y).
Proof.
  intros Hx Hy.
  destruct x as [[]|[]| |sx mx ex], y as [[]|[]| |sy my ey];
    try reflexivity; try assumption.
  rewrite SFsub_units by assumption. apply valid_of_units.
Qed.

Lemma unpack_true_ltb_zero q T :
  SFltb (unpack true q T) (S754_zero false) = true.
Proof. unfold unpack. destruct (T <=? 2045); reflexivity. Qed.

Lemma unpack_false_leb_zero q T :
  SFleb (S754_zero false) (unpack false q T) = true.
Proof. unfold unpack. destruct (T <=? 2045); reflexivity. Qed.

(** A debit the balance covers leaves a non-negative balance. *)
Lemma SFsub_nonneg b s :
  valid b -> valid s -> is_finite s = true -> SFleb s b = true ->
  SFleb (S754_zero false) (SFsub prec emax b s) = true.
Proof.
  intros Hb Hs Fs Hle.
  destruct s as [ss| | |ss ms es]; try discriminate;
  destruct b as [sb|sb| |sb mb eb]; try discriminate.
  - destruct sb, ss; reflexivity.
  - destruct sb; [discriminate|reflexivity].
  - destruct sb; [discriminate|reflexivity].
  - destruct ss; [reflexivity|]. destruct sb; discriminate.
  - destruct sb; [destruct ss; discriminate|reflexivity].
  - rewrite SFleb_units in Hle by (assumption || reflexivity).
    apply Z.leb_le in Hle. rewrite SFsub_units by assumption.
    set (u := units _ - units _) in *.
    destruct (Z.eq_dec u 0) as [->|Hne]; [reflexivity|].
    destruct (of_units_pos u ltac:(lia)) as (q & T & _ & ->).
    apply unpack_false_leb_zero.
Qed.

(** A debit larger than the balance leaves a negative balance. *)
Lemma SFsub_neg b s :
  valid b -> valid s -> SFltb b s = true ->
  SFltb (SFsub prec emax b s) (S754_zero false) = true.
Proof.
  intros Hb Hs Hlt.
  destruct s as [ss|ss| |ss ms es]; destruct b as [sb|sb| |sb mb eb];
    try discriminate;
    try (destruct sb, ss; (discriminate || reflexivity));
    try (destruct sb; (discriminate || reflexivity));
    try (destruct ss; (discriminate || reflexivity)).
  rewrite SFltb_units in Hlt by (assumption || reflexivity).
  apply Z.ltb_lt in Hlt. rewrite SFsub_units by assumption.
  set (u := units _ - units _) in *.
  destruct (of_units_neg u ltac:(lia)) as (q & T & _ & ->).
  apply unpack_true_ltb_zero.
Qed.

(** *** Order and products *)

Lemma SFleb_trans x y z :
  valid x -> valid y -> valid z ->
  SFleb x y = true -> SFleb y z = true -> SFleb x z = true.
Proof.
  intros Vx Vy Vz Hxy Hyz.
  destruct (is_finite x) eqn:Fx, (is_finite y) eqn:Fy, (is_finite z) eqn:Fz.
  - rewrite SFleb_units in * by assumption.
    apply Z.leb_le in Hxy, Hyz. apply Z.leb_le. lia.
  - destruct z as [?|[]| |? ? ?]; try discriminate;
      destruct y as [?|[]| |[] ? ?]; try discriminate;
      destruct x as [?|[]| |[] ? ?]; try discriminate; reflexivity.
  - destruct y as [?|[]| |? ? ?]; try discriminate;
      destruct x as [[]|[]| |[] ? ?]; try discriminate;
      destruct z as [[]|[]| |[] ? ?]; try discriminate.
  - destruct z as [?|[]| |? ? ?]; try discriminate;
      destruct y as [?|[]| |? ? ?]; try discriminate;
      destruct x as [?|[]| |[] ? ?]; try discriminate; reflexivity.
  - destruct x as [?|[]| |? ? ?]; try discriminate;
      destruct y as [[]|[]| |[] ? ?]; try discriminate;
      destruct z as [[]|[]| |[] ? ?]; try discriminate; reflexivity.
  - destruct x as [?|[]| |? ? ?]; try discriminate;
      destruct z as [?|[]| |? ? ?]; try discriminate;
      destruct y as [[]|[]| |[] ? ?]; try discriminate; reflexivity.
  - destruct x as [?|[]| |? ? ?]; try discriminate;
      destruct y as [?|[]| |? ? ?]; try discriminate;
      destruct z as [[]|[]| |[] ? ?]; try discriminate; reflexivity.
  - destruct x as [?|[]| |? ? ?]; try discriminate;
      destruct y as [?|[]| |? ? ?]; try discriminate;
      destruct z as [?|[]| |? ? ?]; try discriminate; reflexivity.
Qed.

(** A valid float at least [2 ^ 53] units has a full mantissa. *)
Lemma normal_of_units s m e :
  valid (S754_finite s m e) -> 2 ^ 53 <= Zpos m * 2 ^ (e + 1074) ->
  2 ^ 52 <= Zpos m.
Proof.
  intros Hv Hu. apply valid_finite_canon in Hv as [([_ Hq] & HT & Hn) _].
  destruct (Z.eq_dec (e + 1074) 0) as [H0|H0]; [|apply Hn; lia].
  rewrite H0 in Hu. change (2 ^ 0) with 1 in Hu. lia.
Qed.

(** What lies between a positive float and a finite one is positive and
    finite. *)
Lemma between_positive lo hi x :
  valid lo -> valid hi -> valid x ->
  SFltb (S754_zero false) lo = true -> is_finite hi = true ->
  SFleb lo x = true -> SFleb x hi = true ->
  exists m e, x = S754_finite false m e /\ units lo <= units x <= units hi.
Proof.
  intros Vl Vh Vx Pl Fh Hl Hh.
  assert (Fl : is_finite lo = true).
  { destruct lo as [[]|[]| |[] ? ?]; try discriminate; try reflexivity.
    destruct x as [[]|[]| |[] ? ?]; try discriminate;
      destruct hi as [[]|[]| |[] ? ?]; discriminate. }
  assert (Fx : is_finite x = true).
  { destruct x as [[]|[]| |[] ? ?]; try reflexivity;
      destruct lo as [[]|[]| |[] ? ?]; try discriminate;
      destruct hi as [[]|[]| |[] ? ?]; discriminate. }
  rewrite SFleb_units in Hl, Hh by assumption.
  rewrite SFltb_units in Pl by (assumption || reflexivity).
  apply Z.leb_le in Hl, Hh. apply Z.ltb_lt in Pl. cbn [units] in Pl.
  destruct x as [[]| | |[] m e]; try discriminate; cbn [units] in Hl; try lia.
  - destruct (valid_units_pos _ _ _ Vx). cbn [cond_Zopp] in Hl. lia.
  - eauto.
Qed.

(** Multiplication of positive finite floats is monotone in both factors
    when the second factors are normal. *)
Lemma SFmul_mono m1 e1 n1 f1 m2 e2 n2 f2 :
  valid (S754_finite false m1 e1) -> valid (S754_finite false n1 f1) ->
  valid (S754_finite false m2 e2) -> valid (S754_finite false n2 f2) ->
  2 ^ 52 <= Zpos n1 -> 2 ^ 52 <= Zpos n2 ->
  Zpos m1 * 2 ^ (e1 + 1074) <= Zpos m2 * 2 ^ (e2 + 1074) ->
  Zpos n1 * 2 ^ (f1 + 1074) <= Zpos n2 * 2 ^ (f2 + 1074) ->
  SFleb (SFmul prec emax (S754_finite false m1 e1) (S754_finite false n1 f1))
        (SFmul prec emax (S754_finite false m2 e2) (S754_finite false n2 f2))
  = true.
Proof.
  intros V1 W1 V2 W2 N1 N2 Hm Hn.
  rewrite !SFmul_units by assumption. cbn [xorb].
  destruct (valid_units_pos _ _ _ V1) as [_ P1].
  destruct (valid_units_pos _ _ _ W1) as [_ Q1].
  destruct (valid_units_pos _ _ _ V2) as [_ P2].
  destruct (valid_units_pos _ _ _ W2) as [_ Q2].
  assert (HP : 0 < 2 ^ 1074) by (apply Z.pow_pos_nonneg; lia).
  set (a1 := Zpos m1 * 2 ^ (e1 + 1074)) in *.
  set (b1 := Zpos n1 * 2 ^ (f1 + 1074)) in *.
  set (a2 := Zpos m2 * 2 ^ (e2 + 1074)) in *.
  set (b2 := Zpos n2 * 2 ^ (f2 + 1074)) in *.
  apply round_units_mono; try lia.
  apply Z.mul_le_mono_nonneg_r; [lia|].
  apply Z.mul_le_mono_nonneg; lia.
Qed.

Lemma SFmul_valid sx mx ex sy my ey :
  valid (S754_finite sx mx ex) -> valid (S754_finite sy my ey) ->
  2 ^ 52 <= Zpos my ->
  valid (SFmul prec emax (S754_finite sx mx ex) (S754_finite sy my ey)).
Proof.
  intros Vx Vy Hn. rewrite SFmul_units by assumption.
  destruct (valid_units_pos _ _ _ Vx) as [_ P1].
  destruct (valid_units_pos _ _ _ Vy) as [_ P2].
  apply valid_round_units; [lia|]. apply Z.pow_pos_nonneg; lia.
Qed.

Lemma nonneg_finite_below x hi :
  nonneg x -> is_finite hi = true -> SFleb x hi = true -> is_finite x = true.
Proof.
  intros [_ Hs] Fh Hle. destruct x as [[]|[]| |[] ? ?]; try destruct Hs;
    try reflexivity.
  destruct hi as [[]|[]| |[] ? ?]; discriminate.
Qed.

(** Two-decimal rounding keeps what is not negative that way. *)
Lemma round2_leb_zero x :
  SFleb (S754_zero false) x = true -> SFleb (S754_zero false) (round2 x) = true.
Proof.
  intros Hx. destruct x as [s|s| |s m e]; try exact Hx.
  destruct s; [discriminate|]. unfold round2.
  destruct (0 <=? e); [reflexivity|].
  destruct (rne_div (100 * Zpos m) (2 ^ (- e))) as [|k|k]; try reflexivity.
  unfold nearest. apply nonneg_leb_zero, nonneg_round_units; lia.
Qed.

(** ** What the confirmation handler writes *)

Lemma balance_of_set_transactions f st p c :
  balance_of (set_transactions f st) p c = balance_of st p c.
Proof. reflexivity. Qed.

Lemma balance_of_set_current_quote q st p c :
  balance_of (set_current_quote q st) p c = balance_of st p c.
Proof. reflexivity. Qed.

(** The state the handler leaves when both lookups succeed. *)
Lemma confirm_transfer_complete st phone rp quote uid ts sender bal :
  users st !! phone = Some sender ->
  User.currencies sender !! Quote.source_currency quote = Some bal ->
  exists tx st',
    confirm_transfer st phone rp quote uid ts = (st', Complete tx)
    /\ tx = Transaction.mk uid (User.id sender) rp
              (Quote.amount_sent quote) (Quote.source_currency quote)
              (Quote.amount_received quote) (Quote.target_currency quote)
              (Quote.id quote) "Settled" ts
    /\ transactions st' = transactions st ++ [tx]
    /\ current_quote st' = None
    /\ quotes st' = quotes st
    /\ balance_of st' phone (Quote.source_currency quote)
       = Some (Currency.balance bal
               - (Quote.amount_sent quote + Quote.fees quote))%f64.
Proof.
  intros Hu Hc. unfold confirm_transfer. rewrite Hu, Hc.
  eexists _, _. split; [reflexivity|]. split; [reflexivity|].
  repeat split. unfold balance_of. cbn.
  rewrite lookup_insert_eq. cbn. rewrite lookup_insert_eq. reflexivity.
Qed.

(** Users other than the sidebar phone are not touched, whatever happens. *)
Lemma confirm_transfer_other_users st phone rp quote uid ts p :
  p <> phone ->
  users (confirm_transfer st phone rp quote uid ts).1 !! p = users st !! p.
Proof.
  intros Hp. unfold confirm_transfer.
  destruct (users st !! phone) as [sender|]; [|reflexivity].
  destruct (User.currencies sender !! _) as [bal|]; [|reflexivity].
  cbn. by rewrite lookup_insert_ne.
Qed.

Lemma confirm_transfer_balance_frame st phone rp quote uid ts p c :
  p <> phone \/ c <> Quote.source_currency quote ->
  balance_of (confirm_transfer st phone rp quote uid ts).1 p c
  = balance_of st p c.
Proof.
  intros Hpc. unfold confirm_transfer.
  destruct (users st !! phone) as [sender|] eqn:Hu; [|reflexivity].
  destruct (User.currencies sender !! _) as [bal|] eqn:Hc; [|reflexivity].
  unfold balance_of. cbn.
  destruct (decide (p = phone)) as [->|Hne].
  - rewrite lookup_insert_eq, Hu. cbn.
    destruct Hpc as [Hpc|Hpc]; [done|]. by rewrite lookup_insert_ne.
  - by rewrite lookup_insert_ne.
Qed.


Lemma confirm_transfer_quotes st phone rp quote uid ts :
  quotes (confirm_transfer st phone rp quote uid ts).1 = quotes st.
Proof.
  unfold confirm_transfer.
  destruct (users st !! phone) as [sender|]; [|reflexivity].
  by destruct (User.currencies sender !! _).
Qed.


(** ** A concrete session *)

Example quoted_100 :
  current_quote (quoted (lit 100 0))
  = Some (Quote.mk "quote-1" "USD" "NGN" f_1620_0 (lit 170 2) ten_minutes
            (lit 100 0) (lit 16199830 2))
  /\ balance_of (quoted (lit 100 0)) "+234" "USD" = Some f_2500_00.
Proof. vm_compute. split; reflexivity. Qed.

(** ** Successful settlement *)

(** C2 (a defect of the code).  The page tells the sender that an unknown
    receiver "will create on send" (line 144; [src/App.py], lines 102 and
    142, say "it will auto-create on confirm" and "credit receiver"), yet
    after a completed transfer of 100 USD to a receiver that has no account
    the receiver is as unknown as before: no account and no NGN balance
    exists for it, although the transaction records 161998.30 NGN
    received. *)
Lemma receiver_is_not_credited :
  receiver_name (quoted (lit 100 0)) "+15550100"
  = "Unknown (will create on send)"
  /\ (confirmed (lit 100 0)).2 = Complete (tx_of (lit 100 0) (lit 16199830 2))
  /\ users (confirmed (lit 100 0)).1 !! "+15550100" = None
  /\ balance_of (confirmed (lit 100 0)).1 "+15550100" "NGN" = None
  /\ receiver_name (confirmed (lit 100 0)).1 "+15550100"
     = "Unknown (will create on send)".
Proof. vm_compute. repeat split; reflexivity. Qed.

(** What a completed confirmation does write, the sender's side of the
    settlement.  Confirming the current quote before its expiry, for a
    sender that holds the source currency, completes: the sender's
    source-currency balance becomes [balance - (amount_sent + fees)], a
    transaction with status ["Settled"] that carries the quote's amounts,
    currencies and id is appended to the ledger and reported, and the
    current quote is removed from the session; the stored quotes are left
    as they were (a quote has no status field). *)
Theorem settle_debits_and_records st phone rp now uid ts quote sender bal :
  current_quote st = Some quote ->
  now < Quote.expiry quote ->
  users st !! phone = Some sender ->
  User.currencies sender !! Quote.source_currency quote = Some bal ->
  let tx :=
    Transaction.mk uid (User.id sender) rp
      (Quote.amount_sent quote) (Quote.source_currency quote)
      (Quote.amount_received quote) (Quote.target_currency quote)
      (Quote.id quote) "Settled" ts in
  let r := quote_panel st phone rp true now uid ts in
  r.2 = Complete tx
  /\ balance_of r.1 phone (Quote.source_currency quote)
     = Some (Currency.balance bal
             - (Quote.amount_sent quote + Quote.fees quote))%f64
  /\ transactions r.1 = transactions st ++ [tx]
  /\ current_quote r.1 = None
  /\ quotes r.1 = quotes st.
Proof.
  intros Hq Hnow Hu Hc. cbv zeta. unfold quote_panel, remaining. rewrite Hq.
  destruct (Z.leb_spec (Z.max 0 (Quote.expiry quote - now)) 0); [lia|].
  destruct (confirm_transfer_complete st phone rp quote uid ts _ _ Hu Hc)
    as (tx & st' & -> & -> & Htx & Hcur & Hquotes & Hbal).
  cbn [fst snd]. auto.
Qed.

Lemma settle_debits_and_records_witness :
  (confirmed (lit 100 0)).2 = Complete (tx_of (lit 100 0) (lit 16199830 2))
  /\ balance_of (confirmed (lit 100 0)).1 "+234" "USD"
     = Some (f_2500_00 - (lit 100 0 + lit 170 2))%f64.
Proof.
  pose proof
    (settle_debits_and_records (quoted (lit 100 0)) "+234" "+15550100"
       1000000 "tx-2" 1000000
       (Quote.mk "quote-1" "USD" "NGN" f_1620_0 (lit 170 2) ten_minutes
          (lit 100 0) (lit 16199830 2))
       (demo_user "user-1" "+234") (Currency.mk "USD" f_2500_00)) as H.
  cbv zeta in H.
  destruct H as (H1 & H2 & _); [vm_compute; reflexivity ..|].
  split; [vm_cast_no_check H1 | vm_cast_no_check H2].
Defined.

(** ** Expired quotes *)

(** C7.  Once the expiry of the current quote has passed, the panel shows
    the expiry warning whether or not "Confirm & Transfer" was pressed;
    the users table, hence every balance, and the ledger are unchanged. *)
Theorem expired_quote_is_not_settled st phone rp confirm now uid ts quote :
  current_quote st = Some quote ->
  Quote.expiry quote < now ->
  let r := quote_panel st phone rp confirm now uid ts in
  signalled r.2 = Some QuoteExpired
  /\ users r.1 = users st
  /\ (forall p c, balance_of r.1 p c = balance_of st p c)
  /\ transactions r.1 = transactions st.
Proof.
  intros Hq Hnow. cbv zeta. unfold quote_panel, remaining. rewrite Hq.
  destruct (Z.leb_spec (Z.max 0 (Quote.expiry quote - now)) 0); [|lia].
  cbn. auto.
Qed.

Lemma expired_quote_is_not_settled_witness :
  signalled (quote_panel (quoted (lit 100 0)) "+234" "+15550100" true
               (ten_minutes + 1) "tx-2" 0).2 = Some QuoteExpired
  /\ balance_of (quote_panel (quoted (lit 100 0)) "+234" "+15550100" true
                   (ten_minutes + 1) "tx-2" 0).1 "+234" "USD"
     = Some f_2500_00.
Proof.
  pose proof
    (expired_quote_is_not_settled (quoted (lit 100 0)) "+234" "+15550100"
       true (ten_minutes + 1) "tx-2" 0
       (Quote.mk "quote-1" "USD" "NGN" f_1620_0 (lit 170 2) ten_minutes
          (lit 100 0) (lit 16199830 2))) as H.
  cbv zeta in H.
  destruct H as (H1 & _ & H3 & _); [vm_compute; reflexivity ..|].
  split; [exact H1|]. rewrite H3. vm_compute. reflexivity.
Defined.

(** ** One settlement per quote *)

(** C1, as stated, fails: pressing "Confirm & Transfer" again after a
    completed transfer signals nothing at all, there being no current quote
    any more. *)
Lemma second_confirm_is_silent :
  (confirmed (lit 100 0)).2 = Complete (tx_of (lit 100 0) (lit 16199830 2))
  /\ (script (confirmed (lit 100 0)).1 (press_confirm (lit 100 0))
        (env_at "3" 2000000)).2 = NoQuote
  /\ signalled (script (confirmed (lit 100 0)).1 (press_confirm (lit 100 0))
                  (env_at "3" 2000000)).2 <> Some QuoteAlreadyConsumed.
Proof. vm_compute. repeat split; [reflexivity .. | discriminate]. Qed.

Lemma settled_for_app qid l tx :
  settled_for qid (l ++ [tx])
  = settled_for qid l
    ++ (if decide (Transaction.quote_id tx = qid
                   /\ Transaction.status tx = "Settled")
        then [tx] else []).
Proof.
  unfold settled_for. by rewrite filter_app.
Qed.

Lemma confirm_transfer_ledger st phone rp quote uid ts :
  let r := confirm_transfer st phone rp quote uid ts in
  (transactions r.1 = transactions st
   \/ exists tx, transactions r.1 = transactions st ++ [tx]
                 /\ Transaction.quote_id tx = Quote.id quote)
  /\ (current_quote r.1 = current_quote st \/ current_quote r.1 = None).
Proof.
  cbv zeta. unfold confirm_transfer.
  destruct (users st !! phone) as [sender|]; [|by auto].
  destruct (User.currencies sender !! _) as [bal|]; cbn; split; eauto.
Qed.

Lemma quote_panel_other_quote qid st phone rp confirm now uid ts :
  not_current qid st ->
  let r := quote_panel st phone rp confirm now uid ts in
  not_current qid r.1
  /\ settled_for qid (transactions r.1) = settled_for qid (transactions st).
Proof.
  unfold not_current, quote_panel. intros Hinv. cbv zeta.
  destruct (current_quote st) as [quote|] eqn:Hq; [|cbn; by rewrite Hq].
  destruct (remaining quote now <=? 0); [done|].
  destruct confirm; [|cbn; by rewrite Hq].
  destruct (confirm_transfer_ledger st phone rp quote uid ts) as [Hl Hc].
  split.
  - destruct Hc as [-> | ->]; [by rewrite Hq | done].
  - destruct Hl as [-> | (tx & -> & Hid)]; [done|].
    rewrite settled_for_app.
    destruct (decide _) as [[Heq _]|_]; [congruence|]. by rewrite app_nil_r.
Qed.

Lemma script_other_quote qid st w env :
  not_current qid st ->
  uuid_quote env <> qid ->
  let r := script st w env in
  not_current qid r.1
  /\ settled_for qid (transactions r.1) = settled_for qid (transactions st).
Proof.
  intros Hinv Hid. cbv zeta. unfold script.
  set (st1 := sidebar st (w_phone w) (uuid_user env)).
  assert (H1 : not_current qid st1 /\ transactions st1 = transactions st).
  { unfold st1, sidebar. destruct (decide _); [done|].
    by destruct (users st !! w_phone w). }
  destruct H1 as [H1 H1'].
  destruct (decide (w_receiver_phone w = "")); [cbn; by rewrite H1'|].
  set (st2 := get_locked_quote st1 w env).
  assert (H2 : not_current qid st2 /\ transactions st2 = transactions st1).
  { unfold st2, get_locked_quote. destruct (_ && _); [|done]. done. }
  destruct H2 as [H2 H2'].
  destruct (quote_panel_other_quote qid st2 (w_phone w) (w_receiver_phone w)
              (w_confirm w) (now_panel env) (uuid_tx env) (now_class env) H2)
    as [H3 H3'].
  split; [exact H3|]. by rewrite H3', H2', H1'.
Qed.

Lemma session_other_quote qid runs : forall st,
  not_current qid st ->
  Forall (fun r => uuid_quote r.2 <> qid) runs ->
  settled_for qid (transactions (session st runs))
  = settled_for qid (transactions st).
Proof.
  induction runs as [|[w env] runs IH]; intros st Hinv Hall; [done|].
  apply Forall_cons in Hall as [Hid Hall]. cbn in Hid.
  destruct (script_other_quote qid st w env Hinv Hid) as [Hinv' Heq].
  unfold session in *. cbn. rewrite IH; done.
Qed.

Lemma script_complete st w env st' tx :
  script st w env = (st', Complete tx) ->
  current_quote st' = None
  /\ transactions st' = transactions st ++ [tx]
  /\ Transaction.status tx = "Settled".
Proof.
  unfold script.
  set (st1 := sidebar st (w_phone w) (uuid_user env)).
  assert (H1 : transactions st1 = transactions st).
  { unfold st1, sidebar. destruct (decide _); [done|].
    by destruct (users st !! w_phone w). }
  destruct (decide _); [done|].
  set (st2 := get_locked_quote st1 w env).
  assert (H2 : transactions st2 = transactions st1).
  { unfold st2, get_locked_quote. by destruct (_ && _). }
  unfold quote_panel.
  destruct (current_quote st2) as [quote|]; [|done].
  destruct (_ <=? _); [done|]. destruct (w_confirm w); [|done].
  unfold confirm_transfer.
  destruct (users st2 !! w_phone w) as [sender|]; [|done].
  destruct (User.currencies sender !! _) as [bal|]; [|done].
  intros [= <- <-]. cbn. by rewrite H2, H1.
Qed.

Lemma sidebar_frame st phone uid :
  transactions (sidebar st phone uid) = transactions st
  /\ quotes (sidebar st phone uid) = quotes st
  /\ current_quote (sidebar st phone uid) = current_quote st.
Proof.
  unfold sidebar. destruct (decide _); [done|].
  by destruct (users st !! phone).
Qed.

Lemma demo_user_holds_supported uid phone c :
  c ∈ supported -> is_Some (User.currencies (demo_user uid phone) !! c).
Proof.
  unfold supported. rewrite !elem_of_cons, elem_of_nil.
  intros [->|[->|[->|[]]]]; vm_compute; eauto.
Qed.

Lemma sidebar_holds_supported st phone uid :
  holds_supported st -> holds_supported (sidebar st phone uid).
Proof.
  intros Hh. unfold sidebar. destruct (decide _); [done|].
  destruct (users st !! phone) eqn:Hu; [done|].
  intros p u c. cbn. destruct (decide (p = phone)) as [->|Hne].
  - rewrite lookup_insert_eq. intros [= <-]. apply demo_user_holds_supported.
  - rewrite lookup_insert_ne by done. apply Hh.
Qed.

Lemma confirm_transfer_holds_supported st phone rp quote uid ts :
  holds_supported st ->
  holds_supported (confirm_transfer st phone rp quote uid ts).1.
Proof.
  intros Hh. unfold confirm_transfer.
  destruct (users st !! phone) as [sender|] eqn:Hu; [|done].
  destruct (User.currencies sender !! _) as [bal|] eqn:Hc; [|done].
  intros p u c. cbn. destruct (decide (p = phone)) as [->|Hne].
  - rewrite lookup_insert_eq. intros [= <-] Hs. cbn.
    apply lookup_insert_is_Some'. right. by apply (Hh phone sender).
  - rewrite lookup_insert_ne by done. apply Hh.
Qed.

Lemma get_locked_quote_frame st w env :
  users (get_locked_quote st w env) = users st
  /\ transactions (get_locked_quote st w env) = transactions st
  /\ (current_quote (get_locked_quote st w env) = current_quote st
      \/ exists quote,
           current_quote (get_locked_quote st w env) = Some quote
           /\ Quote.id quote = uuid_quote env
           /\ Quote.source_currency quote = w_source_curr w).
Proof.
  unfold get_locked_quote. destruct (_ && _); [|by auto].
  cbn. split; [done|]. split; [done|]. right. eauto.
Qed.

(** One run keeps [settles_once], given selectbox values among the options
    and a quote id that is new. *)
Lemma script_settles_once st w env :
  settles_once st -> offered w -> unused (uuid_quote env) st ->
  settles_once (script st w env).1
  /\ (forall tx, (script st w env).2 = Complete tx ->
        settled_for (Transaction.quote_id tx) (transactions st) = []
        /\ (Transaction.quote_id tx = uuid_quote env
            \/ exists quote, current_quote st = Some quote
                 /\ Quote.id quote = Transaction.quote_id tx)).
Proof.
  intros (Hh & Hc & Hl) [Hsrc _] [_ Hfresh]. unfold script.
  destruct (sidebar_frame st (w_phone w) (uuid_user env)) as (T1 & _ & C1).
  pose proof (sidebar_holds_supported st (w_phone w) (uuid_user env) Hh) as Hh1.
  set (st1 := sidebar st (w_phone w) (uuid_user env)) in *.
  destruct (decide (w_receiver_phone w = "")).
  { cbn. split; [|done]. split; [done|]. rewrite T1, C1. by split. }
  destruct (get_locked_quote_frame st1 w env) as (U2 & T2 & C2).
  set (st2 := get_locked_quote st1 w env) in *.
  rewrite T1 in T2.
  assert (Hh2 : holds_supported st2).
  { intros p u c. rewrite U2. apply Hh1. }
  assert (P2 : forall quote, current_quote st2 = Some quote ->
            Quote.source_currency quote ∈ supported
            /\ settled_for (Quote.id quote) (transactions st) = []
            /\ (Quote.id quote = uuid_quote env
                \/ current_quote st = Some quote)).
  { intros quote Hq. destruct C2 as [C2|(q' & C2 & Hid & Hs)].
    - rewrite C2, C1 in Hq. destruct (Hc _ Hq). auto.
    - rewrite C2 in Hq. injection Hq as <-. rewrite Hid, Hs. auto. }
  assert (Keep : settles_once st2).
  { split; [done|]. rewrite T2. split; [|done].
    intros quote Hq. destruct (P2 _ Hq) as (? & ? & _). done. }
  assert (Drop : settles_once (set_current_quote None st2)).
  { split; [done|]. cbn. rewrite T2. split; [done|done]. }
  unfold quote_panel. destruct (current_quote st2) as [quote|] eqn:Hq;
    [|by split].
  destruct (_ <=? _); [by split|]. destruct (w_confirm w); [|by split].
  destruct (P2 _ eq_refl) as (Hs & He & Hor).
  pose proof (confirm_transfer_holds_supported st2 (w_phone w)
                (w_receiver_phone w) quote (uuid_tx env) (now_class env) Hh2)
    as Hh3.
  revert Hh3. unfold confirm_transfer.
  destruct (users st2 !! w_phone w) as [sender|] eqn:Hu; [|by split].
  destruct (Hh2 _ _ _ Hu Hs) as [bal Hbal]. rewrite Hbal. cbn [fst snd].
  intros Hh3. split.
  - split; [exact Hh3|]. cbn -[settled_for]. split; [done|]. intros qid.
    rewrite T2, settled_for_app. destruct (decide _) as [[<- _]|_].
    + cbn -[settled_for] in *. rewrite He. cbn. lia.
    + rewrite app_nil_r. apply Hl.
  - intros tx [= <-]. cbn. split; [done|].
    destruct Hor as [Hid|Hcur]; [by left|right; eauto].
Qed.

Lemma script_unused st w env k :
  unused k st -> uuid_quote env <> k -> unused k (script st w env).1.
Proof.
  intros [Hn He] Hk.
  destruct (script_other_quote k st w env Hn Hk) as [H1 H2].
  split; [exact H1|]. by rewrite H2.
Qed.

Lemma session_cons st w env runs :
  session st ((w, env) :: runs) = session (script st w env).1 runs.
Proof. reflexivity. Qed.

Lemma session_settles_once runs : forall st ks,
  settles_once st ->
  Forall (fun r => offered r.1) runs ->
  NoDup (((fun r => uuid_quote r.2) <$> runs) ++ ks) ->
  Forall (fun k => unused k st) (((fun r => uuid_quote r.2) <$> runs) ++ ks) ->
  settles_once (session st runs)
  /\ Forall (fun k => unused k (session st runs)) ks.
Proof.
  induction runs as [|[w env] runs IH]; intros st ks Hinv Hoff Hnd Hun.
  - by split.
  - apply Forall_cons in Hoff as [Hw Hoff].
    rewrite fmap_cons in Hnd, Hun. cbn [app fst snd] in Hnd, Hun.
    apply NoDup_cons in Hnd as [Hnew Hnd].
    apply Forall_cons in Hun as [Hu Hun].
    rewrite session_cons.
    destruct (script_settles_once st w env Hinv Hw Hu) as [Hinv' _].
    apply IH; try done.
    rewrite Forall_forall in Hun. apply Forall_forall. intros k Hk.
    apply script_unused; [by apply Hun|]. intros <-. done.
Qed.

Lemma unused_initial k : unused k initial_state.
Proof. by split. Qed.

Lemma settles_once_initial : settles_once initial_state.
Proof.
  split; [intros p u c Hp; cbn in Hp; by rewrite lookup_empty in Hp|].
  split; [done|]. intros qid. cbn. lia.
Qed.

(** Without a current quote and without a request for one, a run does
    nothing but provision the sidebar phone. *)
Lemma script_without_quote st w env :
  current_quote st = None -> w_get_quote w = false ->
  let r := script st w env in
  (r.2 = NoQuote \/ r.2 = NoReceiver)
  /\ signalled r.2 = None
  /\ transactions r.1 = transactions st
  /\ current_quote r.1 = None
  /\ quotes r.1 = quotes st
  /\ (forall p u, users st !! p = Some u -> users r.1 !! p = Some u).
Proof.
  intros Hq Hg. cbv zeta. unfold script.
  destruct (sidebar_frame st (w_phone w) (uuid_user env)) as (T1 & Q1 & C1).
  assert (U1 : forall p u, users st !! p = Some u ->
            users (sidebar st (w_phone w) (uuid_user env)) !! p = Some u).
  { intros p u Hp. unfold sidebar. destruct (decide _); [done|].
    destruct (users st !! w_phone w) eqn:Hu; [done|]. cbn.
    rewrite lookup_insert_ne; [done|]. intros <-. congruence. }
  set (st1 := sidebar st (w_phone w) (uuid_user env)) in *.
  rewrite Hq in C1.
  destruct (decide _); [cbn; by auto 10|].
  unfold get_locked_quote. rewrite Hg. cbn [andb].
  unfold quote_panel. rewrite C1. cbn. auto 10.
Qed.

Lemma session_without_quote runs : forall st,
  current_quote st = None ->
  Forall (fun r => w_get_quote r.1 = false) runs ->
  transactions (session st runs) = transactions st
  /\ current_quote (session st runs) = None
  /\ quotes (session st runs) = quotes st
  /\ (forall p u, users st !! p = Some u ->
        users (session st runs) !! p = Some u).
Proof.
  induction runs as [|[w env] runs IH]; intros st Hq Hall; [done|].
  apply Forall_cons in Hall as [Hg Hall]. rewrite session_cons.
  destruct (script_without_quote st w env Hq Hg) as (_ & _ & T & C & Q & U).
  destruct (IH _ C Hall) as (T' & C' & Q' & U').
  split; [by rewrite T'|]. split; [done|]. split; [by rewrite Q'|].
  intros p u Hp. by apply U', U.
Qed.

(** Why the selectboxes matter: a source currency that no account holds
    makes line 203 raise after the append of line 200, the quote stays
    current, and every further press records the quote once more. *)
Example unoffered_currency_is_recorded_twice :
  let w := mk_widgets "+234" "+15550100" "GBP" "NGN" (lit 100 0) in
  let st1 := (script initial_state (w true false) (env_at "1" 0)).1 in
  let r2 := script st1 (w false true) (env_at "2" 1000000) in
  let r3 := script r2.1 (w false true) (env_at "3" 2000000) in
  r2.2 = KeyError /\ r3.2 = KeyError
  /\ length (settled_for "quote-1" (transactions r3.1)) = 2%nat.
Proof. vm_compute. repeat split; reflexivity. Qed.

(** C1, amended.  In a session that starts from the empty store, with the
    selectboxes holding offered currencies and [uuid4] never returning a
    quote id twice, a completed transfer settles a quote that had no
    settled transaction before, leaves exactly one for it and removes the
    quote from the session; whatever runs follow, that one stays the only
    settled transaction of the quote, and no quote id ever has more than
    one.  After the completion, as long as no new quote is asked for,
    every run, "Confirm & Transfer" pressed or not, finds no quote: it
    reports nothing, and changes neither the ledger nor the stored quotes
    nor any existing account.  No run of the script ever signals
    [QuoteAlreadyConsumed]. *)
Theorem settled_once_per_quote before w env tx after :
  Forall (fun r => offered r.1) (before ++ (w, env) :: after) ->
  NoDup ((fun r => uuid_quote r.2) <$> (before ++ (w, env) :: after)) ->
  let st := session initial_state before in
  (script st w env).2 = Complete tx ->
  let st' := (script st w env).1 in
  let qid := Transaction.quote_id tx in
  settled_for qid (transactions st) = []
  /\ settled_for qid (transactions st') = [tx]
  /\ current_quote st' = None
  /\ settled_for qid (transactions (session st' after)) = [tx]
  /\ (forall q, (length (settled_for q (transactions (session st' after)))
                 <= 1)%nat)
  /\ (forall later w' env',
        Forall (fun r => w_get_quote r.1 = false) later ->
        w_get_quote w' = false ->
        let r := script (session st' later) w' env' in
        (r.2 = NoQuote \/ r.2 = NoReceiver)
        /\ signalled r.2 = None
        /\ transactions r.1 = transactions st'
        /\ current_quote r.1 = None
        /\ quotes r.1 = quotes st'
        /\ (forall p u, users st' !! p = Some u -> users r.1 !! p = Some u))
  /\ (forall st0 w' env',
        signalled (script st0 w' env').2 <> Some QuoteAlreadyConsumed).
Proof.
  intros Hoff Hnd. cbv zeta. intros Hrun.
  apply Forall_app in Hoff as [Hoff1 Hoff2].
  apply Forall_cons in Hoff2 as [Hw Hoff2].
  rewrite fmap_app, fmap_cons in Hnd. cbn [fst snd] in Hnd.
  destruct (session_settles_once before initial_state
              (uuid_quote env :: ((fun r => uuid_quote r.2) <$> after))
              settles_once_initial Hoff1 Hnd) as [Hinv Hun].
  { apply Forall_forall. intros k _. apply unused_initial. }
  apply NoDup_app in Hnd as (_ & _ & Hnd).
  apply NoDup_cons in Hnd as [Hnew Hnd].
  apply Forall_cons in Hun as [Hu Hun].
  set (st := session initial_state before) in *.
  destruct (script_settles_once st w env Hinv Hw Hu) as [Hinv' Hc].
  destruct (Hc tx Hrun) as [Hempty Hid].
  destruct (script_complete st w env (script st w env).1 tx) as (Hcur & Htx & Hst).
  { by destruct (script st w env) as [s o]; cbn in *; subst. }
  set (st' := (script st w env).1) in *.
  assert (Hone : settled_for (Transaction.quote_id tx) (transactions st') = [tx]).
  { rewrite Htx, settled_for_app, Hempty. by rewrite decide_True. }
  assert (Hun' : Forall (fun k => unused k st')
                   ((fun r => uuid_quote r.2) <$> after)).
  { rewrite Forall_forall in Hun. apply Forall_forall. intros k Hk.
    apply script_unused; [by apply Hun|]. intros <-. done. }
  split; [exact Hempty|]. split; [exact Hone|]. split; [exact Hcur|].
  split; [|split; [|split]].
  - rewrite <- Hone. apply session_other_quote.
    + unfold not_current. by rewrite Hcur.
    + apply Forall_forall. intros r Hr.
      assert (Hk : uuid_quote r.2 ∈ (fun r => uuid_quote r.2) <$> after).
      { by apply (list_elem_of_fmap_2 (fun r => uuid_quote r.2)). }
      destruct Hid as [Hid|(quote & Hq & Hid)].
      * rewrite Hid. intros Heq. rewrite Heq in Hk. done.
      * rewrite Forall_forall in Hun. destruct (Hun _ Hk) as [Hn _].
        unfold not_current in Hn. rewrite Hq in Hn. congruence.
  - destruct (session_settles_once after st' [] Hinv' Hoff2) as [(_ & _ & Hl) _].
    + by rewrite app_nil_r.
    + by rewrite app_nil_r.
    + exact Hl.
  - intros later w' env' Hl Hg. cbv zeta.
    destruct (session_without_quote later st' Hcur Hl) as (T & C & Q & U).
    destruct (script_without_quote _ w' env' C Hg) as (O & S & T' & C' & Q' & U').
    split; [done|]. split; [done|]. split; [by rewrite T'|].
    split; [done|]. split; [by rewrite Q'|].
    intros p u Hp. by apply U', U.
  - intros st0 w' env'. by destruct (script st0 w' env').2.
Qed.

Lemma settled_once_per_quote_witness :
  settled_for "quote-1"
    (transactions
       (session (confirmed (lit 100 0)).1
          [(press_confirm (lit 100 0), env_at "3" 2000000);
           (ask (lit 100 0), env_at "4" 3000000);
           (press_confirm (lit 100 0), env_at "5" 4000000)]))
  = [tx_of (lit 100 0) (lit 16199830 2)].
Proof.
  pose proof
    (settled_once_per_quote [(ask (lit 100 0), env_at "1" 0)]
       (press_confirm (lit 100 0)) (env_at "2" 1000000)
       (tx_of (lit 100 0) (lit 16199830 2))
       [(press_confirm (lit 100 0), env_at "3" 2000000);
        (ask (lit 100 0), env_at "4" 3000000);
        (press_confirm (lit 100 0), env_at "5" 4000000)]) as H.
  cbv zeta in H.
  destruct H as (_ & _ & _ & H & _).
  - repeat constructor.
  - apply (bool_decide_unpack _). vm_compute. reflexivity.
  - vm_compute. reflexivity.
  - exact H.
Defined.

(** ** Rates *)

Lemma base_rates_lookup source target r :
  base_rates !! (source, target) = Some r ->
  r = f_0_93 \/ r = f_1620_0 \/ r = f_1750_0.
Proof.
  unfold base_rates. rewrite !lookup_insert, lookup_empty.
  repeat case_decide; naive_solver.
Qed.

(** Anything a positive finite float is below or equal to is positive. *)
Lemma leb_positive_ltb_zero m e (u : float) :
  (S754_finite false m e <=? u)%f64 = true -> (zero <? u)%f64 = true.
Proof.
  destruct u as [s|s| |s m' e']; try destruct s; try discriminate;
    reflexivity.
Qed.

Lemma resolve_rate_pos source target u :
  (f_0_85 <=? u)%f64 = true ->
  (zero <? resolve_rate source target u)%f64 = true.
Proof.
  intros Hu. unfold resolve_rate.
  destruct (base_rates !! (source, target)) as [r|] eqn:Hr; cbn.
  - by destruct (base_rates_lookup _ _ _ Hr) as [-> | [-> | ->]].
  - exact (leb_positive_ltb_zero _ _ _ Hu).
Qed.

(** C8.  The rate a quote is given is strictly positive for every pair of
    currency codes, in both source files: a pinned pair gets its table rate
    whatever was drawn, any other pair gets the number [random.uniform]
    drew, which lies in [0.85, 1.15] (resp. [0.8, 1.2]).  The rate is a
    total function of the pair and the draw. *)
Theorem resolve_rate_positive source target u u' :
  uniform_0_85_1_15 u ->
  Prototype.uniform_0_8_1_2 u' ->
  (zero <? resolve_rate source target u)%f64 = true
  /\ (zero <? Prototype.resolve_rate source target u')%f64 = true
  /\ (forall v, is_Some (base_rates !! (source, target)) ->
        resolve_rate source target v = resolve_rate source target u)
  /\ (forall v, base_rates !! (source, target) = None ->
        resolve_rate source target v = v)
  /\ (forall v, resolve_rate "USD" "EUR" v = f_0_93
                /\ resolve_rate "USD" "NGN" v = f_1620_0
                /\ resolve_rate "EUR" "NGN" v = f_1750_0
                /\ Prototype.resolve_rate "USD" "EUR" v = f_0_92).
Proof.
  intros [Hu _] [Hu' _]. split; [|split; [|split; [|split]]].
  - by apply resolve_rate_pos.
  - unfold Prototype.resolve_rate. case_decide; [done|].
    exact (leb_positive_ltb_zero _ _ _ Hu').
  - intros v [r Hr]. unfold resolve_rate. by rewrite Hr.
  - intros v Hr. unfold resolve_rate. by rewrite Hr.
  - intros v. repeat split.
Qed.

Lemma resolve_rate_positive_witness :
  (zero <? resolve_rate "NGN" "USD" (lit 1 0))%f64 = true
  /\ (zero <? Prototype.resolve_rate "NGN" "USD" (lit 9 1))%f64 = true.
Proof.
  destruct (resolve_rate_positive "NGN" "USD" (lit 1 0) (lit 9 1))
    as (H1 & H2 & _).
  - split; vm_compute; reflexivity.
  - split; vm_compute; reflexivity.
  - split; [exact H1 | exact H2].
Defined.

(** ** Fees *)

Lemma positive_nonneg a : valid a -> (zero <? a)%f64 = true -> nonneg a.
Proof.
  intros Hv Hp. split; [exact Hv|].
  destruct a as [[]|[]| |[] m e]; try discriminate; exact I.
Qed.

Lemma above_positive a1 a2 :
  (zero <? a1)%f64 = true -> (a1 <=? a2)%f64 = true -> (zero <? a2)%f64 = true.
Proof.
  intros H1 H2.
  destruct a1 as [[]|[]| |[] m1 e1]; try discriminate;
    destruct a2 as [[]|[]| |[] m2 e2]; try discriminate; reflexivity.
Qed.

Lemma nonneg_leb_refl x : nonneg x -> (x <=? x)%f64 = true.
Proof.
  intros [_ Hs]. destruct x as [[]|[]| |[] m e]; try destruct Hs; try reflexivity.
  unfold leb, SFleb, SFcompare. rewrite Z.compare_refl, Pos.compare_cont_refl.
  reflexivity.
Qed.

(** The two fee rules of the sources are instances of the rule above. *)
Lemma fee_rules_mono a1 a2 :
  nonneg a1 -> nonneg a2 -> (a1 <=? a2)%f64 = true ->
  (nonneg (calculate_fees a1)
   /\ (calculate_fees a1 <=? calculate_fees a2)%f64 = true)
  /\ (nonneg (Prototype.calculate_fees a1)
      /\ (Prototype.calculate_fees a1 <=? Prototype.calculate_fees a2)%f64
         = true).
Proof.
  intros N1 N2 Hle. split.
  - exact (fee_rule_mono 6917529027641082 (-59) 4503599627370496 (-53)
             ltac:(reflexivity) ltac:(apply Z.leb_le; reflexivity)
             ltac:(reflexivity) a1 a2 N1 N2 Hle).
  - exact (fee_rule_mono 8646911284551352 (-59) 4503599627370496 (-52)
             ltac:(reflexivity) ltac:(apply Z.leb_le; reflexivity)
             ltac:(reflexivity) a1 a2 N1 N2 Hle).
Qed.

Lemma calculate_fees_nonneg a :
  valid a -> (zero <? a)%f64 = true -> (zero <=? calculate_fees a)%f64 = true.
Proof.
  intros Hv Hp. pose proof (positive_nonneg a Hv Hp) as Hn.
  destruct (fee_rules_mono a a Hn Hn (nonneg_leb_refl a Hn)) as [[H _] _].
  exact (nonneg_leb_zero _ H).
Qed.

(** C9.  Both fee rules, [round(amount * 0.012 + 0.50, 2)] of [src/app.py]
    and [round(amount * 0.015 + 1.0, 2)] of [src/App.py], are non-negative
    and monotonically non-decreasing on positive amounts: for binary64
    amounts [0 < a1 <= a2], [0 <= fee a1 <= fee a2]. *)
Theorem calculate_fees_monotone a1 a2 :
  valid a1 -> valid a2 ->
  (zero <? a1)%f64 = true -> (a1 <=? a2)%f64 = true ->
  (zero <=? calculate_fees a1)%f64 = true
  /\ (calculate_fees a1 <=? calculate_fees a2)%f64 = true
  /\ (zero <=? Prototype.calculate_fees a1)%f64 = true
  /\ (Prototype.calculate_fees a1 <=? Prototype.calculate_fees a2)%f64 = true.
Proof.
  intros V1 V2 P1 Hle.
  pose proof (positive_nonneg a1 V1 P1) as N1.
  pose proof (positive_nonneg a2 V2 (above_positive _ _ P1 Hle)) as N2.
  destruct (fee_rules_mono a1 a2 N1 N2 Hle) as [[F1 F2] [G1 G2]].
  split; [exact (nonneg_leb_zero _ F1)|]. split; [exact F2|].
  split; [exact (nonneg_leb_zero _ G1)|exact G2].
Qed.

Lemma calculate_fees_monotone_witness :
  (zero <=? calculate_fees (lit 50 2))%f64 = true
  /\ (calculate_fees (lit 50 2) <=? calculate_fees (lit 100 0))%f64 = true.
Proof.
  destruct (calculate_fees_monotone (lit 50 2) (lit 100 0))
    as (H1 & H2 & _); [reflexivity..|].
  split; [exact H1 | exact H2].
Defined.

(** ** Quotes *)

(** C6.  For a binary64 amount of at least 5.0 (the lower bound of the
    amount widget) and a draw within the range of [random.uniform],
    whatever the currency codes, the quote [create_quote] returns has
    [rate > 0], [fees >= 0] and
    [amount_received = round(amount * rate - fees, 2)]; and
    [create_quote("USD", "NGN", 100.00)] has rate 1620.0, fee 1.70 and
    amount received 161998.30. *)
Theorem create_quote_well_formed st source target amount uid u now :
  valid amount ->
  (f_5_0 <=? amount)%f64 = true ->
  uniform_0_85_1_15 u ->
  let quote := (create_quote st source target amount uid u now).2 in
  let quote_100 := (create_quote st "USD" "NGN" (lit 100 0) uid u now).2 in
  (zero <? Quote.rate quote)%f64 = true
  /\ (zero <=? Quote.fees quote)%f64 = true
  /\ Quote.amount_received quote
     = round2 (amount * Quote.rate quote - Quote.fees quote)%f64
  /\ Quote.rate quote_100 = f_1620_0
  /\ Quote.fees quote_100 = lit 170 2
  /\ Quote.amount_received quote_100 = lit 16199830 2.
Proof.
  intros Hv H5 Hu. cbv zeta. unfold create_quote.
  cbn [snd Quote.rate Quote.fees Quote.amount_received].
  split; [apply resolve_rate_pos, Hu|].
  split.
  { apply calculate_fees_nonneg; [exact Hv|].
    exact (leb_positive_ltb_zero _ _ _ H5). }
  split; [reflexivity|]. split; [vm_compute; reflexivity|].
  split; vm_compute; reflexivity.
Qed.

Lemma create_quote_well_formed_witness :
  (zero <? Quote.rate (create_quote initial_state "NGN" "USD" (lit 25050 2)
                         "quote-1" (lit 1 0) 0).2)%f64 = true
  /\ (zero <=? Quote.fees (create_quote initial_state "NGN" "USD" (lit 25050 2)
                             "quote-1" (lit 1 0) 0).2)%f64 = true.
Proof.
  destruct (create_quote_well_formed initial_state "NGN" "USD" (lit 25050 2)
              "quote-1" (lit 1 0) 0) as (H1 & H2 & _).
  - reflexivity.
  - reflexivity.
  - split; reflexivity.
  - split; [exact H1 | exact H2].
Defined.

(** ** Negative quotes *)

(** C5, as stated, fails: [create_quote("USD", "EUR", 0.50)] returns, and
    stores, a quote whose fee is 0.51 and whose [amount_received] is
    -0.04. *)
Lemma negative_quote_is_issued :
  let r := create_quote initial_state "USD" "EUR" (lit 50 2) "quote-1" f_1_0 0 in
  Quote.fees r.2 = lit 51 2
  /\ Quote.amount_received r.2 = lit (-4) 2
  /\ (Quote.amount_received r.2 <? zero)%f64 = true
  /\ quotes r.1 !! "quote-1" = Some r.2.
Proof. vm_compute. repeat split; reflexivity. Qed.

Lemma resolve_rate_range source target u :
  valid u -> uniform_0_85_1_15 u ->
  valid (resolve_rate source target u)
  /\ (f_0_85 <=? resolve_rate source target u)%f64 = true
  /\ (resolve_rate source target u <=? f_1750_0)%f64 = true.
Proof.
  intros Vu [Hl Hh]. unfold resolve_rate.
  destruct (base_rates !! (source, target)) as [r|] eqn:Hr; cbn.
  - destruct (base_rates_lookup _ _ _ Hr) as [-> | [-> | ->]];
      repeat split; reflexivity.
  - split; [exact Vu|]. split; [exact Hl|].
    apply (SFleb_trans u f_1_15); (assumption || reflexivity).
Qed.

(** The amount times the rate is at least the product of their lower
    bounds. *)
Lemma product_lower lo a r :
  valid lo -> valid a -> valid r ->
  SFltb (S754_zero false) lo = true ->
  SFleb lo a = true -> SFleb a f_15000_0 = true ->
  SFleb f_0_85 r = true -> SFleb r f_1750_0 = true ->
  valid (SFmul prec emax a r)
  /\ SFleb (SFmul prec emax lo f_0_85) (SFmul prec emax a r) = true.
Proof.
  intros Vl Va Vr Pl La Ha Lr Hr.
  destruct (between_positive lo f_15000_0 a Vl ltac:(reflexivity) Va Pl
              ltac:(reflexivity) La Ha) as (ma & ea & -> & Hau & _).
  destruct (between_positive f_0_85 f_1750_0 r ltac:(reflexivity)
              ltac:(reflexivity) Vr ltac:(reflexivity) ltac:(reflexivity)
              Lr Hr) as (mr & er & -> & Hru & _).
  assert (Hlo : exists ml el, lo = S754_finite false ml el).
  { destruct lo as [[]|[]| |[] ml el]; try discriminate; eauto. }
  destruct Hlo as (ml & el & ->).
  cbn [units cond_Zopp] in Hau.
  change (units (S754_finite false mr er))
    with (Zpos mr * 2 ^ (er + 1074)) in Hru.
  assert (Nr : 2 ^ 52 <= Zpos mr).
  { apply (normal_of_units false mr er Vr).
    etransitivity; [|exact Hru]. apply Z.leb_le. vm_compute. reflexivity. }
  split; [by apply SFmul_valid|].
  apply SFmul_mono; try assumption; try reflexivity.
  apply Z.leb_le. reflexivity.
Qed.

(** On a stretch [lo .. hi] of amounts where the fee of [hi] is below
    [lo * 0.85], the fee is covered. *)
Lemma received_step lo hi a r :
  valid lo -> valid hi -> valid a -> valid r ->
  SFltb (S754_zero false) lo = true ->
  SFleb lo a = true -> SFleb a hi = true -> SFleb hi f_15000_0 = true ->
  SFleb f_0_85 r = true -> SFleb r f_1750_0 = true ->
  valid (SFmul prec emax lo f_0_85) ->
  is_finite (SFmul prec emax lo f_0_85) = true ->
  SFleb (calculate_fees hi) (SFmul prec emax lo f_0_85) = true ->
  SFleb (S754_zero false)
    (SFsub prec emax (SFmul prec emax a r) (calculate_fees a)) = true.
Proof.
  intros Vl Vh Va Vr Pl La Ha Hh Lr Hr Vc Fc Hc.
  assert (Ha' : SFleb a f_15000_0 = true)
    by (apply (SFleb_trans a hi); (assumption || reflexivity)).
  destruct (product_lower lo a r Vl Va Vr Pl La Ha' Lr Hr) as [Vm Hm].
  assert (Pa : SFltb (S754_zero false) a = true)
    by (exact (above_positive lo a Pl La)).
  assert (Ph : SFltb (S754_zero false) hi = true)
    by (exact (above_positive a hi Pa Ha)).
  pose proof (positive_nonneg a Va Pa) as Na.
  pose proof (positive_nonneg hi Vh Ph) as Nh.
  destruct (fee_rules_mono a hi Na Nh Ha) as [[Nf Hf] _].
  destruct (fee_rules_mono hi hi Nh Nh (nonneg_leb_refl hi Nh)) as [[Nfh _] _].
  assert (Hlc : SFleb (calculate_fees a) (SFmul prec emax lo f_0_85) = true).
  { apply (SFleb_trans _ (calculate_fees hi)); try assumption;
      [apply Nf|apply Nfh]. }
  apply SFsub_nonneg; try assumption; [apply Nf| |].
  - by apply (nonneg_finite_below _ (SFmul prec emax lo f_0_85)).
  - apply (SFleb_trans _ (SFmul prec emax lo f_0_85)); try assumption.
    apply Nf.
Qed.

(** Within the widget's range the fee never exceeds the converted amount:
    the amount received is not negative.  The range is covered in two
    stretches, up to 312.0 (fee 4.24, below 5.0 * 0.85 = 4.25) and from
    there on (fee at most 180.50, below 312.0 * 0.85 = 265.2). *)
Lemma received_not_negative a r :
  amount_in_range a -> valid r ->
  SFleb f_0_85 r = true -> SFleb r f_1750_0 = true ->
  (zero <=? round2 (a * r - calculate_fees a))%f64 = true.
Proof.
  intros (Va & La & Ha) Vr Lr Hr. apply round2_leb_zero.
  destruct (between_positive f_5_0 f_15000_0 a ltac:(reflexivity)
              ltac:(reflexivity) Va ltac:(reflexivity) ltac:(reflexivity)
              La Ha) as (ma & ea & Ea & _).
  set (mid := S754_finite false 5488761510395904 (-44)).
  assert (Vmid : valid mid) by reflexivity.
  destruct (SFleb a mid) eqn:Hs.
  - refine (received_step f_5_0 mid a r _ Vmid Va Vr _ La Hs _ Lr Hr _ _ _);
      vm_compute; reflexivity.
  - assert (Hs' : SFleb mid a = true).
    { assert (Fa : is_finite a = true) by (by rewrite Ea).
      rewrite (SFleb_units a mid Va Vmid Fa eq_refl) in Hs.
      rewrite (SFleb_units mid a Vmid Va eq_refl Fa).
      apply Z.leb_gt in Hs. apply Z.leb_le. lia. }
    refine (received_step mid f_15000_0 a r Vmid _ Va Vr _ Hs' Ha _ Lr Hr
              _ _ _); vm_compute; reflexivity.
Qed.

(** C5, amended.  [create_quote] has no failure path.  For every input,
    also one whose [round(amount * rate - fee, 2)] is negative, it returns
    a quote with that [amount_received] and stores it under its id,
    touching neither users nor ledger; for [("USD", "EUR", 0.50)] the
    amount received is -0.04.  Only the amount widget keeps such amounts
    away: for a binary64 amount in its range, 5.0 to 15000.0, and a draw
    within the range of [random.uniform], pinned pair or not, the amount
    received is not negative. *)
Theorem create_quote_never_rejects st source target amount uid u now :
  let r := create_quote st source target amount uid u now in
  Quote.amount_received r.2
  = round2 (amount * Quote.rate r.2 - Quote.fees r.2)%f64
  /\ Quote.rate r.2 = resolve_rate source target u
  /\ Quote.fees r.2 = calculate_fees amount
  /\ Quote.amount_sent r.2 = amount
  /\ Quote.id r.2 = uid
  /\ quotes r.1 !! uid = Some r.2
  /\ users r.1 = users st
  /\ transactions r.1 = transactions st
  /\ Quote.amount_received
       (create_quote st "USD" "EUR" (lit 50 2) uid u now).2 = lit (-4) 2
  /\ (amount_in_range amount -> valid u -> uniform_0_85_1_15 u ->
      (zero <=? Quote.amount_received r.2)%f64 = true).
Proof.
  cbv zeta. do 5 (split; [reflexivity|]).
  split; [cbn; apply lookup_insert_eq|]. do 2 (split; [reflexivity|]).
  split; [vm_compute; reflexivity|].
  intros Ha Vu Hu.
  destruct (resolve_rate_range source target u Vu Hu) as (Vr & Lr & Hr).
  unfold create_quote. cbn [snd Quote.amount_received].
  by apply received_not_negative.
Qed.

Lemma create_quote_never_rejects_witness :
  (zero <=? Quote.amount_received
              (create_quote initial_state "NGN" "USD" (lit 5 0) "quote-1"
                 f_0_85 0).2)%f64 = true.
Proof.
  pose proof (create_quote_never_rejects initial_state "NGN" "USD" (lit 5 0)
                "quote-1" f_0_85 0) as H.
  cbv zeta in H. destruct H as (_ & _ & _ & _ & _ & _ & _ & _ & _ & H).
  apply H.
  - repeat split; vm_compute; reflexivity.
  - reflexivity.
  - split; reflexivity.
Defined.

(** ** Insufficient funds *)

(** C3, as stated, fails: with 2500 USD, a quote for 15000 USD (fee 180.50)
    is confirmed all the same; nothing is signalled and the USD balance
    becomes -12680.50. *)
Lemma overdraft_is_settled :
  balance_of (quoted (lit 15000 0)) "+234" "USD" = Some f_2500_00
  /\ current_quote (quoted (lit 15000 0))
     = Some (Quote.mk "quote-1" "USD" "NGN" f_1620_0 (lit 18050 2) ten_minutes
               (lit 15000 0) (lit 242998195 1))
  /\ (f_2500_00 <? lit 15000 0 + lit 18050 2)%f64 = true
  /\ (confirmed (lit 15000 0)).2
     = Complete (tx_of (lit 15000 0) (lit 242998195 1))
  /\ signalled (confirmed (lit 15000 0)).2 = None
  /\ balance_of (confirmed (lit 15000 0)).1 "+234" "USD"
     = Some (lit (-126805) 1).
Proof. vm_compute. repeat split; reflexivity. Qed.

(** C3, amended.  There is no funds check.  When the sender's balance in
    the source currency is less than [amount_sent + fees], confirming the
    current quote before its expiry still completes: nothing is signalled,
    a ["Settled"] transaction is appended, the sender's source-currency
    balance becomes [balance - (amount_sent + fees)], which is negative,
    and every other balance is unchanged. *)
Theorem overdraft_is_debited st phone rp now uid ts quote sender bal :
  current_quote st = Some quote ->
  now < Quote.expiry quote ->
  users st !! phone = Some sender ->
  User.currencies sender !! Quote.source_currency quote = Some bal ->
  valid (Currency.balance bal) ->
  valid (Quote.amount_sent quote) ->
  valid (Quote.fees quote) ->
  (Currency.balance bal <? Quote.amount_sent quote + Quote.fees quote)%f64
  = true ->
  let r := quote_panel st phone rp true now uid ts in
  let left := (Currency.balance bal
               - (Quote.amount_sent quote + Quote.fees quote))%f64 in
  (exists tx, r.2 = Complete tx /\ Transaction.status tx = "Settled"
              /\ transactions r.1 = transactions st ++ [tx])
  /\ signalled r.2 = None
  /\ balance_of r.1 phone (Quote.source_currency quote) = Some left
  /\ (left <? zero)%f64 = true
  /\ (forall p c, p <> phone \/ c <> Quote.source_currency quote ->
        balance_of r.1 p c = balance_of st p c).
Proof.
  intros Hq Hnow Hu Hc Vb Va Vf Hlt. cbv zeta.
  unfold quote_panel, remaining. rewrite Hq.
  destruct (Z.leb_spec (Z.max 0 (Quote.expiry quote - now)) 0); [lia|].
  destruct (confirm_transfer_complete st phone rp quote uid ts _ _ Hu Hc)
    as (tx & st' & Heq & -> & Htx & _ & _ & Hbal).
  split; [|split; [|split; [|split]]].
  - rewrite Heq. eexists. split; [reflexivity|]. split; [reflexivity|exact Htx].
  - by rewrite Heq.
  - by rewrite Heq.
  - apply SFsub_neg; [exact Vb | by apply SFadd_valid | exact Hlt].
  - intros p c Hpc. by apply confirm_transfer_balance_frame.
Qed.

Lemma overdraft_is_debited_witness :
  balance_of (confirmed (lit 15000 0)).1 "+234" "USD"
  = Some (f_2500_00 - (lit 15000 0 + lit 18050 2))%f64
  /\ (f_2500_00 - (lit 15000 0 + lit 18050 2) <? zero)%f64 = true.
Proof.
  pose proof
    (overdraft_is_debited (quoted (lit 15000 0)) "+234" "+15550100"
       1000000 "tx-2" 1000000
       (Quote.mk "quote-1" "USD" "NGN" f_1620_0 (lit 18050 2) ten_minutes
          (lit 15000 0) (lit 242998195 1))
       (demo_user "user-1" "+234") (Currency.mk "USD" f_2500_00)) as H.
  cbv zeta in H.
  destruct H as (_ & _ & H3 & H4 & _); [vm_compute; reflexivity ..|].
  split; [vm_cast_no_check H3 | vm_cast_no_check H4].
Defined.

(** ** Non-negative balances *)

(** C4, as stated, fails: the one account of the session holds 2500 USD,
    1800 EUR and 4500000 NGN, all non-negative, and after the confirmation
    of a quote for 15000 USD its USD balance is -12680.50. *)
Lemma balance_goes_negative :
  users (quoted (lit 15000 0)) = {[ "+234" := demo_user "user-1" "+234" ]}
  /\ (zero <=? f_2500_00)%f64 = true
  /\ (zero <=? f_1800_00)%f64 = true
  /\ (zero <=? f_4500000_00)%f64 = true
  /\ (exists tx, (confirmed (lit 15000 0)).2 = Complete tx)
  /\ balance_of (confirmed (lit 15000 0)).1 "+234" "USD"
     = Some (lit (-126805) 1)
  /\ (lit (-126805) 1 <? zero)%f64 = true
  /\ (zero <=? lit (-126805) 1)%f64 = false.
Proof.
  split; [vm_compute; reflexivity|].
  do 3 (split; [reflexivity|]).
  split; [eexists; vm_compute; reflexivity|].
  split; [vm_compute; reflexivity|]. split; reflexivity.
Qed.

Lemma balance_of_users st st' p c :
  users st' = users st -> balance_of st' p c = balance_of st p c.
Proof. unfold balance_of. by intros ->. Qed.

Lemma sidebar_balances_ok st phone uid :
  balances_ok st -> balances_ok (sidebar st phone uid).
Proof.
  intros Hok. unfold sidebar. destruct (decide _); [done|].
  destruct (users st !! phone) eqn:Hu; [done|].
  intros p c b. unfold balance_of. cbn.
  destruct (decide (p = phone)) as [->|Hne].
  - rewrite lookup_insert_eq. cbn.
    rewrite !lookup_insert, lookup_empty.
    repeat case_decide; cbn; intros [= <-]; split; reflexivity.
  - rewrite lookup_insert_ne by done. apply Hok.
Qed.

Lemma get_locked_quote_users st w env :
  users (get_locked_quote st w env) = users st.
Proof. unfold get_locked_quote. by destruct (_ && _). Qed.

Lemma confirm_transfer_balances_ok st phone rp quote uid ts :
  balances_ok st -> affordable st phone quote ->
  balances_ok (confirm_transfer st phone rp quote uid ts).1.
Proof.
  intros Hok Haff p c b.
  destruct (decide (p = phone /\ c = Quote.source_currency quote))
    as [[-> ->]|Hne].
  - destruct (users st !! phone) as [sender|] eqn:Hu.
    + destruct (User.currencies sender !! Quote.source_currency quote)
        as [bal|] eqn:Hc.
      * destruct (confirm_transfer_complete st phone rp quote uid ts _ _ Hu Hc)
          as (tx & st' & Heq & _ & _ & _ & _ & Hbal).
        rewrite Heq. cbn [fst]. rewrite Hbal. intros [= <-].
        assert (Hb : balance_of st phone (Quote.source_currency quote)
                     = Some (Currency.balance bal)).
        { unfold balance_of. rewrite Hu. cbn. by rewrite Hc. }
        destruct (Hok _ _ _ Hb) as [Vb _].
        destruct (Haff _ Hb) as (Va & Vf & Fs & Hle).
        assert (Vs : valid (Quote.amount_sent quote + Quote.fees quote)%f64)
          by (by apply SFadd_valid).
        split; [by apply SFsub_valid | by apply SFsub_nonneg].
      * unfold confirm_transfer. rewrite Hu, Hc. apply Hok.
    + unfold confirm_transfer. rewrite Hu. apply Hok.
  - rewrite confirm_transfer_balance_frame; [apply Hok|].
    destruct (decide (p = phone)); [right|left]; naive_solver.
Qed.

(** The sidebar adds the demo account of an unseen phone and nothing else:
    an account that exists keeps its record. *)
Lemma sidebar_keeps_users st phone uid p u :
  users st !! p = Some u -> users (sidebar st phone uid) !! p = Some u.
Proof.
  intros Hp. unfold sidebar. destruct (decide _); [done|].
  destruct (users st !! phone) eqn:Hu; [done|]. cbn.
  rewrite lookup_insert_ne; [done|]. intros <-. congruence.
Qed.

Lemma sidebar_keeps_balances st phone uid p c b :
  balance_of st p c = Some b -> balance_of (sidebar st phone uid) p c = Some b.
Proof.
  unfold balance_of. destruct (users st !! p) as [u|] eqn:Hp; [|done].
  by rewrite (sidebar_keeps_users _ _ _ _ _ Hp).
Qed.

(** Whatever the panel does short of completing a transfer, the accounts
    are as before. *)
Lemma quote_panel_keeps_users st phone rp confirm now uid ts :
  (forall tx, (quote_panel st phone rp confirm now uid ts).2 <> Complete tx) ->
  users (quote_panel st phone rp confirm now uid ts).1 = users st.
Proof.
  unfold quote_panel. destruct (current_quote st) as [quote|]; [|done].
  destruct (_ <=? _); [done|]. destruct confirm; [|done].
  unfold confirm_transfer.
  destruct (users st !! phone) as [sender|]; [|done].
  destruct (User.currencies sender !! _) as [bal|]; [|done].
  intros H. by destruct (H _ eq_refl).
Qed.

Lemma quote_panel_expired_users st phone rp confirm now uid ts quote :
  current_quote st = Some quote -> Quote.expiry quote <= now ->
  (quote_panel st phone rp confirm now uid ts).2 = Expired
  /\ users (quote_panel st phone rp confirm now uid ts).1 = users st.
Proof.
  intros Hq Hnow. unfold quote_panel, remaining. rewrite Hq.
  destruct (Z.leb_spec (Z.max 0 (Quote.expiry quote - now)) 0); [done|lia].
Qed.

(** C4, amended.  Balances are not protected: the confirmation debits
    without a funds check.  Starting from binary64 balances that are not
    negative, a run of the script leaves every balance non-negative
    provided that, if it confirms a quote, the debit [amount_sent + fees]
    is finite and covered by the sender's source-currency balance.  The
    sidebar, quote creation and expiry never lower a balance: the sidebar
    leaves every existing balance as it is (it only adds the demo balances
    of a new phone), creating a quote and dropping an expired one leave
    all balances as they are, and so a run that does not complete a
    transfer changes no existing balance. *)
Theorem covered_debits_keep_balances_nonneg st w env :
  balances_ok st ->
  let st1 := sidebar st (w_phone w) (uuid_user env) in
  let st2 := get_locked_quote st1 w env in
  (forall quote,
     current_quote st2 = Some quote -> w_confirm w = true ->
     now_panel env < Quote.expiry quote ->
     affordable st2 (w_phone w) quote) ->
  balances_ok (script st w env).1
  /\ (forall p c b, balance_of st p c = Some b -> balance_of st1 p c = Some b)
  /\ (forall p c, balance_of st2 p c = balance_of st1 p c)
  /\ (forall quote p c confirm,
        current_quote st2 = Some quote -> Quote.expiry quote <= now_panel env ->
        let r := quote_panel st2 (w_phone w) (w_receiver_phone w) confirm
                   (now_panel env) (uuid_tx env) (now_class env) in
        r.2 = Expired /\ balance_of r.1 p c = balance_of st2 p c)
  /\ ((forall tx, (script st w env).2 <> Complete tx) ->
      forall p c b, balance_of st p c = Some b ->
        balance_of (script st w env).1 p c = Some b).
Proof.
  intros Hok. cbv zeta. intros Haff.
  split; [|split; [|split; [|split]]].
  - unfold script.
    set (st1 := sidebar st (w_phone w) (uuid_user env)) in *.
    assert (H1 : balances_ok st1) by (by apply sidebar_balances_ok).
    destruct (decide _); [exact H1|].
    set (st2 := get_locked_quote st1 w env) in *.
    assert (H2 : balances_ok st2).
    { intros p c b. rewrite (balance_of_users st1) by apply get_locked_quote_users.
      apply H1. }
    unfold quote_panel, remaining.
    destruct (current_quote st2) as [quote|] eqn:Hq; [|exact H2].
    destruct (Z.leb_spec (Z.max 0 (Quote.expiry quote - now_panel env)) 0);
      [exact H2|].
    destruct (w_confirm w) eqn:Hc; [|exact H2].
    apply confirm_transfer_balances_ok; [exact H2|].
    apply Haff; [reflexivity..|lia].
  - intros p c b. apply sidebar_keeps_balances.
  - intros p c. apply balance_of_users, get_locked_quote_users.
  - intros quote p c confirm Hq Hnow.
    destruct (quote_panel_expired_users _ (w_phone w) (w_receiver_phone w)
                confirm _ (uuid_tx env) (now_class env) _ Hq Hnow) as [Ho Hu].
    split; [exact Ho|]. by apply balance_of_users.
  - intros Hno p c b Hb.
    apply (sidebar_keeps_balances _ (w_phone w) (uuid_user env)) in Hb.
    revert Hno. unfold script.
    set (st1 := sidebar st (w_phone w) (uuid_user env)) in *.
    destruct (decide _); [done|]. intros Hno.
    rewrite (balance_of_users (get_locked_quote st1 w env))
      by (by apply quote_panel_keeps_users).
    by rewrite (balance_of_users st1) by apply get_locked_quote_users.
Qed.

Lemma covered_debits_keep_balances_nonneg_witness :
  balance_of (confirmed (lit 100 0)).1 "+234" "USD" = Some (lit 23983 1)
  /\ valid (lit 23983 1)
  /\ (zero <=? lit 23983 1)%f64 = true.
Proof.
  assert (H0 : balances_ok initial_state) by (intros p c b; discriminate).
  assert (H1 : balances_ok (quoted (lit 100 0))).
  { apply (covered_debits_keep_balances_nonneg initial_state
             (ask (lit 100 0)) (env_at "1" 0) H0).
    intros quote _ Hc. discriminate Hc. }
  assert (H2 : balances_ok (confirmed (lit 100 0)).1).
  { apply (covered_debits_keep_balances_nonneg (quoted (lit 100 0))
             (press_confirm (lit 100 0)) (env_at "2" 1000000) H1).
    intros quote Hq _ _ b Hb.
    vm_compute in Hq. injection Hq as <-.
    vm_compute in Hb. injection Hb as <-.
    repeat split; vm_compute; reflexivity. }
  assert (Hb : balance_of (confirmed (lit 100 0)).1 "+234" "USD"
               = Some (lit 23983 1)) by (vm_compute; reflexivity).
  destruct (H2 _ _ _ Hb) as [Hv Hn]. auto.
Defined.

(** ** Further properties of the script *)

(** *** Expiry, at the instant *)

(** X1.  The panel refuses the current quote exactly from its expiry on:
    at [now = expiry] the quote is already expired, and before that no
    expiry is ever reported.  An expired quote is dropped from the
    session. *)
Theorem quote_expires_at_expiry st phone rp confirm now uid ts quote :
  current_quote st = Some quote ->
  let r := quote_panel st phone rp confirm now uid ts in
  (r.2 = Expired <-> Quote.expiry quote <= now)
  /\ (Quote.expiry quote <= now -> r.1 = set_current_quote None st).
Proof.
  intros Hq. cbv zeta. unfold quote_panel, remaining. rewrite Hq.
  destruct (Z.leb_spec (Z.max 0 (Quote.expiry quote - now)) 0) as [H|H].
  - split; [split; [lia|reflexivity]|reflexivity].
  - split; [|lia]. split; [|lia].
    destruct confirm; [|discriminate]. unfold confirm_transfer.
    destruct (users st !! phone) as [sender|]; [|discriminate].
    destruct (User.currencies sender !! _); discriminate.
Qed.

Lemma quote_expires_at_expiry_witness :
  (quote_panel (quoted (lit 100 0)) "+234" "+15550100" true ten_minutes
     "tx-2" 0).2 = Expired
  /\ (quote_panel (quoted (lit 100 0)) "+234" "+15550100" true
        (ten_minutes - 1) "tx-2" 0).2 <> Expired.
Proof.
  split.
  - apply (quote_expires_at_expiry (quoted (lit 100 0)) "+234" "+15550100" true
             ten_minutes "tx-2" 0
             (Quote.mk "quote-1" "USD" "NGN" f_1620_0 (lit 170 2) ten_minutes
                (lit 100 0) (lit 16199830 2))).
    + vm_compute. reflexivity.
    + vm_compute. discriminate.
  - intros H.
    apply (quote_expires_at_expiry (quoted (lit 100 0)) "+234" "+15550100" true
             (ten_minutes - 1) "tx-2" 0
             (Quote.mk "quote-1" "USD" "NGN" f_1620_0 (lit 170 2) ten_minutes
                (lit 100 0) (lit 16199830 2))) in H.
    + vm_compute in H. apply H. reflexivity.
    + vm_compute. reflexivity.
Defined.

(** *** What a run, and a session, can write *)

Lemma sidebar_users st phone uid p :
  users (sidebar st phone uid) !! p
  = match users st !! p with
    | Some u => Some u
    | None => if decide (p = phone /\ phone <> "")
              then Some (demo_user uid phone) else None
    end.
Proof.
  unfold sidebar. destruct (decide (phone = "")) as [->|Hne].
  - destruct (users st !! p); [done|].
    rewrite decide_False; [done|]. intros [_ Hne]. by apply Hne.
  - destruct (users st !! phone) eqn:Hu.
    + destruct (users st !! p) eqn:Hp; [done|].
      rewrite decide_False; [done|]. intros [-> _]. congruence.
    + cbn. destruct (decide (p = phone)) as [->|Hp].
      * rewrite lookup_insert_eq, Hu. by rewrite decide_True.
      * rewrite lookup_insert_ne by done.
        destruct (users st !! p); [done|].
        rewrite decide_False; [done|]. by intros [? _].
Qed.

Lemma confirm_transfer_cases st phone rp quote uid ts :
  let r := confirm_transfer st phone rp quote uid ts in
  let tx :=
    Transaction.mk uid
      (default "" (User.id <$> users st !! phone)) rp
      (Quote.amount_sent quote) (Quote.source_currency quote)
      (Quote.amount_received quote) (Quote.target_currency quote)
      (Quote.id quote) "Settled" ts in
  (users st !! phone = None /\ r = (st, KeyError))
  \/ (exists sender, users st !! phone = Some sender
        /\ User.currencies sender !! Quote.source_currency quote = None
        /\ r = (set_transactions (fun l => l ++ [tx]) st, KeyError))
  \/ (exists sender bal, users st !! phone = Some sender
        /\ User.currencies sender !! Quote.source_currency quote = Some bal
        /\ r.2 = Complete tx
        /\ transactions r.1 = transactions st ++ [tx]
        /\ quotes r.1 = quotes st
        /\ current_quote r.1 = None).
Proof.
  cbv zeta. unfold confirm_transfer.
  destruct (users st !! phone) as [sender|] eqn:Hu; [|by left].
  destruct (User.currencies sender !! _) as [bal|] eqn:Hc.
  - right; right. exists sender, bal. cbn. auto 10.
  - right; left. exists sender. cbn. auto.
Qed.

Lemma get_locked_quote_quotes st w env :
  quotes (get_locked_quote st w env) = quotes st
  \/ (w_get_quote w = true /\ (zero <? w_amount w)%f64 = true
      /\ quotes (get_locked_quote st w env)
         = <[uuid_quote env :=
               (create_quote st (w_source_curr w) (w_target_curr w)
                  (w_amount w) (uuid_quote env) (uniform_draw env)
                  (now_quote env)).2]> (quotes st)).
Proof.
  unfold get_locked_quote.
  destruct (w_get_quote w); [|by left].
  destruct (zero <? w_amount w)%f64; [|by left].
  right. cbn. auto.
Qed.

(** What a run appends to the ledger: nothing, or one ["Settled"] entry
    for the quote that is current when the panel is reached. *)
Lemma script_appends st w env :
  transactions (script st w env).1 = transactions st
  \/ exists tx, transactions (script st w env).1 = transactions st ++ [tx]
                /\ Transaction.status tx = "Settled".
Proof.
  unfold script.
  destruct (sidebar_frame st (w_phone w) (uuid_user env)) as (H1 & _ & _).
  set (st1 := sidebar st (w_phone w) (uuid_user env)) in *.
  destruct (decide _); [by left|].
  destruct (get_locked_quote_frame st1 w env) as (_ & H2 & _).
  set (st2 := get_locked_quote st1 w env) in *.
  unfold quote_panel. destruct (current_quote st2) as [quote|];
    [|left; cbn; congruence].
  destruct (_ <=? _); [left; cbn; congruence|].
  destruct (w_confirm w); [|left; cbn; congruence].
  destruct (confirm_transfer_cases st2 (w_phone w) (w_receiver_phone w) quote
              (uuid_tx env) (now_class env))
    as [[_ ->]|[(s & _ & _ & ->)|(s & b & _ & _ & _ & -> & _)]].
  - left. cbn. congruence.
  - right. eexists. cbn. rewrite H2, H1. split; reflexivity.
  - right. eexists. rewrite H2, H1. split; reflexivity.
Qed.

(** X2.  The ledger is append-only and holds settled transfers only: over
    any session it grows by at most one entry per run, earlier entries are
    never changed or removed, and every entry added has status
    ["Settled"]. *)
Theorem ledger_is_append_only st runs :
  exists added,
    transactions (session st runs) = transactions st ++ added
    /\ (length added <= length runs)%nat
    /\ Forall (fun tx => Transaction.status tx = "Settled") added.
Proof.
  revert st. induction runs as [|[w env] runs IH]; intros st.
  - exists []. cbn. by rewrite app_nil_r.
  - rewrite session_cons.
    destruct (IH (script st w env).1) as (l & -> & Hlen & Hall).
    destruct (script_appends st w env) as [->|(tx & -> & Htx)].
    + exists l. cbn. split; [done|]. split; [lia|done].
    + exists (tx :: l). rewrite <- app_assoc. cbn.
      split; [done|]. split; [lia|]. by constructor.
Qed.

Lemma script_quotes st w env k :
  uuid_quote env <> k ->
  quotes (script st w env).1 !! k = quotes st !! k.
Proof.
  intros Hk. unfold script.
  destruct (sidebar_frame st (w_phone w) (uuid_user env)) as (_ & H1 & _).
  set (st1 := sidebar st (w_phone w) (uuid_user env)) in *.
  destruct (decide _); [cbn; congruence|].
  assert (H2 : quotes (get_locked_quote st1 w env) !! k = quotes st1 !! k).
  { destruct (get_locked_quote_quotes st1 w env) as [->|(_ & _ & ->)];
      [done|]. by rewrite lookup_insert_ne. }
  set (st2 := get_locked_quote st1 w env) in *.
  unfold quote_panel. destruct (current_quote st2) as [quote|];
    [|cbn; congruence].
  destruct (_ <=? _); [cbn; congruence|].
  destruct (w_confirm w); [|cbn; congruence].
  rewrite confirm_transfer_quotes. congruence.
Qed.

(** X3.  Stored quotes are never removed or altered: a quote stays in the
    store exactly as created through any session, also after it has
    expired or been settled, as long as no later [uuid4] repeats its
    key. *)
Theorem stored_quotes_are_kept st runs k quote :
  quotes st !! k = Some quote ->
  Forall (fun r => uuid_quote r.2 <> k) runs ->
  quotes (session st runs) !! k = Some quote.
Proof.
  revert st. induction runs as [|[w env] runs IH]; intros st Hq Hall; [done|].
  apply Forall_cons in Hall as [Hk Hall]. cbn in Hk.
  rewrite session_cons. apply IH; [|done].
  by rewrite script_quotes.
Qed.

Lemma stored_quotes_are_kept_witness :
  quotes (session (quoted (lit 100 0))
            [(press_confirm (lit 100 0), env_at "2" 1000000);
             (ask (lit 100 0), env_at "3" 2000000)]) !! "quote-1"
  = Some (Quote.mk "quote-1" "USD" "NGN" f_1620_0 (lit 170 2) ten_minutes
            (lit 100 0) (lit 16199830 2)).
Proof.
  apply stored_quotes_are_kept.
  - vm_compute. reflexivity.
  - repeat constructor; vm_compute; discriminate.
Defined.

(** *** Accounts *)

Lemma quote_panel_domain st phone rp confirm now uid ts p :
  is_Some (users (quote_panel st phone rp confirm now uid ts).1 !! p)
  <-> is_Some (users st !! p).
Proof.
  unfold quote_panel. destruct (current_quote st) as [quote|]; [|done].
  destruct (_ <=? _); [done|]. destruct confirm; [|done].
  unfold confirm_transfer.
  destruct (users st !! phone) as [sender|] eqn:Hu; [|done].
  destruct (User.currencies sender !! _) as [bal|]; [|done]. cbn.
  destruct (decide (p = phone)) as [->|Hne].
  - rewrite lookup_insert_eq, Hu. split; eauto.
  - by rewrite lookup_insert_ne.
Qed.

Lemma script_domain st w env p :
  is_Some (users (script st w env).1 !! p)
  <-> is_Some (users st !! p) \/ (p = w_phone w /\ p <> "").
Proof.
  assert (H1 : is_Some (users (sidebar st (w_phone w) (uuid_user env)) !! p)
               <-> is_Some (users st !! p) \/ (p = w_phone w /\ p <> "")).
  { rewrite sidebar_users. destruct (users st !! p) as [u|].
    - split; eauto.
    - destruct (decide _) as [[-> Hne]|Hn].
      + split; eauto.
      + split; [by intros [? ?]|]. intros [[? ?]|[-> ?]]; [done|].
        destruct Hn. done. }
  unfold script. destruct (decide _); [exact H1|].
  rewrite quote_panel_domain, get_locked_quote_users. exact H1.
Qed.

(** X4.  Accounts exist exactly for the phones entered in the sidebar: after
    any session a phone has an account if and only if it had one before or
    it was, non-empty, the sidebar phone of some run.  Being named as the
    receiver of a transfer, completed or not, never creates one. *)
Theorem accounts_are_the_sidebar_phones st runs p :
  is_Some (users (session st runs) !! p)
  <-> is_Some (users st !! p)
      \/ (p <> "" /\ p ∈ (fun r => w_phone r.1) <$> runs).
Proof.
  revert st. induction runs as [|[w env] runs IH]; intros st.
  - cbn. split; [by left|]. intros [H|[_ H]]; [done|].
    by apply elem_of_nil in H.
  - rewrite session_cons, IH, script_domain, fmap_cons, elem_of_cons.
    cbn [fst]. split.
    + intros [[H|[-> H]]|[H1 H2]]; auto.
    + intros [H|[H1 [->|H2]]]; auto.
Qed.

(** X5.  A run changes no account but the sidebar phone's: over a session
    in which [p] is never the sidebar phone, the record of [p], present or
    absent, stays as it is, and so does what [resolve_receiver] and the
    receiver line of the page say of it. *)
Theorem other_accounts_are_untouched st runs p :
  Forall (fun r => w_phone r.1 <> p) runs ->
  users (session st runs) !! p = users st !! p
  /\ resolve_receiver (session st runs) p = resolve_receiver st p
  /\ receiver_name (session st runs) p = receiver_name st p.
Proof.
  intros Hall.
  assert (H : users (session st runs) !! p = users st !! p).
  { revert st Hall. induction runs as [|[w env] runs IH]; intros st Hall;
      [done|].
    apply Forall_cons in Hall as [Hp Hall]. cbn in Hp.
    rewrite session_cons, (IH _ Hall). unfold script.
    assert (H1 : users (sidebar st (w_phone w) (uuid_user env)) !! p
                 = users st !! p).
    { rewrite sidebar_users. destruct (users st !! p); [done|].
      rewrite decide_False; [done|]. by intros [-> _]. }
    destruct (decide _); [exact H1|].
    set (st2 := get_locked_quote _ w env).
    assert (H2 : users st2 !! p = users st !! p)
      by (unfold st2; by rewrite get_locked_quote_users).
    unfold quote_panel.
    destruct (current_quote st2) as [quote|]; [|exact H2].
    destruct (_ <=? _); [exact H2|]. destruct (w_confirm w); [|exact H2].
    rewrite confirm_transfer_other_users; [exact H2|]. congruence. }
  unfold receiver_name, resolve_receiver. by rewrite H.
Qed.

Lemma other_accounts_are_untouched_witness :
  receiver_name
    (session initial_state
       [(ask (lit 100 0), env_at "1" 0);
        (press_confirm (lit 100 0), env_at "2" 1000000)]) "+15550100"
  = "Unknown (will create on send)".
Proof.
  destruct (other_accounts_are_untouched initial_state
              [(ask (lit 100 0), env_at "1" 0);
               (press_confirm (lit 100 0), env_at "2" 1000000)] "+15550100")
    as (_ & _ & H).
  - repeat constructor; vm_compute; discriminate.
  - rewrite H. reflexivity.
Defined.

(** *** Crashes *)

(** X6.  In a session with offered currencies the handler crashes in one
    case only, a confirmation with the sidebar phone left empty (line 191),
    and then nothing has been written: no transaction, no debit. *)
Theorem key_error_writes_nothing st w env :
  settles_once st -> offered w ->
  (script st w env).2 = KeyError ->
  w_phone w = "" /\ users st !! "" = None /\ w_confirm w = true
  /\ transactions (script st w env).1 = transactions st
  /\ users (script st w env).1 = users st.
Proof.
  intros (Hh & Hc & _) [Hsrc _]. unfold script.
  destruct (sidebar_frame st (w_phone w) (uuid_user env)) as (T1 & _ & C1).
  pose proof (sidebar_holds_supported st (w_phone w) (uuid_user env) Hh) as Hh1.
  pose proof (sidebar_users st (w_phone w) (uuid_user env) (w_phone w)) as U1.
  assert (E1 : w_phone w = "" -> sidebar st (w_phone w) (uuid_user env) = st).
  { intros E. unfold sidebar. by rewrite decide_True. }
  set (st1 := sidebar st (w_phone w) (uuid_user env)) in *.
  destruct (decide (w_receiver_phone w = "")); [cbn; intros [=]|].
  destruct (get_locked_quote_frame st1 w env) as (U2 & T2 & C2).
  set (st2 := get_locked_quote st1 w env) in *.
  assert (P2 : forall quote, current_quote st2 = Some quote ->
            Quote.source_currency quote ∈ supported).
  { intros quote Hq. destruct C2 as [C2|(q' & C2 & _ & Hs)].
    - rewrite C2, C1 in Hq. by destruct (Hc _ Hq).
    - rewrite C2 in Hq. injection Hq as <-. by rewrite Hs. }
  clear C2. unfold quote_panel.
  destruct (current_quote st2) as [quote|]; [|cbn; intros [=]].
  destruct (_ <=? _); [cbn; intros [=]|].
  destruct (w_confirm w); [|cbn; intros [=]].
  pose proof (P2 quote eq_refl) as Hs.
  unfold confirm_transfer. rewrite U2.
  destruct (users st1 !! w_phone w) as [sender|] eqn:Hu.
  - destruct (Hh1 _ _ _ Hu Hs) as [bal ->]. cbn. intros [=].
  - intros _. cbn [fst]. rewrite T2, T1, U2.
    destruct (users st !! w_phone w) eqn:Hu0; [done|].
    destruct (decide (w_phone w = w_phone w /\ w_phone w <> ""))
      as [_|Hn]; [done|].
    assert (E : w_phone w = "").
    { destruct (decide (w_phone w = "")) as [E|E]; [done|].
      destruct Hn. done. }
    rewrite (E1 E). rewrite E in Hu0. done.
Qed.

Lemma key_error_writes_nothing_witness :
  transactions
    (script (quoted (lit 100 0))
       (mk_widgets "" "+15550100" "USD" "NGN" (lit 100 0) false true)
       (env_at "2" 1000000)).1 = []
  /\ balance_of
       (script (quoted (lit 100 0))
          (mk_widgets "" "+15550100" "USD" "NGN" (lit 100 0) false true)
          (env_at "2" 1000000)).1 "+234" "USD" = Some f_2500_00.
Proof.
  assert (Hinv : settles_once (quoted (lit 100 0))).
  { apply (script_settles_once initial_state (ask (lit 100 0)) (env_at "1" 0)).
    - apply settles_once_initial.
    - split; repeat constructor.
    - apply unused_initial. }
  destruct (key_error_writes_nothing (quoted (lit 100 0))
              (mk_widgets "" "+15550100" "USD" "NGN" (lit 100 0) false true)
              (env_at "2" 1000000) Hinv) as (_ & _ & _ & HT & HU).
  - split; repeat constructor.
  - vm_compute. reflexivity.
  - split.
    + rewrite HT. reflexivity.
    + unfold balance_of. rewrite HU. vm_compute. reflexivity.
Defined.

(** X7.  The append of line 200 comes before the balance lookup of line
    203: if the sender's account lacks the quote's source currency, the
    confirmation crashes after it has recorded a ["Settled"] transaction;
    no balance is debited and the quote stays current, so that a further
    press records it again. *)
Theorem missing_currency_is_recorded st phone rp now uid ts quote sender :
  current_quote st = Some quote -> now < Quote.expiry quote ->
  users st !! phone = Some sender ->
  User.currencies sender !! Quote.source_currency quote = None ->
  let r := quote_panel st phone rp true now uid ts in
  r.2 = KeyError
  /\ (exists tx, transactions r.1 = transactions st ++ [tx]
                 /\ Transaction.status tx = "Settled"
                 /\ Transaction.quote_id tx = Quote.id quote)
  /\ users r.1 = users st
  /\ current_quote r.1 = Some quote.
Proof.
  intros Hq Hnow Hu Hc. cbv zeta. unfold quote_panel, remaining. rewrite Hq.
  destruct (Z.leb_spec (Z.max 0 (Quote.expiry quote - now)) 0); [lia|].
  unfold confirm_transfer. rewrite Hu, Hc. cbn.
  split; [done|]. split; [eauto|]. done.
Qed.

Lemma missing_currency_is_recorded_witness :
  let st :=
    (script initial_state
       (mk_widgets "+234" "+15550100" "GBP" "NGN" (lit 100 0) true false)
       (env_at "1" 0)).1 in
  (quote_panel st "+234" "+15550100" true 1000000 "tx-2" 1000000).2 = KeyError
  /\ length (transactions
               (quote_panel st "+234" "+15550100" true 1000000 "tx-2"
                  1000000).1) = 1%nat.
Proof.
  cbv zeta.
  pose proof
    (missing_currency_is_recorded
       (script initial_state
          (mk_widgets "+234" "+15550100" "GBP" "NGN" (lit 100 0) true false)
          (env_at "1" 0)).1 "+234" "+15550100" 1000000 "tx-2" 1000000
       (Quote.mk "quote-1" "GBP" "NGN" f_1_0 (lit 170 2) ten_minutes
          (lit 100 0) (lit 983 1))
       (demo_user "user-1" "+234")) as H.
  cbv zeta in H.
  destruct H as (H1 & (tx & H2 & _) & _); [vm_compute; reflexivity ..|].
  split; [exact H1|]. rewrite H2. reflexivity.
Defined.

(** *** Asking for a quote *)

(** X8.  A quote asked for with a positive amount is created, stored under
    its id, made the current quote in place of any earlier one, and shown
    in the same run, provided less than ten minutes pass between its
    creation and the expiry check; the ledger is not touched. *)
Theorem fresh_quote_is_shown st w env :
  w_receiver_phone w <> "" -> w_get_quote w = true -> w_confirm w = false ->
  (zero <? w_amount w)%f64 = true ->
  now_panel env < now_quote env + ten_minutes ->
  let quote :=
    (create_quote st (w_source_curr w) (w_target_curr w) (w_amount w)
       (uuid_quote env) (uniform_draw env) (now_quote env)).2 in
  let r := script st w env in
  r.2 = Shown
  /\ current_quote r.1 = Some quote
  /\ quotes r.1 !! uuid_quote env = Some quote
  /\ quote_time r.1 = Some (time_time env)
  /\ transactions r.1 = transactions st.
Proof.
  intros Hr Hg Hc Ha Hnow. cbv zeta. unfold script.
  destruct (sidebar_frame st (w_phone w) (uuid_user env)) as (T1 & _ & _).
  set (st1 := sidebar st (w_phone w) (uuid_user env)) in *.
  destruct (decide _); [done|].
  unfold get_locked_quote. rewrite Hg, Ha. cbn [andb].
  unfold create_quote, quote_panel, remaining.
  cbn [current_quote set_quote_time set_current_quote Quote.expiry snd].
  destruct (Z.leb_spec (Z.max 0 (now_quote env + ten_minutes - now_panel env)) 0);
    [lia|].
  rewrite Hc. cbn. rewrite lookup_insert_eq. auto.
Qed.

Lemma fresh_quote_is_shown_witness :
  (script initial_state (ask (lit 100 0)) (env_at "1" 0)).2 = Shown
  /\ current_quote (script initial_state (ask (lit 100 0)) (env_at "1" 0)).1
     = Some (Quote.mk "quote-1" "USD" "NGN" f_1620_0 (lit 170 2) ten_minutes
               (lit 100 0) (lit 16199830 2)).
Proof.
  destruct (fresh_quote_is_shown initial_state (ask (lit 100 0)) (env_at "1" 0))
    as (H1 & H2 & _); [vm_compute; discriminate|reflexivity..| |].
  - vm_compute. reflexivity.
  - split; [exact H1|]. rewrite H2. vm_compute. reflexivity.
Defined.

(** *** The ledger and the quote store *)

Lemma get_locked_quote_backed st w env :
  ledger_backed st -> quotes st !! uuid_quote env = None ->
  ledger_backed (get_locked_quote st w env).
Proof.
  intros (Hc & Hq & Ht) Hnew. unfold get_locked_quote.
  destruct (_ && _); [|done]. unfold create_quote, ledger_backed.
  unfold set_quote_time, set_current_quote, set_quotes.
  cbn [current_quote quotes transactions users].
  split; [|split].
  - intros quote [= <-]. cbn [Quote.id]. apply lookup_insert_eq.
  - intros k quote. destruct (decide (k = uuid_quote env)) as [->|Hne].
    + rewrite lookup_insert_eq. intros [= <-]. by repeat split.
    + rewrite lookup_insert_ne by done. apply Hq.
  - eapply Forall_impl; [exact Ht|]. intros tx (quote & Hl & Hm).
    exists quote. split; [|exact Hm].
    rewrite lookup_insert_ne; [exact Hl|]. intros Heq.
    rewrite <- Heq in Hl. congruence.
Qed.

Lemma quote_panel_backed st phone rp confirm now uid ts :
  ledger_backed st ->
  ledger_backed (quote_panel st phone rp confirm now uid ts).1.
Proof.
  intros (Hc & Hq & Ht). unfold quote_panel.
  destruct (current_quote st) as [quote|] eqn:Hcur; [|by rewrite <- Hcur in Hc].
  assert (Hdrop : ledger_backed (set_current_quote None st))
    by (split; [done|by split]).
  assert (Hkeep : ledger_backed st)
    by (split; [by rewrite Hcur|by split]).
  destruct (_ <=? _); [exact Hdrop|]. destruct confirm; [|exact Hkeep].
  assert (Hadd : forall uid' sid,
            Forall (fun tx => exists quote0,
                      quotes st !! Transaction.quote_id tx = Some quote0
                      /\ tx_matches quote0 tx)
              (transactions st ++
                 [Transaction.mk uid' sid rp (Quote.amount_sent quote)
                    (Quote.source_currency quote)
                    (Quote.amount_received quote)
                    (Quote.target_currency quote) (Quote.id quote)
                    "Settled" ts])).
  { intros uid' sid. apply Forall_app. split; [exact Ht|].
    constructor; [|constructor]. exists quote. cbn.
    split; [by apply Hc|]. by repeat split. }
  unfold confirm_transfer.
  destruct (users st !! phone) as [sender|]; [|exact Hkeep].
  destruct Hkeep as (Hc' & _ & _).
  destruct (User.currencies sender !! _) as [bal|].
  - split; [done|]. split; [exact Hq|apply Hadd].
  - split; [exact Hc'|]. split; [exact Hq|apply Hadd].
Qed.

Lemma script_backed st w env :
  ledger_backed st -> quotes st !! uuid_quote env = None ->
  ledger_backed (script st w env).1.
Proof.
  intros Hb Hnew. unfold script.
  assert (H1 : ledger_backed (sidebar st (w_phone w) (uuid_user env))
               /\ quotes (sidebar st (w_phone w) (uuid_user env)) = quotes st).
  { unfold sidebar. destruct (decide _); [done|].
    by destruct (users st !! w_phone w). }
  destruct H1 as [H1 Q1].
  destruct (decide _); [exact H1|].
  apply quote_panel_backed, get_locked_quote_backed; [exact H1|].
  by rewrite Q1.
Qed.

Lemma session_backed runs : forall st,
  ledger_backed st ->
  NoDup ((fun r => uuid_quote r.2) <$> runs) ->
  Forall (fun r => quotes st !! uuid_quote r.2 = None) runs ->
  ledger_backed (session st runs).
Proof.
  induction runs as [|[w env] runs IH]; intros st Hb Hnd Hnew; [done|].
  rewrite fmap_cons in Hnd. cbn [snd] in Hnd.
  apply NoDup_cons in Hnd as [Hfresh Hnd].
  apply Forall_cons in Hnew as [Hk Hnew]. cbn [snd] in Hk.
  rewrite session_cons. apply IH; [by apply script_backed|exact Hnd|].
  rewrite Forall_forall in Hnew. apply Forall_forall. intros r Hr.
  rewrite script_quotes; [by apply Hnew|].
  intros Heq. apply Hfresh. rewrite Heq.
  by apply (list_elem_of_fmap_2 (fun r => uuid_quote r.2)).
Qed.

(** X9.  Every transaction on the ledger is backed by a stored quote: in
    any session from the empty store in which [uuid4] never returns a
    quote id twice, each recorded transaction names a quote that is still
    in the store under that id and copies its amounts and currencies, and
    the amount it records as received is
    [round(amount_sent * rate - fee(amount_sent), 2)] for the quote's
    rate. *)
Theorem ledger_is_backed_by_quotes runs tx :
  NoDup ((fun r => uuid_quote r.2) <$> runs) ->
  tx ∈ transactions (session initial_state runs) ->
  exists quote,
    quotes (session initial_state runs) !! Transaction.quote_id tx = Some quote
    /\ tx_matches quote tx
    /\ Transaction.amount_received tx
       = round2 (Transaction.amount_sent tx * Quote.rate quote
                 - calculate_fees (Transaction.amount_sent tx))%f64.
Proof.
  intros Hnd Htx.
  destruct (session_backed runs initial_state) as (_ & Hq & Ht).
  - split; [done|]. split; [|constructor].
    intros k quote Hk. cbn in Hk. by rewrite lookup_empty in Hk.
  - exact Hnd.
  - apply Forall_forall. intros r _. apply lookup_empty.
  - rewrite Forall_forall in Ht. destruct (Ht tx Htx) as (quote & Hl & Hm).
    exists quote. split; [exact Hl|]. split; [exact Hm|].
    destruct (Hq _ _ Hl) as [_ [Hf Hr]].
    destruct Hm as (_ & Ha & _ & Hrec & _).
    by rewrite Hrec, Ha, Hr, Hf.
Qed.

Lemma ledger_is_backed_by_quotes_witness :
  exists quote,
    quotes (session initial_state
              [(ask (lit 100 0), env_at "1" 0);
               (press_confirm (lit 100 0), env_at "2" 1000000)])
      !! Transaction.quote_id (tx_of (lit 100 0) (lit 16199830 2))
    = Some quote
    /\ tx_matches quote (tx_of (lit 100 0) (lit 16199830 2))
    /\ Transaction.amount_received (tx_of (lit 100 0) (lit 16199830 2))
       = round2 (Transaction.amount_sent (tx_of (lit 100 0) (lit 16199830 2))
                 * Quote.rate quote
                 - calculate_fees
                     (Transaction.amount_sent
                        (tx_of (lit 100 0) (lit 16199830 2))))%f64.
Proof.
  apply ledger_is_backed_by_quotes.
  - apply (bool_decide_unpack _). vm_compute. reflexivity.
  - vm_compute. constructor.
Defined.

(** *** Recent activity *)

Lemma recent_activity_take st :
  recent_activity st = take 5 (reverse (transactions st)).
Proof. unfold recent_activity. by rewrite take_reverse. Qed.

(** X10.  "Recent Activity" lists at most five transactions, and a
    transfer completed in a run is the first entry shown at the end of that
    run, followed by the entries shown before, the oldest of five dropping
    out. *)
Theorem completed_transfer_is_shown_first st w env tx :
  (script st w env).2 = Complete tx ->
  recent_activity (script st w env).1 = tx :: take 4 (recent_activity st)
  /\ (length (recent_activity (script st w env).1) <= 5)%nat.
Proof.
  intros Hrun.
  destruct (script_complete st w env (script st w env).1 tx) as (_ & Htx & _).
  { by destruct (script st w env) as [s o]; cbn in *; subst. }
  rewrite !recent_activity_take, Htx, reverse_snoc. cbn [take].
  rewrite take_take. split; [reflexivity|].
  cbn [length]. rewrite length_take. lia.
Qed.

Lemma completed_transfer_is_shown_first_witness :
  recent_activity (confirmed (lit 100 0)).1
  = [tx_of (lit 100 0) (lit 16199830 2)].
Proof.
  destruct (completed_transfer_is_shown_first (quoted (lit 100 0))
              (press_confirm (lit 100 0)) (env_at "2" 1000000)
              (tx_of (lit 100 0) (lit 16199830 2))) as [H _].
  - vm_compute. reflexivity.
  - etransitivity; [exact H|]. vm_compute. reflexivity.
Defined.

(** ** The fee over the widgets' ranges, and across the two versions *)

Lemma nonneg_positive_finite m e :
  valid (S754_finite false m e) -> nonneg (S754_finite false m e).
Proof. intros Hv. split; [exact Hv|exact I]. Qed.

(** X11.  Over the range of the amount widget the fee stays between the
    fees of the two ends: from 0.56 to 180.50 for [src/app.py] (amounts 5.0
    to 15000.0), from 1.01 to 151.0 for [src/App.py] (amounts 1.0 to
    10000.0). *)
Theorem fees_within_widget_range a b :
  amount_in_range a ->
  valid b -> (f_1_0 <=? b)%f64 = true -> (b <=? lit 10000 0)%f64 = true ->
  ((lit 56 2 <=? calculate_fees a)%f64 = true
   /\ (calculate_fees a <=? lit 1805 1)%f64 = true)
  /\ ((lit 101 2 <=? Prototype.calculate_fees b)%f64 = true
      /\ (Prototype.calculate_fees b <=? lit 151 0)%f64 = true).
Proof.
  intros (Va & La & Ha) Vb Lb Hb.
  pose proof (positive_nonneg a Va (leb_positive_ltb_zero _ _ _ La)) as Na.
  pose proof (positive_nonneg b Vb (leb_positive_ltb_zero _ _ _ Lb)) as Nb.
  assert (N5 : nonneg f_5_0) by (by apply nonneg_positive_finite).
  assert (N15 : nonneg f_15000_0) by (by apply nonneg_positive_finite).
  assert (N1 : nonneg f_1_0) by (by apply nonneg_positive_finite).
  set (top := S754_finite false 5497558138880000 (-39)).
  assert (Etop : lit 10000 0 = top) by (vm_compute; reflexivity).
  rewrite Etop in Hb.
  assert (Nt : nonneg top) by (by apply nonneg_positive_finite).
  destruct (fee_rules_mono f_5_0 a N5 Na La) as [[_ H1] _].
  destruct (fee_rules_mono a f_15000_0 Na N15 Ha) as [[_ H2] _].
  destruct (fee_rules_mono f_1_0 b N1 Nb Lb) as [_ [_ H3]].
  destruct (fee_rules_mono b top Nb Nt Hb) as [_ [_ H4]].
  replace (lit 56 2) with (calculate_fees f_5_0) by (vm_compute; reflexivity).
  replace (lit 1805 1) with (calculate_fees f_15000_0)
    by (vm_compute; reflexivity).
  replace (lit 101 2) with (Prototype.calculate_fees f_1_0)
    by (vm_compute; reflexivity).
  replace (lit 151 0) with (Prototype.calculate_fees top)
    by (vm_compute; reflexivity).
  auto.
Qed.

Lemma fees_within_widget_range_witness :
  (lit 56 2 <=? calculate_fees (lit 100 0))%f64 = true
  /\ (Prototype.calculate_fees (lit 100 0) <=? lit 151 0)%f64 = true.
Proof.
  destruct (fees_within_widget_range (lit 100 0) (lit 100 0))
    as [[H1 _] [_ H2]].
  - repeat split; vm_compute; reflexivity.
  - reflexivity.
  - vm_compute. reflexivity.
  - vm_compute. reflexivity.
  - split; [exact H1|exact H2].
Defined.

Lemma round2_mono x y :
  nonneg x -> nonneg y -> SFleb x y = true ->
  nonneg (round2 x) /\ SFleb (round2 x) (round2 y) = true.
Proof.
  intros Nx Ny Hle.
  destruct (lift_mono round2
              (fun u => rne_div (100 * u) (2 ^ 1074) * 2 ^ 1074) 100)
    with (x := x) (y := y) as (R1 & _ & Rle); try assumption.
  - lia.
  - intros u Hu. assert (HP : 0 < 2 ^ 1074) by (apply Z.pow_pos_nonneg; lia).
    destruct (rne_div_spec (100 * u) (2 ^ 1074) ltac:(lia) HP) as [Hq _]. nia.
  - intros u v Huv. assert (HP : 0 < 2 ^ 1074) by (apply Z.pow_pos_nonneg; lia).
    apply Z.mul_le_mono_nonneg_r; [lia|]. apply rne_div_mono; nia.
  - apply (round2_units 1).
  - reflexivity.
  - by split.
Qed.

(** Adding a larger positive constant to a larger non-negative float gives
    a larger sum. *)
Lemma SFadd_mono_fixed m1 e1 m2 e2 x y :
  valid (S754_finite false m1 e1) -> valid (S754_finite false m2 e2) ->
  Zpos m1 * 2 ^ (e1 + 1074) <= Zpos m2 * 2 ^ (e2 + 1074) ->
  nonneg x -> nonneg y -> SFleb x y = true ->
  nonneg (SFadd prec emax x (S754_finite false m1 e1))
  /\ nonneg (SFadd prec emax y (S754_finite false m2 e2))
  /\ SFleb (SFadd prec emax x (S754_finite false m1 e1))
           (SFadd prec emax y (S754_finite false m2 e2)) = true.
Proof.
  intros V1 V2 Hc Nx Ny Hle.
  destruct (valid_units_pos _ _ _ V1) as [_ P1].
  destruct (valid_units_pos _ _ _ V2) as [_ P2].
  assert (A1 : forall z, nonneg z -> is_finite z = true ->
            forall m e, valid (S754_finite false m e) ->
            nonneg (SFadd prec emax z (S754_finite false m e))).
  { intros z Nz Fz m e V. rewrite (add_fixed_units 1 m e V z Nz Fz).
    destruct (valid_units_pos _ _ _ V) as [_ P].
    pose proof (nonneg_units z Nz). cbn [units cond_Zopp].
    apply nonneg_round_units; lia. }
  assert (I1 : forall z, nonneg z -> is_finite z = false ->
            forall m e, SFadd prec emax z (S754_finite false m e)
                        = S754_infinity false).
  { intros z [_ Sz] Fz m e.
    destruct z as [[]|[]| |[] ? ?]; try destruct Sz; try discriminate.
    reflexivity. }
  destruct (is_finite y) eqn:Fy.
  - assert (Fx : is_finite x = true).
    { destruct Nx as [_ Sx], Ny as [_ Sy].
      destruct x as [[]|[]| |[] ? ?]; try destruct Sx; try reflexivity.
      destruct y as [[]|[]| |[] ? ?]; try destruct Sy; discriminate. }
    split; [by apply A1|]. split; [by apply A1|].
    rewrite (add_fixed_units 1 m1 e1 V1 x Nx Fx).
    rewrite (add_fixed_units 1 m2 e2 V2 y Ny Fy).
    rewrite SFleb_units in Hle by (assumption || apply Nx || apply Ny).
    apply Z.leb_le in Hle. pose proof (nonneg_units x Nx).
    cbn [units cond_Zopp]. apply round_units_mono; lia.
  - rewrite (I1 y Ny Fy). split; [|split; [by split|]].
    + destruct (is_finite x) eqn:Fx; [by apply A1|].
      rewrite (I1 x Nx Fx). by split.
    + apply nonneg_leb_inf.
      destruct (is_finite x) eqn:Fx; [by apply A1|].
      rewrite (I1 x Nx Fx). by split.
Qed.

(** Multiplying a positive float by a larger normal constant gives a
    larger product. *)
Lemma SFmul_mono_rate m1 e1 m2 e2 a :
  valid (S754_finite false m1 e1) -> valid (S754_finite false m2 e2) ->
  2 ^ 52 <= Zpos m1 -> 2 ^ 52 <= Zpos m2 ->
  Zpos m1 * 2 ^ (e1 + 1074) <= Zpos m2 * 2 ^ (e2 + 1074) ->
  valid a -> SFltb (S754_zero false) a = true ->
  nonneg (SFmul prec emax a (S754_finite false m1 e1))
  /\ nonneg (SFmul prec emax a (S754_finite false m2 e2))
  /\ SFleb (SFmul prec emax a (S754_finite false m1 e1))
           (SFmul prec emax a (S754_finite false m2 e2)) = true.
Proof.
  intros V1 V2 N1 N2 Hc Va Pa.
  destruct a as [[]|[]| |[] m e]; try discriminate.
  - cbn. repeat split.
  - destruct (valid_units_pos _ _ _ Va) as [_ P].
    destruct (valid_units_pos _ _ _ V1) as [_ P1].
    destruct (valid_units_pos _ _ _ V2) as [_ P2].
    assert (HP : 0 < 2 ^ 1074) by (apply Z.pow_pos_nonneg; lia).
    split; [|split].
    + rewrite SFmul_units by assumption. apply nonneg_round_units; lia.
    + rewrite SFmul_units by assumption. apply nonneg_round_units; lia.
    + apply SFmul_mono; try assumption. lia.
Qed.

(** X12.  The rewrite lowered the fee: for every positive binary64 amount
    the fee of [src/app.py], 1.2% + 0.50, is at most the fee of the
    prototype [src/App.py], 1.5% + 1.0. *)
Theorem fee_was_lowered a :
  valid a -> (zero <? a)%f64 = true ->
  (calculate_fees a <=? Prototype.calculate_fees a)%f64 = true.
Proof.
  intros Va Pa. unfold calculate_fees, Prototype.calculate_fees.
  destruct (SFmul_mono_rate 6917529027641082 (-59) 8646911284551352 (-59) a)
    as (M1 & M2 & Mle); try assumption; try reflexivity;
    try (apply Z.leb_le; reflexivity).
  destruct (SFadd_mono_fixed 4503599627370496 (-53) 4503599627370496 (-52)
              (SFmul prec emax a f_0_012) (SFmul prec emax a f_0_015))
    as (A1 & A2 & Ale); try assumption; try reflexivity;
    try (apply Z.leb_le; reflexivity).
  exact (proj2 (round2_mono _ _ A1 A2 Ale)).
Qed.

Lemma fee_was_lowered_witness :
  (calculate_fees (lit 100 0) <=? Prototype.calculate_fees (lit 100 0))%f64
  = true.
Proof. apply fee_was_lowered; reflexivity. Defined.

(** ** The prototype's script *)


